(** * Smart-signal: the traffic-flow rating program [flow.py]

    A shallow embedding of [calculate_green_times], of the class
    [TrafficSimulation] ([__init__], [optimize_signals], [simulate]) and
    of the interactive layer ([get_user_input], [get_input_list],
    [get_emergency_accident_input], [get_index_list], [main]), followed
    by the properties stated about them.

    Modelling conventions.
    - Python numbers are modelled twice.  In the first model they are
      exact rationals ([Q]); [/] is true division and raises
      [ZeroDivisionError] on a zero divisor.  Rounding, overflow and the
      special values of binary floating point are not in that model; it
      carries the properties of the control flow (which branch runs, what
      is appended and printed, in which order) and of the formulas as
      identities between rationals.
    - [Module Binary64] models the numbers as Python has them: an [int]
      is an unbounded integer, a [float] is a binary64 float, an
      operation between the two converts the int first, [int / int] is
      the correctly rounded quotient, a conversion that does not fit
      raises [OverflowError], and a comparison between an int and a float
      is exact.  The properties that depend on the values computed, on
      the exceptions raised and on the text of a formatted float are
      stated on this model.  [np.mean] belongs to numpy, not to the
      program: in the first model it is the exact mean, in [Binary64] it
      is a parameter.
    - A Python list is a [list]; [xs[i]] raises [IndexError] out of range.
    - [set(...)] of indices is a [gset nat]; only membership of a loop
      index is ever tested, so entries that are not naturals play no role.
    - Exceptions and the mutation of [self.flow], [self.bad_scenarios],
      [self.rating] and of the console are threaded by a small state and
      exception monad.  The state survives a raised exception, as the
      fields of a Python object do.
    - [print(f"...")] appends one line to the console; a line is kept as
      the f-string's fragments, so no float has to be rendered. *)

From Stdlib Require Import QArith Qminmax Qabs Lqa Ascii Floats Uint63.
From stdpp Require Import gmap strings list pretty sorting.

Local Open Scope Q_scope.

(** ** Python numbers *)

Definition Qlt_bool (x y : Q) : bool := negb (Qle_bool y x).

(** [max(a, b)] keeps its first argument unless the second is greater. *)
Definition py_max (a b : Q) : Q := if Qlt_bool a b then b else a.

(** [min(a, b)] keeps its first argument unless the second is smaller. *)
Definition py_min (a b : Q) : Q := if Qlt_bool b a then b else a.

(** Round a non-negative rational to the nearest integer, ties to even. *)
Definition round_half_even (q : Q) : Z :=
  let n := Qnum q in
  let d := Z.pos (Qden q) in
  let f := (n / d)%Z in
  let r := (2 * (n mod d))%Z in
  if (r <? d)%Z then f
  else if (d <? r)%Z then (f + 1)%Z
  else if Z.even f then f else (f + 1)%Z.

(** [f"{x:.2f}"]: sign, integer part, a dot and two decimals. *)
Definition format_2f (x : Q) : string :=
  let c := round_half_even (Qabs x * 100) in
  (if Qlt_bool x 0 then "-" else "")
    +:+ pretty (c / 100)%Z +:+ "."
    +:+ pretty (c mod 100 / 10)%Z +:+ pretty (c mod 10)%Z.

(** [np.mean] of a non-empty list. *)
Definition np_mean (xs : list Q) : Q :=
  foldr Qplus 0 xs / inject_Z (Z.of_nat (length xs)).

(** ** Exceptions and the state monad *)

Inductive exception : Set := ZeroDivisionError | IndexError.

Inductive outcome (A : Type) : Type :=
| Return (a : A)
| Raise (e : exception).
Arguments Return {A} a.
Arguments Raise {A} e.

#[global] Instance exception_eq_dec : EqDecision exception.
Proof. solve_decision. Defined.

Definition M (St A : Type) : Type := St → outcome A * St.

Definition ret {St A} (a : A) : M St A := λ σ, (Return a, σ).

Definition bind {St A B} (m : M St A) (k : A → M St B) : M St B :=
  λ σ, match m σ with
       | (Return a, σ') => k a σ'
       | (Raise e, σ') => (Raise e, σ')
       end.

Definition raise {St A} (e : exception) : M St A := λ σ, (Raise e, σ).

Definition gets {St A} (f : St → A) : M St A := λ σ, (Return (f σ), σ).

Definition modify {St} (f : St → St) : M St unit := λ σ, (Return tt, f σ).

(** [try: body except exn: handler]; any other exception propagates. *)
Definition try_except {St A} (body : M St A) (exn : exception)
    (handler : M St A) : M St A :=
  λ σ, match body σ with
       | (Return a, σ') => (Return a, σ')
       | (Raise e, σ') =>
           if decide (e = exn) then handler σ' else (Raise e, σ')
       end.

Declare Scope py_scope.
Delimit Scope py_scope with py.
Notation "x ← m ; k" := (bind m (λ x, k))
  (at level 20, m at level 100, k at level 200, only parsing) : py_scope.
Notation "m ;; k" := (bind m (λ _, k))
  (at level 100, k at level 200, only parsing, right associativity)
  : py_scope.
Local Open Scope py_scope.

(** [for x in xs: body x] *)
Fixpoint for_in {St A} (xs : list A) (body : A → M St unit) : M St unit :=
  match xs with
  | [] => ret tt
  | x :: xs' => body x ;; for_in xs' body
  end.

(** [range(n)] *)
Definition range (n : nat) : list nat := seq 0 n.

(** [a / b] *)
Definition py_div {St} (a b : Q) : M St Q :=
  if Qeq_bool b 0 then raise ZeroDivisionError else ret (a / b).

(** [xs[i]] for [i >= 0] *)
Definition index {St A} (xs : list A) (i : nat) : M St A :=
  match xs !! i with
  | Some x => ret x
  | None => raise IndexError
  end.

(** ** The console *)

Inductive fragment : Type :=
| Text (s : string)
| Int (n : nat)
| Num (q : Q).

Definition line : Type := list fragment.

Class Console (St : Type) := console_write : line → St → St.

Definition print {St} `{Console St} (l : line) : M St unit :=
  modify (console_write l).

#[global] Instance stdout_console : Console (list line) :=
  λ l out, out ++ [l].

(** ** class TrafficSimulation *)

Record TrafficSimulation : Type := {
  distances : list Q;
  speeds : list Q;
  volumes : list Q;
  green_times : list Q;
  emergencies : gset nat;
  accidents : gset nat;
  flow : list Q;
  bad_scenarios : list (nat * string);
  rating : option Q
}.

(** The object under simulation together with the console. *)
Record World : Type := {
  self : TrafficSimulation;
  stdout : list line
}.

#[global] Instance world_console : Console World :=
  λ l w, {| self := self w; stdout := stdout w ++ [l] |}.

Definition __init__ (distances speeds volumes green_times : list Q)
    (emergencies accidents : list nat) : TrafficSimulation :=
  {| distances := distances;
     speeds := speeds;
     volumes := volumes;
     green_times := green_times;
     emergencies := list_to_set emergencies;
     accidents := list_to_set accidents;
     flow := [];
     bad_scenarios := [];
     rating := None |}.

(** [self.flow.append(x)] *)
Definition flow_append (x : Q) : M World unit :=
  modify (λ w,
    let s := self w in
    {| self := {| distances := distances s; speeds := speeds s;
                  volumes := volumes s; green_times := green_times s;
                  emergencies := emergencies s; accidents := accidents s;
                  flow := flow s ++ [x];
                  bad_scenarios := bad_scenarios s;
                  rating := rating s |};
       stdout := stdout w |}).

(** [self.bad_scenarios.append(b)] *)
Definition bad_scenarios_append (b : nat * string) : M World unit :=
  modify (λ w,
    let s := self w in
    {| self := {| distances := distances s; speeds := speeds s;
                  volumes := volumes s; green_times := green_times s;
                  emergencies := emergencies s; accidents := accidents s;
                  flow := flow s;
                  bad_scenarios := bad_scenarios s ++ [b];
                  rating := rating s |};
       stdout := stdout w |}).

(** [self.rating = r] *)
Definition set_rating (r : Q) : M World unit :=
  modify (λ w,
    let s := self w in
    {| self := {| distances := distances s; speeds := speeds s;
                  volumes := volumes s; green_times := green_times s;
                  emergencies := emergencies s; accidents := accidents s;
                  flow := flow s;
                  bad_scenarios := bad_scenarios s;
                  rating := Some r |};
       stdout := stdout w |}).

(** The divisor [3600] is a literal, so this division cannot raise. *)
Definition optimize_signals (s : TrafficSimulation) : list Q :=
  zip_with (λ gt volume, py_max gt (volume * 2 / 3600 * 60))
    (green_times s) (volumes s).

(** The body of the [for i in range(num_signals)] loop of [simulate]. *)
Definition simulate_signal (optimized_green_times : list Q) (i : nat)
    : M World unit :=
  in_accidents ← gets (λ w, bool_decide (i ∈ accidents (self w)));
  if in_accidents then
    flow_append 0 ;;
    bad_scenarios_append (i, "Accident")
  else
  in_emergencies ← gets (λ w, bool_decide (i ∈ emergencies (self w)));
  if in_emergencies then
    flow_append 5 ;;
    bad_scenarios_append (i, "Emergency")
  else
    try_except
      (d ← (ds ← gets (λ w, distances (self w)); index ds i);
       s ← (ss ← gets (λ w, speeds (self w)); index ss i);
       travel_time ← py_div d s;
       g ← index optimized_green_times i;
       if Qle_bool travel_time g then
         flow_append 10
       else
         g1 ← index optimized_green_times i;
         let excess_time := travel_time - g1 in
         g2 ← index optimized_green_times i;
         ratio ← py_div excess_time g2;
         let penalty := py_min 9 (ratio * 9) in
         let flow_rating := py_max 1 (10 - penalty) in
         flow_append flow_rating ;;
         if Qlt_bool flow_rating 5 then
           bad_scenarios_append
             (i, "Low flow (Rating: " +:+ format_2f flow_rating +:+ ")")
         else ret tt)
      ZeroDivisionError
      (print [Text "Warning: Speed cannot be zero at signal index ";
              Int i; Text "."] ;;
       flow_append 0 ;;
       bad_scenarios_append (i, "Zero Speed")).

Definition simulate : M World Q :=
  optimized_green_times ← gets (λ w, optimize_signals (self w));
  num_signals ← gets (λ w, length (distances (self w)));
  for_in (range num_signals) (simulate_signal optimized_green_times) ;;
  fl ← gets (λ w, flow (self w));
  let r := match fl with [] => 0 | _ :: _ => np_mean fl end in
  set_rating r ;;
  ret r.

(** ** calculate_green_times *)

Fixpoint calculate_green_times_loop (zipped : list (Q * Q * Q))
    (green_times : list Q) : M (list line) (list Q) :=
  match zipped with
  | [] => ret green_times
  | (distance, speed, volume) :: rest =>
      if Qle_bool speed 0 then
        print [Text "Warning: Speed should be greater than zero for distance ";
               Num distance; Text "."] ;;
        calculate_green_times_loop rest (green_times ++ [0])
      else
        travel_time ← py_div distance speed;
        let volume_green_time := volume * 2 / 3600 * 60 in
        let green_time := py_max travel_time volume_green_time in
        calculate_green_times_loop rest (green_times ++ [green_time])
  end.

Definition calculate_green_times (distances speeds volumes : list Q)
    : M (list line) (list Q) :=
  calculate_green_times_loop (zip (zip distances speeds) volumes) [].

(** ** Running the program *)

(** Construct a simulation on an empty console and call [simulate]. *)
Definition run (distances speeds volumes green_times : list Q)
    (emergencies accidents : list nat) : outcome Q * World :=
  simulate
    {| self := __init__ distances speeds volumes green_times
                 emergencies accidents;
       stdout := [] |}.

Definition run_flow ds ss vs gs es acs : list Q :=
  flow (self (run ds ss vs gs es acs).2).

Definition run_bad_scenarios ds ss vs gs es acs : list (nat * string) :=
  bad_scenarios (self (run ds ss vs gs es acs).2).

Definition run_stdout ds ss vs gs es acs : list line :=
  stdout (run ds ss vs gs es acs).2.

(** ** What one loop iteration contributes

    [simulate_signal] only appends to [self.flow], [self.bad_scenarios] and
    the console.  Its contribution for signal [i] is observed by running it
    on the same object with these three emptied. *)

Definition blank (w : World) : World :=
  let s := self w in
  {| self := {| distances := distances s; speeds := speeds s;
                volumes := volumes s; green_times := green_times s;
                emergencies := emergencies s; accidents := accidents s;
                flow := [];
                bad_scenarios := [];
                rating := rating s |};
     stdout := [] |}.

(** [w] with the flow, bad scenarios and console lines of [w1] appended. *)
Definition extend (w w1 : World) : World :=
  let s := self w in
  {| self := {| distances := distances s; speeds := speeds s;
                volumes := volumes s; green_times := green_times s;
                emergencies := emergencies s; accidents := accidents s;
                flow := flow s ++ flow (self w1);
                bad_scenarios := bad_scenarios s ++ bad_scenarios (self w1);
                rating := rating s |};
     stdout := stdout w ++ stdout w1 |}.

(** [w] with its two disruption sets replaced. *)
Definition with_disruptions (es acs : gset nat) (w : World) : World :=
  let s := self w in
  {| self := {| distances := distances s; speeds := speeds s;
                volumes := volumes s; green_times := green_times s;
                emergencies := es; accidents := acs;
                flow := flow s;
                bad_scenarios := bad_scenarios s;
                rating := rating s |};
     stdout := stdout w |}.

Record effect : Type := {
  eff_flow : list Q;
  eff_bad : list (nat * string);
  eff_out : list line
}.

Definition effect_of (w : World) : effect :=
  {| eff_flow := flow (self w);
     eff_bad := bad_scenarios (self w);
     eff_out := stdout w |}.

Definition signal_effect (s : TrafficSimulation) (i : nat)
    : outcome unit * effect :=
  let '(r, w) :=
    simulate_signal (optimize_signals s) i
      (blank {| self := s; stdout := [] |}) in
  (r, effect_of w).

(** The warning [simulate] prints for signal [i]. *)
Definition zero_speed_warning (i : nat) : line :=
  [Text "Warning: Speed cannot be zero at signal index "; Int i; Text "."].

(** The warning [calculate_green_times] prints for an entry whose speed is
    zero or negative. *)
Definition speed_warning (distance : Q) : line :=
  [Text "Warning: Speed should be greater than zero for distance ";
   Num distance; Text "."].

(** The green time [calculate_green_times] appends for one entry. *)
Definition green_time (t : Q * Q * Q) : Q :=
  let '(distance, speed, volume) := t in
  if Qle_bool speed 0 then 0
  else py_max (distance / speed) (volume * 2 / 3600 * 60).

(** What the [except ZeroDivisionError] handler contributes. *)
Definition zero_speed_effect (i : nat) : effect :=
  {| eff_flow := [0];
     eff_bad := [(i, "Zero Speed")];
     eff_out := [zero_speed_warning i] |}.

(** The three components of [signal_effect]. *)
Definition signal_flow (s : TrafficSimulation) (i : nat) : list Q :=
  eff_flow (signal_effect s i).2.

Definition signal_bad (s : TrafficSimulation) (i : nat)
    : list (nat * string) :=
  eff_bad (signal_effect s i).2.

Definition signal_out (s : TrafficSimulation) (i : nat) : list line :=
  eff_out (signal_effect s i).2.

(** The label of a low-flow bad scenario. *)
Definition low_flow_label (flow_rating : Q) : string :=
  "Low flow (Rating: " +:+ format_2f flow_rating +:+ ")".

(** The bad scenarios recorded for signal [i]. *)
Definition bad_scenarios_at (i : nat) (bs : list (nat * string))
    : list (nat * string) :=
  filter (λ b, b.1 = i) bs.

(** * The interactive layer

    [get_user_input], [get_input_list], [get_emergency_accident_input],
    [get_index_list] and [main] read lines from standard input and write
    to the console.  A process is the lines still to be read and the
    console so far; [input(prompt)] writes its prompt like a line.  The
    built-ins [str.strip], [str.split] and [int] are parameters of the
    model, so what is proved holds whatever they compute; [int] yields an
    integer or raises [ValueError] with a message of its own.  A
    [while True] loop is unrolled [fuel] times, and running out of fuel
    yields [None]. *)

Inductive py_exception : Type :=
| ValueError (message : line)
| EOFError
| Uncaught (e : exception).

Inductive io_outcome (A : Type) : Type :=
| Done (a : A)
| Fail (e : py_exception).
Arguments Done {A} a.
Arguments Fail {A} e.

Record Process : Type := {
  stdin : list string;
  console : list line
}.

Definition IO (A : Type) : Type := Process → io_outcome A * Process.

Definition io_ret {A} (a : A) : IO A := λ p, (Done a, p).

Definition io_bind {A B} (m : IO A) (k : A → IO B) : IO B :=
  λ p, match m p with
       | (Done a, p') => k a p'
       | (Fail e, p') => (Fail e, p')
       end.

Definition io_raise {A} (e : py_exception) : IO A := λ p, (Fail e, p).

Declare Scope io_scope.
Delimit Scope io_scope with io.
Notation "x ← m ; k" := (io_bind m (λ x, k))
  (at level 20, m at level 100, k at level 200, only parsing) : io_scope.
Notation "m ;; k" := (io_bind m (λ _, k))
  (at level 100, k at level 200, only parsing, right associativity)
  : io_scope.

(** Code of the simulation core that only uses the console; an exception
    it raises is not one the interactive layer handles. *)
Definition on_console {A} (m : M (list line) A) : IO A :=
  λ p, let '(r, out) := m (console p) in
       (match r with
        | Return a => Done a
        | Raise e => Fail (Uncaught e)
        end,
        {| stdin := stdin p; console := out |}).

(** A method call on a simulation object; the object is handed back. *)
Definition on_simulation {A} (s : TrafficSimulation) (m : M World A)
    : IO (A * TrafficSimulation) :=
  λ p, let '(r, w) := m {| self := s; stdout := console p |} in
       (match r with
        | Return a => Done (a, self w)
        | Raise e => Fail (Uncaught e)
        end,
        {| stdin := stdin p; console := stdout w |}).

Definition io_print (l : line) : IO unit := on_console (print l).

(** [input()]: the next line, or [EOFError] when there is none. *)
Definition input : IO string :=
  λ p, match stdin p with
       | [] => (Fail EOFError, p)
       | s :: rest => (Done s, {| stdin := rest; console := console p |})
       end.

(** [input(prompt)] *)
Definition input_prompt (prompt : line) : IO string :=
  (io_print prompt ;; input)%io.

(** [for x in xs: body x] *)
Fixpoint io_for_in {A} (xs : list A) (body : A → IO unit) : IO unit :=
  match xs with
  | [] => io_ret tt
  | x :: xs' => (body x ;; io_for_in xs' body)%io
  end.

(** [print(f"Input error: {e}. Please try again.")] *)
Definition input_error (e : line) : line :=
  [Text "Input error: "] ++ e ++ [Text ". Please try again."].

Definition eof_error : line :=
  [Text "Input error: Unexpected end of input. Please provide input in the expected format."].

(** [while True: try: return body() except ValueError as e: print(...)
    except EOFError: print(...)], unrolled [fuel] times. *)
Fixpoint retry {A} (fuel : nat) (body : IO A) : IO (option A) :=
  match fuel with
  | O => io_ret None
  | S fuel' =>
      λ p, match body p with
           | (Done a, p') => (Done (Some a), p')
           | (Fail (ValueError e), p') =>
               (io_print (input_error e) ;; retry fuel' body)%io p'
           | (Fail EOFError, p') =>
               (io_print eof_error ;; retry fuel' body)%io p'
           | (Fail (Uncaught e), p') => (Fail (Uncaught e), p')
           end
  end.

(** [f"{xs}"] for a list of numbers. *)
Fixpoint comma_separated (xs : list Q) : line :=
  match xs with
  | [] => []
  | [x] => [Num x]
  | x :: xs' => Num x :: Text ", " :: comma_separated xs'
  end.

Definition list_repr (xs : list Q) : line :=
  [Text "["] ++ comma_separated xs ++ [Text "]"].

(** The integers read from the user, as the numbers the core computes
    with. *)
Definition numbers (zs : list Z) : list Q := inject_Z <$> zs.

(** The indices among the integers read from the user that [range] can
    produce: [i in self.emergencies] is only asked for [i >= 0], so a
    negative entry of the set is never found. *)
Definition nat_indices (zs : list Z) : list nat :=
  omap (λ z, if (0 <=? z)%Z then Some (Z.to_nat z) else None) zs.

(** The string built-ins: [s.strip()], [s.split()], [int(s)] where it
    succeeds, and the message of its [ValueError] where it does not. *)
Class Builtins : Type := {
  py_strip : string → string;
  py_split : string → list string;
  py_int : string → option Z;
  py_int_error : string → line
}.

Section Builtins.
Context {builtins : Builtins}.

Local Open Scope io_scope.

(** [int(s)] *)
Definition int (s : string) : IO Z :=
  match py_int s with
  | Some z => io_ret z
  | None => io_raise (ValueError (py_int_error s))
  end.

(** [list(map(int, tokens))] *)
Fixpoint map_int (tokens : list string) : IO (list Z) :=
  match tokens with
  | [] => io_ret []
  | t :: ts => z ← int t; zs ← map_int ts; io_ret (z :: zs)
  end.

Definition get_input_list (prompt : line) (expected_length : nat)
    : IO (list Z) :=
  io_print prompt ;;
  s ← input;
  values ← map_int (py_split (py_strip s));
  if bool_decide (length values ≠ expected_length) then
    io_raise (ValueError [Text "Expected "; Int expected_length;
                          Text " values, but got "; Int (length values);
                          Text "."])
  else io_ret values.

(** One pass through the [try] block of [get_user_input]. *)
Definition get_user_input_body : IO (nat * list Z * list Z * list Z) :=
  s ← input_prompt [Text "Enter the number of signals: "];
  n ← int (py_strip s);
  if (n <=? 0)%Z then
    io_raise (ValueError [Text "Number of signals must be positive."])
  else
    let num_signals := Z.to_nat n in
    distances ← get_input_list
      [Text "Enter distances between "; Int num_signals;
       Text " signals (space-separated):"] num_signals;
    speeds ← get_input_list
      [Text "Enter vehicle speeds for "; Int num_signals;
       Text " signals (space-separated):"] num_signals;
    volumes ← get_input_list
      [Text "Enter traffic volumes at "; Int num_signals;
       Text " signals (space-separated):"] num_signals;
    io_ret (num_signals, distances, speeds, volumes).

Definition get_user_input (fuel : nat)
    : IO (option (nat * list Z * list Z * list Z)) :=
  retry fuel get_user_input_body.

(** One pass through the [try] block of [get_index_list]. *)
Definition get_index_list_body (prompt : line) (num_signals : nat)
    : IO (list Z) :=
  io_print prompt ;;
  s ← input;
  let indices_input := py_strip s in
  if bool_decide (indices_input = "") then io_ret []
  else
    indices ← map_int (py_split indices_input);
    if existsb (λ i, (Z.of_nat num_signals <=? i)%Z) indices then
      io_raise
        (ValueError [Text "Indices must be within the range of signals."])
    else io_ret indices.

Definition get_index_list (fuel : nat) (prompt : line) (num_signals : nat)
    : IO (option (list Z)) :=
  retry fuel (get_index_list_body prompt num_signals).

Definition get_emergency_accident_input (fuel : nat) (num_signals : nat)
    : IO (option (list Z * list Z)) :=
  r1 ← get_index_list fuel
    [Text "Enter indices of signals with emergencies (space-separated) or press Enter to skip:"]
    num_signals;
  match r1 with
  | None => io_ret None
  | Some emergencies =>
      r2 ← get_index_list fuel
        [Text "Enter indices of signals with accidents (space-separated) or press Enter to skip:"]
        num_signals;
      match r2 with
      | None => io_ret None
      | Some accidents => io_ret (Some (emergencies, accidents))
      end
  end.

Definition main (fuel : nat) : IO (option unit) :=
  r1 ← get_user_input fuel;
  match r1 with
  | None => io_ret None
  | Some (num_signals, distances, speeds, volumes) =>
      r2 ← get_emergency_accident_input fuel num_signals;
      match r2 with
      | None => io_ret None
      | Some (emergencies, accidents) =>
          green_times ← on_console
            (calculate_green_times (numbers distances) (numbers speeds)
               (numbers volumes));
          io_print ([Text "Calculated Green Times for each signal: "]
                      ++ list_repr green_times) ;;
          let simulation :=
            __init__ (numbers distances) (numbers speeds) (numbers volumes)
              green_times (nat_indices emergencies) (nat_indices accidents)
          in
          r ← on_simulation simulation simulate;
          let '(rating, simulation) := r in
          io_print [Text "Simulation Rating (1-10): ";
                    Text (format_2f rating)] ;;
          (if bool_decide (bad_scenarios simulation ≠ []) then
             io_print [Text "Bad Scenarios:"] ;;
             io_for_in (bad_scenarios simulation)
               (λ '(index, reason),
                  io_print [Text "Signal "; Int index; Text ": ";
                            Text reason])
           else io_ret tt) ;;
          io_ret (Some tt)
      end
  end.

End Builtins.

(** ** The built-ins on ASCII decimal input

    To run the model on examples: whitespace is what [Ascii.is_space]
    accepts, and an integer is an optional sign followed by decimal
    digits.  (Python's [int] also accepts underscores between digits and
    digits outside ASCII.) *)

Fixpoint lstrip (s : string) : string :=
  match s with
  | EmptyString => EmptyString
  | String a s' => if Ascii.is_space a then lstrip s' else s
  end.

Definition ascii_strip (s : string) : string :=
  String.rev (lstrip (String.rev (lstrip s))).

Fixpoint digits (acc : Z) (s : string) : option Z :=
  match s with
  | EmptyString => Some acc
  | String a s' =>
      match Ascii.is_nat a with
      | Some d => digits (10 * acc + Z.of_nat d)%Z s'
      | None => None
      end
  end.

Definition ascii_int (s : string) : option Z :=
  match s with
  | EmptyString => None
  | String a s' =>
      if bool_decide (s' = EmptyString) then digits 0 s
      else if bool_decide (a = "-"%char) then Z.opp <$> digits 0 s'
      else if bool_decide (a = "+"%char) then digits 0 s'
      else digits 0 s
  end.

Definition ascii_builtins : Builtins :=
  {| py_strip := ascii_strip;
     py_split := String.words;
     py_int := ascii_int;
     py_int_error := λ s,
       [Text "invalid literal for int() with base 10: '"; Text s;
        Text "'"] |}.

(** * The program on ints and binary64 floats

    The same program with Python's numbers: [number] is an [int] or a
    [float], and every operation of [calculate_green_times],
    [optimize_signals] and [simulate] is Python's, with its rounding and
    its exceptions.  The monad, the console and the class are those of
    the first model, over these numbers and with [OverflowError] among
    the exceptions. *)

Module Binary64.

(** ** Python numbers *)

(** A number handled by the program: an [int], of any size, or a
    [float]. *)
Inductive number : Type :=
| PyInt (z : Z)
| PyFloat (f : float).

(** The exceptions the arithmetic and the indexing can raise. *)
Inductive exception : Set := ZeroDivisionError | IndexError | OverflowError.

Inductive outcome (A : Type) : Type :=
| Return (a : A)
| Raise (e : exception).
Arguments Return {A} a.
Arguments Raise {A} e.

(** The value of a finite float: [(-1)^s * m * 2^e]. *)
Definition finite_value (s : bool) (m : positive) (e : Z) : Q :=
  let v := if (0 <=? e)%Z then inject_Z (Z.pos m * 2 ^ e)
           else Z.pos m # Pos.pow 2 (Z.to_pos (- e)) in
  if s then - v else v.

(** The rational a float stands for; [None] for [inf], [-inf], [nan]. *)
Definition float_value (f : float) : option Q :=
  match Prim2SF f with
  | S754_zero _ => Some 0
  | S754_finite s m e => Some (finite_value s m e)
  | _ => None
  end.

Definition number_value (x : number) : option Q :=
  match x with
  | PyInt z => Some (inject_Z z)
  | PyFloat f => float_value f
  end.

(** [float(z)]: exact below 2^53, rounded to nearest even above, and
    [OverflowError] when the result would not be finite. *)
Definition int_to_float (z : Z) : outcome float :=
  if (Z.abs z <? 2 ^ 53)%Z then
    let f := PrimFloat.of_uint63 (Uint63.of_Z (Z.abs z)) in
    Return (if (z <? 0)%Z then PrimFloat.opp f else f)
  else
    match binary_normalize prec emax z 0 false with
    | S754_infinity _ => Raise OverflowError
    | s => Return (SF2Prim s)
    end.

(** The conversion applied to an operand that meets a float. *)
Definition as_float (x : number) : outcome float :=
  match x with
  | PyInt z => int_to_float z
  | PyFloat f => Return f
  end.

(** [a / b] for two ints: the quotient rounded once to the nearest float
    (ties to even), [ZeroDivisionError] for [b = 0], [OverflowError] when
    the quotient is too large.  Below 2^53 both ints are floats and the
    float division is that quotient; otherwise the integers are divided
    with enough bits for one rounding, a sticky bit recording a nonzero
    remainder. *)
Definition int_truediv (x y : Z) : outcome number :=
  if (y =? 0)%Z then Raise ZeroDivisionError
  else if ((Z.abs x <? 2 ^ 53) && (Z.abs y <? 2 ^ 53))%Z then
    match int_to_float x, int_to_float y with
    | Return fx, Return fy => Return (PyFloat (PrimFloat.div fx fy))
    | Raise e, _ | _, Raise e => Raise e
    end
  else
    let negative := xorb (x <? 0)%Z (y <? 0)%Z in
    let a := Z.abs x in
    let b := Z.abs y in
    let s := Z.max 0 (Z.log2 b - Z.log2 a + 55) in
    let n := (a * 2 ^ s)%Z in
    let m := (2 * (n / b) + (if (n mod b =? 0)%Z then 0 else 1))%Z in
    match binary_normalize prec emax (if negative then - m else m)
            (- s - 1) negative with
    | S754_infinity _ => Raise OverflowError
    | sf => Return (PyFloat (SF2Prim sf))
    end.

(** [x == 0] *)
Definition is_zero (x : number) : bool :=
  match x with
  | PyInt z => (z =? 0)%Z
  | PyFloat f => PrimFloat.eqb f PrimFloat.zero
  end.

(** An operation with a float operand: both operands as floats. *)
Definition float_op (op : float → float → float) (a b : number)
    : outcome number :=
  match as_float a with
  | Raise e => Raise e
  | Return fa =>
      match as_float b with
      | Raise e => Raise e
      | Return fb => Return (PyFloat (op fa fb))
      end
  end.

(** [a * b] *)
Definition py_mul (a b : number) : outcome number :=
  match a, b with
  | PyInt x, PyInt y => Return (PyInt (x * y))
  | _, _ => float_op PrimFloat.mul a b
  end.

(** [a - b] *)
Definition py_sub (a b : number) : outcome number :=
  match a, b with
  | PyInt x, PyInt y => Return (PyInt (x - y))
  | _, _ => float_op PrimFloat.sub a b
  end.

(** [a / b]: with a float operand the other one is converted first,
    then a zero divisor raises. *)
Definition py_truediv (a b : number) : outcome number :=
  match a, b with
  | PyInt x, PyInt y => int_truediv x y
  | _, _ =>
      match float_op PrimFloat.div a b with
      | Raise e => Raise e
      | Return q => if is_zero b then Raise ZeroDivisionError else Return q
      end
  end.

(** Comparisons between an int and a float are exact: the int is not
    rounded to a float. *)
Definition int_lt_float (x : Z) (g : float) : bool :=
  match Prim2SF g with
  | S754_nan => false
  | S754_infinity s => negb s
  | S754_zero _ => (x <? 0)%Z
  | S754_finite s m e => Qlt_bool (inject_Z x) (finite_value s m e)
  end.

Definition float_lt_int (f : float) (y : Z) : bool :=
  match Prim2SF f with
  | S754_nan => false
  | S754_infinity s => s
  | S754_zero _ => (0 <? y)%Z
  | S754_finite s m e => Qlt_bool (finite_value s m e) (inject_Z y)
  end.

Definition int_le_float (x : Z) (g : float) : bool :=
  match Prim2SF g with
  | S754_nan => false
  | S754_infinity s => negb s
  | S754_zero _ => (x <=? 0)%Z
  | S754_finite s m e => Qle_bool (inject_Z x) (finite_value s m e)
  end.

Definition float_le_int (f : float) (y : Z) : bool :=
  match Prim2SF f with
  | S754_nan => false
  | S754_infinity s => s
  | S754_zero _ => (0 <=? y)%Z
  | S754_finite s m e => Qle_bool (finite_value s m e) (inject_Z y)
  end.

(** [a < b] *)
Definition py_lt (a b : number) : bool :=
  match a, b with
  | PyInt x, PyInt y => (x <? y)%Z
  | PyInt x, PyFloat g => int_lt_float x g
  | PyFloat f, PyInt y => float_lt_int f y
  | PyFloat f, PyFloat g => PrimFloat.ltb f g
  end.

(** [a <= b] *)
Definition py_le (a b : number) : bool :=
  match a, b with
  | PyInt x, PyInt y => (x <=? y)%Z
  | PyInt x, PyFloat g => int_le_float x g
  | PyFloat f, PyInt y => float_le_int f y
  | PyFloat f, PyFloat g => PrimFloat.leb f g
  end.

(** [max(a, b)]: [b] if [b > a], else [a]. *)
Definition py_max (a b : number) : number := if py_lt a b then b else a.

(** [min(a, b)]: [b] if [b < a], else [a]. *)
Definition py_min (a b : number) : number := if py_lt b a then b else a.

(** [f"{x:.2f}"] of a float: the exact value of the float rounded to
    hundredths, ties to even. *)
Definition format_2f_float (f : float) : string :=
  match Prim2SF f with
  | S754_nan => "nan"
  | S754_infinity s => if s then "-inf" else "inf"
  | S754_zero s => if s then "-0.00" else "0.00"
  | S754_finite s m e =>
      (if s then "-" else "") +:+ format_2f (finite_value false m e)
  end.

(** [f"{x:.2f}"]: an int is converted to a float first. *)
Definition format_2f (x : number) : outcome string :=
  match as_float x with
  | Return f => Return (format_2f_float f)
  | Raise e => Raise e
  end.

(** ** The state and exception monad *)

Definition M (St A : Type) : Type := St → outcome A * St.

Definition ret {St A} (a : A) : M St A := λ σ, (Return a, σ).

Definition bind {St A B} (m : M St A) (k : A → M St B) : M St B :=
  λ σ, match m σ with
       | (Return a, σ') => k a σ'
       | (Raise e, σ') => (Raise e, σ')
       end.

Definition raise {St A} (e : exception) : M St A := λ σ, (Raise e, σ).

(** An operation on numbers, inside the monad. *)
Definition lift {St A} (o : outcome A) : M St A := λ σ, (o, σ).

Definition gets {St A} (f : St → A) : M St A := λ σ, (Return (f σ), σ).

Definition modify {St} (f : St → St) : M St unit := λ σ, (Return tt, f σ).

#[global] Instance exception_eq_dec : EqDecision exception.
Proof. solve_decision. Defined.

(** [try: body except exn: handler]; any other exception propagates. *)
Definition try_except {St A} (body : M St A) (exn : exception)
    (handler : M St A) : M St A :=
  λ σ, match body σ with
       | (Return a, σ') => (Return a, σ')
       | (Raise e, σ') =>
           if decide (e = exn) then handler σ' else (Raise e, σ')
       end.

Declare Scope b64_scope.
Delimit Scope b64_scope with b64.
Notation "x ← m ; k" := (bind m (λ x, k))
  (at level 20, m at level 100, k at level 200, only parsing) : b64_scope.
Notation "m ;; k" := (bind m (λ _, k))
  (at level 100, k at level 200, only parsing, right associativity)
  : b64_scope.
Local Open Scope b64_scope.

(** [for x in xs: body x] *)
Fixpoint for_in {St A} (xs : list A) (body : A → M St unit) : M St unit :=
  match xs with
  | [] => ret tt
  | x :: xs' => body x ;; for_in xs' body
  end.

(** [[f(x) for x in xs]] *)
Fixpoint comprehension {St A B} (f : A → M St B) (xs : list A)
    : M St (list B) :=
  match xs with
  | [] => ret []
  | x :: xs' => y ← f x; ys ← comprehension f xs'; ret (y :: ys)
  end.

(** [range(n)] *)
Definition range (n : nat) : list nat := seq 0 n.

(** [xs[i]] for [i >= 0] *)
Definition index {St A} (xs : list A) (i : nat) : M St A :=
  match xs !! i with
  | Some x => ret x
  | None => raise IndexError
  end.

(** ** The console *)

Inductive fragment : Type :=
| Text (s : string)
| Int (n : nat)
| Num (x : number).

Definition line : Type := list fragment.

Class Console (St : Type) := console_write : line → St → St.

Definition print {St} `{Console St} (l : line) : M St unit :=
  modify (console_write l).

#[global] Instance stdout_console : Console (list line) :=
  λ l out, out ++ [l].

(** ** class TrafficSimulation *)

Record TrafficSimulation : Type := {
  distances : list number;
  speeds : list number;
  volumes : list number;
  green_times : list number;
  emergencies : gset nat;
  accidents : gset nat;
  flow : list number;
  bad_scenarios : list (nat * string);
  rating : option number
}.

Record World : Type := {
  self : TrafficSimulation;
  stdout : list line
}.

#[global] Instance world_console : Console World :=
  λ l w, {| self := self w; stdout := stdout w ++ [l] |}.

Definition __init__ (distances speeds volumes green_times : list number)
    (emergencies accidents : list nat) : TrafficSimulation :=
  {| distances := distances;
     speeds := speeds;
     volumes := volumes;
     green_times := green_times;
     emergencies := list_to_set emergencies;
     accidents := list_to_set accidents;
     flow := [];
     bad_scenarios := [];
     rating := None |}.

(** [self.flow.append(x)] *)
Definition flow_append (x : number) : M World unit :=
  modify (λ w,
    let s := self w in
    {| self := {| distances := distances s; speeds := speeds s;
                  volumes := volumes s; green_times := green_times s;
                  emergencies := emergencies s; accidents := accidents s;
                  flow := flow s ++ [x];
                  bad_scenarios := bad_scenarios s;
                  rating := rating s |};
       stdout := stdout w |}).

(** [self.bad_scenarios.append(b)] *)
Definition bad_scenarios_append (b : nat * string) : M World unit :=
  modify (λ w,
    let s := self w in
    {| self := {| distances := distances s; speeds := speeds s;
                  volumes := volumes s; green_times := green_times s;
                  emergencies := emergencies s; accidents := accidents s;
                  flow := flow s;
                  bad_scenarios := bad_scenarios s ++ [b];
                  rating := rating s |};
       stdout := stdout w |}).

(** [self.rating = r] *)
Definition set_rating (r : number) : M World unit :=
  modify (λ w,
    let s := self w in
    {| self := {| distances := distances s; speeds := speeds s;
                  volumes := volumes s; green_times := green_times s;
                  emergencies := emergencies s; accidents := accidents s;
                  flow := flow s;
                  bad_scenarios := bad_scenarios s;
                  rating := Some r |};
       stdout := stdout w |}).

(** [volume * 2 / 3600 * 60] *)
Definition volume_green_time (volume : number) : outcome number :=
  match py_mul volume (PyInt 2) with
  | Raise e => Raise e
  | Return doubled =>
      match py_truediv doubled (PyInt 3600) with
      | Raise e => Raise e
      | Return per_second => py_mul per_second (PyInt 60)
      end
  end.

Definition optimize_signals : M World (list number) :=
  gts ← gets (λ w, green_times (self w));
  vs ← gets (λ w, volumes (self w));
  comprehension
    (λ '(gt, volume),
       t ← lift (volume_green_time volume); ret (py_max gt t))
    (zip gts vs).

(** The body of the [for i in range(num_signals)] loop of [simulate]. *)
Definition simulate_signal (optimized_green_times : list number) (i : nat)
    : M World unit :=
  in_accidents ← gets (λ w, bool_decide (i ∈ accidents (self w)));
  if in_accidents then
    flow_append (PyInt 0) ;;
    bad_scenarios_append (i, "Accident")
  else
  in_emergencies ← gets (λ w, bool_decide (i ∈ emergencies (self w)));
  if in_emergencies then
    flow_append (PyInt 5) ;;
    bad_scenarios_append (i, "Emergency")
  else
    try_except
      (d ← (ds ← gets (λ w, distances (self w)); index ds i);
       s ← (ss ← gets (λ w, speeds (self w)); index ss i);
       travel_time ← lift (py_truediv d s);
       g ← index optimized_green_times i;
       if py_le travel_time g then
         flow_append (PyInt 10)
       else
         g1 ← index optimized_green_times i;
         excess_time ← lift (py_sub travel_time g1);
         g2 ← index optimized_green_times i;
         ratio ← lift (py_truediv excess_time g2);
         scaled ← lift (py_mul ratio (PyInt 9));
         let penalty := py_min (PyInt 9) scaled in
         difference ← lift (py_sub (PyInt 10) penalty);
         let flow_rating := py_max (PyInt 1) difference in
         flow_append flow_rating ;;
         if py_lt flow_rating (PyInt 5) then
           text ← lift (format_2f flow_rating);
           bad_scenarios_append
             (i, "Low flow (Rating: " +:+ text +:+ ")")
         else ret tt)
      ZeroDivisionError
      (print [Text "Warning: Speed cannot be zero at signal index ";
              Int i; Text "."] ;;
       flow_append (PyInt 0) ;;
       bad_scenarios_append (i, "Zero Speed")).

(** [np.mean] is a function of the library numpy. *)
Class Numpy : Type := np_mean : list number → number.

Definition simulate {numpy : Numpy} : M World number :=
  optimized_green_times ← optimize_signals;
  num_signals ← gets (λ w, length (distances (self w)));
  for_in (range num_signals) (simulate_signal optimized_green_times) ;;
  fl ← gets (λ w, flow (self w));
  let r := match fl with [] => PyInt 0 | _ :: _ => np_mean fl end in
  set_rating r ;;
  ret r.

Fixpoint calculate_green_times_loop (zipped : list (number * number * number))
    (green_times : list number) : M (list line) (list number) :=
  match zipped with
  | [] => ret green_times
  | (distance, speed, volume) :: rest =>
      if py_le speed (PyInt 0) then
        print [Text "Warning: Speed should be greater than zero for distance ";
               Num distance; Text "."] ;;
        calculate_green_times_loop rest (green_times ++ [PyInt 0])
      else
        travel_time ← lift (py_truediv distance speed);
        volume_green_time ← lift (volume_green_time volume);
        let green_time := py_max travel_time volume_green_time in
        calculate_green_times_loop rest (green_times ++ [green_time])
  end.

(** The six inputs an object holds. *)
Definition inputs (s : TrafficSimulation) :=
  (distances s, speeds s, volumes s, green_times s, emergencies s,
   accidents s).

(** The spec's formula [max(1, 10 - min(9, (travel_time - g) / g * 9))],
    with Python's operations. *)
Definition penalty_formula (travel_time g : number) : outcome number :=
  match py_sub travel_time g with
  | Raise e => Raise e
  | Return excess_time =>
      match py_truediv excess_time g with
      | Raise e => Raise e
      | Return ratio =>
          match py_mul ratio (PyInt 9) with
          | Raise e => Raise e
          | Return scaled =>
              match py_sub (PyInt 10) (py_min (PyInt 9) scaled) with
              | Raise e => Raise e
              | Return difference => Return (py_max (PyInt 1) difference)
              end
          end
      end
  end.

(** Numbers of ordinary size: any float, and any int below 2^52 in
    magnitude (so that twice the int is still converted exactly). *)
Definition ordinary (x : number) : Prop :=
  match x with
  | PyInt z => (Z.abs z < 2 ^ 52)%Z
  | PyFloat _ => True
  end.

Definition calculate_green_times (distances speeds volumes : list number)
    : M (list line) (list number) :=
  calculate_green_times_loop (zip (zip distances speeds) volumes) [].

Definition run {numpy : Numpy}
    (distances speeds volumes green_times : list number)
    (emergencies accidents : list nat) : outcome number * World :=
  simulate
    {| self := __init__ distances speeds volumes green_times
                 emergencies accidents;
       stdout := [] |}.

(** An instance for running examples: the entries added from left to
    right as floats, divided by their number.  The order in which numpy
    adds is not part of this program, and no theorem depends on it. *)
Definition sequential_mean : Numpy := λ xs,
  let to_float x :=
    match as_float x with Return f => f | Raise _ => PrimFloat.infinity end in
  PyFloat
    (PrimFloat.div
       (foldl (λ acc x, PrimFloat.add acc (to_float x)) PrimFloat.zero xs)
       (PrimFloat.of_uint63 (Uint63.of_Z (Z.of_nat (length xs))))).

End Binary64.

(** * Properties *)

(** The spec's examples, evaluated. *)
Example example_smooth :
  run [100] [10] [30] [10] [] [] =
  (Return 10,
   {| self := {| distances := [100]; speeds := [10]; volumes := [30];
                 green_times := [10]; emergencies := ∅; accidents := ∅;
                 flow := [10]; bad_scenarios := []; rating := Some 10 |};
      stdout := [] |}).
Proof. vm_compute. reflexivity. Qed.

(** ** Comparisons and the built-ins [max], [min] *)

Lemma Qlt_bool_iff (x y : Q) : Qlt_bool x y = true ↔ x < y.
Proof.
  unfold Qlt_bool. rewrite negb_true_iff.
  destruct (Qle_bool y x) eqn:E.
  - apply Qle_bool_iff in E. split; [discriminate | intros H; lra].
  - split; [intros _ | reflexivity].
    destruct (Qlt_le_dec x y) as [H | H]; [exact H |].
    apply Qle_bool_iff in H. congruence.
Qed.

Lemma Qlt_bool_false_iff (x y : Q) : Qlt_bool x y = false ↔ y <= x.
Proof.
  destruct (Qlt_bool x y) eqn:E.
  - apply Qlt_bool_iff in E. split; [discriminate | intros H; lra].
  - split; [intros _ | reflexivity].
    destruct (Qlt_le_dec x y) as [H | H]; [| exact H].
    apply Qlt_bool_iff in H. congruence.
Qed.

Lemma Qle_bool_false_iff (x y : Q) : Qle_bool x y = false ↔ y < x.
Proof.
  rewrite <- Qlt_bool_iff. unfold Qlt_bool.
  destruct (Qle_bool x y); simpl; split; congruence.
Qed.

Lemma Qeq_bool_false_iff (x y : Q) : Qeq_bool x y = false ↔ ¬ x == y.
Proof.
  split.
  - intros E H. apply Qeq_bool_iff in H. congruence.
  - intros H. destruct (Qeq_bool x y) eqn:E; [| reflexivity].
    apply Qeq_bool_iff in E. contradiction.
Qed.

Lemma py_max_Qmax (a b : Q) : py_max a b == Qmax a b.
Proof.
  unfold py_max. destruct (Qlt_bool a b) eqn:E.
  - apply Qlt_bool_iff in E. rewrite Q.max_r; [reflexivity | lra].
  - apply Qlt_bool_false_iff in E. rewrite Q.max_l; [reflexivity | lra].
Qed.


Lemma py_max_lower_l (a b : Q) : a <= py_max a b.
Proof. rewrite py_max_Qmax. apply Q.le_max_l. Qed.



(** ** Framing: an iteration only appends *)

Lemma blank_extend (w w1 : World) : blank (extend w w1) = blank w.
Proof. reflexivity. Qed.

Lemma blank_idemp (w : World) : blank (blank w) = blank w.
Proof. reflexivity. Qed.

Lemma extend_assoc (w w1 w2 : World) :
  extend (extend w w1) w2 = extend w (extend w1 w2).
Proof. unfold extend; simpl. by rewrite !app_assoc. Qed.

Lemma extend_blank_r (w : World) : extend w (blank w) = w.
Proof.
  destruct w as [[] ?]. unfold extend, blank; simpl. by rewrite !app_nil_r.
Qed.

Ltac unfold_signal :=
  unfold signal_effect, simulate_signal, try_except, bind, gets, index,
    py_div, flow_append, bad_scenarios_append, print, modify, ret, raise,
    console_write, world_console, blank, extend, effect_of,
    zero_speed_effect, zero_speed_warning, low_flow_label; cbn.

Ltac frame_done :=
  cbn; repeat case_decide; try discriminate; try congruence;
  by rewrite ?app_nil_r.

Lemma simulate_signal_frame (opt : list Q) (i : nat) (w : World) :
  simulate_signal opt i w =
  let '(r, w1) := simulate_signal opt i (blank w) in (r, extend w w1).
Proof.
  destruct w as [[ds ss vs gs es acs fl bad rt] out].
  unfold_signal.
  destruct (bool_decide (i ∈ acs)); cbn; [frame_done |].
  destruct (bool_decide (i ∈ es)); cbn; [frame_done |].
  destruct (ds !! i) as [d |]; cbn; [| frame_done].
  destruct (ss !! i) as [sp |]; cbn; [| frame_done].
  destruct (Qeq_bool sp 0); cbn; [frame_done |].
  destruct (opt !! i) as [g |]; cbn; [| frame_done].
  destruct (Qle_bool (d / sp) g); cbn; [frame_done |].
  destruct (Qeq_bool g 0); cbn; [frame_done |].
  destruct (Qlt_bool _ 5); cbn; frame_done.
Qed.

Lemma for_in_simulate_signal_frame (opt : list Q) (l : list nat) (w : World) :
  for_in l (simulate_signal opt) w =
  let '(r, w1) := for_in l (simulate_signal opt) (blank w) in
  (r, extend w w1).
Proof.
  revert w. induction l as [| i l IH]; intros w.
  - simpl. unfold ret. by rewrite extend_blank_r.
  - simpl. unfold bind.
    rewrite (simulate_signal_frame opt i w).
    destruct (simulate_signal opt i (blank w)) as [[[] | e] w1] eqn:E1.
    + rewrite (IH (extend w w1)), (IH w1), blank_extend.
      assert (Hw1 : blank w1 = blank w).
      { pose proof (simulate_signal_frame opt i (blank w)) as F.
        rewrite blank_idemp, E1 in F. injection F as F.
        apply (f_equal blank) in F. exact F. }
      rewrite Hw1.
      destruct (for_in l (simulate_signal opt) (blank w)) as [r w2].
      by rewrite extend_assoc.
    + reflexivity.
Qed.

(** ** The contribution of each branch *)

Section Signal.
Variable s : TrafficSimulation.
Variable i : nat.

Lemma signal_effect_accident :
  i ∈ accidents s →
  signal_effect s i =
  (Return tt,
   {| eff_flow := [0]; eff_bad := [(i, "Accident")]; eff_out := [] |}).
Proof. intros Ha. unfold_signal. by rewrite bool_decide_eq_true_2. Qed.

Lemma signal_effect_emergency :
  i ∉ accidents s → i ∈ emergencies s →
  signal_effect s i =
  (Return tt,
   {| eff_flow := [5]; eff_bad := [(i, "Emergency")]; eff_out := [] |}).
Proof.
  intros Ha He. unfold_signal.
  by rewrite bool_decide_eq_false_2, bool_decide_eq_true_2.
Qed.

Section Normal.
Variables d sp g : Q.
Hypothesis Hacc : i ∉ accidents s.
Hypothesis Hem : i ∉ emergencies s.
Hypothesis Hd : distances s !! i = Some d.
Hypothesis Hsp : speeds s !! i = Some sp.
Hypothesis Hg : optimize_signals s !! i = Some g.

Lemma signal_effect_normal :
  signal_effect s i =
  if Qeq_bool sp 0 then (Return tt, zero_speed_effect i)
  else if Qle_bool (d / sp) g then
    (Return tt, {| eff_flow := [10]; eff_bad := []; eff_out := [] |})
  else if Qeq_bool g 0 then (Return tt, zero_speed_effect i)
  else
    (Return tt,
     {| eff_flow := [py_max 1 (10 - py_min 9 ((d / sp - g) / g * 9))];
        eff_bad :=
          if Qlt_bool (py_max 1 (10 - py_min 9 ((d / sp - g) / g * 9))) 5
          then [(i, low_flow_label
                      (py_max 1 (10 - py_min 9 ((d / sp - g) / g * 9))))]
          else [];
        eff_out := [] |}).
Proof.
  unfold_signal.
  rewrite !bool_decide_eq_false_2 by assumption. cbn.
  rewrite Hd; cbn. rewrite Hsp; cbn.
  destruct (Qeq_bool sp 0); cbn; [reflexivity |].
  rewrite Hg; cbn.
  destruct (Qle_bool (d / sp) g); cbn; [reflexivity |].
  destruct (Qeq_bool g 0); cbn; [reflexivity |].
  destruct (Qlt_bool _ 5); reflexivity.
Qed.




Lemma signal_effect_penalty :
  ¬ sp == 0 → g < d / sp → ¬ g == 0 →
  signal_effect s i =
  (Return tt,
   {| eff_flow := [py_max 1 (10 - py_min 9 ((d / sp - g) / g * 9))];
      eff_bad :=
        if Qlt_bool (py_max 1 (10 - py_min 9 ((d / sp - g) / g * 9))) 5
        then [(i, low_flow_label
                    (py_max 1 (10 - py_min 9 ((d / sp - g) / g * 9))))]
        else [];
      eff_out := [] |}).
Proof.
  intros H1 H2 H3. rewrite signal_effect_normal.
  apply Qeq_bool_false_iff in H1. apply Qle_bool_false_iff in H2.
  apply Qeq_bool_false_iff in H3. by rewrite H1, H2, H3.
Qed.

End Normal.

(** With all three lookups in range an iteration returns, appends exactly
    one flow score, and records bad scenarios for signal [i] only. *)
Lemma signal_effect_returns (d sp g : Q) :
  distances s !! i = Some d →
  speeds s !! i = Some sp →
  optimize_signals s !! i = Some g →
  ∃ x bs ls,
    signal_effect s i =
      (Return tt, {| eff_flow := [x]; eff_bad := bs; eff_out := ls |})
    ∧ Forall (λ b, b.1 = i) bs.
Proof.
  intros Hd Hsp Hg.
  destruct (decide (i ∈ accidents s)) as [Ha | Ha].
  { rewrite signal_effect_accident by done. eexists _, _, _.
    split; [done |]. by repeat constructor. }
  destruct (decide (i ∈ emergencies s)) as [He | He].
  { rewrite signal_effect_emergency by done. eexists _, _, _.
    split; [done |]. by repeat constructor. }
  rewrite (signal_effect_normal d sp g) by done.
  unfold zero_speed_effect.
  destruct (Qeq_bool sp 0);
    [| destruct (Qle_bool (d / sp) g);
       [| destruct (Qeq_bool g 0); [| destruct (Qlt_bool _ 5)]]];
    eexists _, _, _; (split; [reflexivity |]); by repeat constructor.
Qed.

End Signal.

(** ** The loop as the concatenation of its iterations *)

Lemma simulate_signal_blank (opt : list Q) (i : nat) (w : World) :
  blank (simulate_signal opt i w).2 = blank w.
Proof.
  rewrite simulate_signal_frame.
  by destruct (simulate_signal opt i (blank w)).
Qed.

Lemma for_in_signal_effects (s : TrafficSimulation) (l : list nat) :
  (∀ i, i ∈ l → (signal_effect s i).1 = Return tt) →
  ∃ w,
    for_in l (simulate_signal (optimize_signals s))
      (blank {| self := s; stdout := [] |}) = (Return tt, w)
    ∧ blank w = blank {| self := s; stdout := [] |}
    ∧ effect_of w =
        {| eff_flow := l ≫= signal_flow s;
           eff_bad := l ≫= signal_bad s;
           eff_out := l ≫= signal_out s |}.
Proof.
  set (w0 := {| self := s; stdout := [] |}).
  induction l as [| i l IH]; intros Hret.
  - exists (blank w0). by repeat split.
  - destruct IH as (w2 & Hloop & Hblank & Heff).
    { intros j Hj. apply Hret. by right. }
    assert (Hi := Hret i ltac:(by left)).
    unfold signal_flow, signal_bad, signal_out in *.
    unfold signal_effect in Hi |- *. fold w0 in Hi |- *.
    pose proof (simulate_signal_blank (optimize_signals s) i (blank w0))
      as Hb1.
    simpl. unfold bind.
    destruct (simulate_signal (optimize_signals s) i (blank w0))
      as [r1 w1] eqn:E1.
    simpl in Hi, Hb1. subst r1.
    rewrite for_in_simulate_signal_frame, Hb1, blank_idemp, Hloop.
    exists (extend w1 w2). split; [done |]. split.
    + by rewrite blank_extend, Hb1.
    + injection Heff as Hf Hb Ho.
      unfold effect_of, extend; cbn. by rewrite Hf, Hb, Ho.
Qed.

(** ** Lists assembled from per-index pieces *)

Lemma bind_singleton_lookup {A} (f : nat → list A) (l : list nat)
    (k i : nat) (x : A) :
  (∀ j, j ∈ l → length (f j) = 1%nat) →
  l !! k = Some i → f i = [x] → (l ≫= f) !! k = Some x.
Proof.
  revert k. induction l as [| a l IH]; intros k Hlen Hk Hx; [done |].
  rewrite bind_cons. destruct k as [| k]; simpl in Hk.
  - injection Hk as ->. by rewrite Hx.
  - assert (Ha : length (f a) = 1%nat) by (apply Hlen; by left).
    destruct (f a) as [| y [| ? ?]]; try done. simpl.
    apply IH; [| done | done]. intros j Hj. apply Hlen. by right.
Qed.

Lemma bind_singleton_length {A} (f : nat → list A) (l : list nat) :
  (∀ j, j ∈ l → length (f j) = 1%nat) → length (l ≫= f) = length l.
Proof.
  induction l as [| a l IH]; intros Hlen; [done |].
  rewrite bind_cons, length_app, IH.
  - rewrite Hlen; [done | by left].
  - intros j Hj. apply Hlen. by right.
Qed.

Lemma bad_scenarios_at_own (i : nat) (bs : list (nat * string)) :
  Forall (λ b, b.1 = i) bs → bad_scenarios_at i bs = bs.
Proof.
  unfold bad_scenarios_at. induction 1 as [| b bs Hb _ IH]; [done |].
  rewrite filter_cons_True by done. by rewrite IH.
Qed.

Lemma bad_scenarios_at_other (i j : nat) (bs : list (nat * string)) :
  i ≠ j → Forall (λ b, b.1 = j) bs → bad_scenarios_at i bs = [].
Proof.
  unfold bad_scenarios_at. intros Hne.
  induction 1 as [| b bs Hb _ IH]; [done |].
  rewrite filter_cons_False by congruence. exact IH.
Qed.

Lemma bad_scenarios_at_app (i : nat) (bs1 bs2 : list (nat * string)) :
  bad_scenarios_at i (bs1 ++ bs2) =
  bad_scenarios_at i bs1 ++ bad_scenarios_at i bs2.
Proof. apply filter_app. Qed.

Lemma bad_scenarios_at_bind (f : nat → list (nat * string)) (l : list nat)
    (i : nat) :
  (∀ j, j ∈ l → Forall (λ b, b.1 = j) (f j)) →
  NoDup l → i ∈ l →
  bad_scenarios_at i (l ≫= f) = f i.
Proof.
  intros Hown Hnd Hi.
  assert (Hout : ∀ l', (∀ j, j ∈ l' → Forall (λ b, b.1 = j) (f j)) →
                 i ∉ l' → bad_scenarios_at i (l' ≫= f) = []).
  { induction l' as [| a l' IH]; intros Hf Hni; [done |].
    rewrite bind_cons, bad_scenarios_at_app.
    rewrite (bad_scenarios_at_other i a).
    - apply IH; [intros j Hj; apply Hf; by right |].
      intros Hin. apply Hni. by right.
    - intros ->. apply Hni. by left.
    - apply Hf. by left. }
  induction Hnd as [| a l Hna Hnd IH]; [by apply elem_of_nil in Hi |].
  rewrite bind_cons, bad_scenarios_at_app.
  apply elem_of_cons in Hi as [-> | Hi].
  - rewrite (bad_scenarios_at_own a) by (apply Hown; by left).
    rewrite Hout; [by rewrite app_nil_r | | done].
    intros j Hj. apply Hown. by right.
  - rewrite (bad_scenarios_at_other i a).
    + apply IH; [| done]. intros j Hj. apply Hown. by right.
    + intros ->. contradiction.
    + apply Hown. by left.
Qed.

(** ** A whole run on length-consistent input *)

Section Run.
Variables ds ss vs gs : list Q.
Variables es acs : list nat.
Hypothesis Hss : length ss = length ds.
Hypothesis Hvs : length vs = length ds.
Hypothesis Hgs : length gs = length ds.

Local Abbreviation s0 := (__init__ ds ss vs gs es acs).

Lemma optimize_signals_lookup (i : nat) (gt v : Q) :
  gs !! i = Some gt → vs !! i = Some v →
  optimize_signals s0 !! i = Some (py_max gt (v * 2 / 3600 * 60)).
Proof.
  intros Hgt Hv. unfold optimize_signals; simpl.
  rewrite lookup_zip_with, Hgt; simpl. by rewrite Hv.
Qed.

Lemma init_lookups (i : nat) :
  (i < length ds)%nat →
  ∃ d sp gt v,
    ds !! i = Some d ∧ ss !! i = Some sp ∧ gs !! i = Some gt
    ∧ vs !! i = Some v
    ∧ optimize_signals s0 !! i = Some (py_max gt (v * 2 / 3600 * 60)).
Proof.
  intros Hi.
  destruct (lookup_lt_is_Some_2 ds i Hi) as [d Hd].
  destruct (lookup_lt_is_Some_2 ss i ltac:(lia)) as [sp Hsp].
  destruct (lookup_lt_is_Some_2 gs i ltac:(lia)) as [gt Hgt].
  destruct (lookup_lt_is_Some_2 vs i ltac:(lia)) as [v Hv].
  exists d, sp, gt, v. repeat split; try done.
  by apply optimize_signals_lookup.
Qed.

Lemma init_signal_effect (i : nat) :
  (i < length ds)%nat →
  ∃ x bs ls,
    signal_effect s0 i =
      (Return tt, {| eff_flow := [x]; eff_bad := bs; eff_out := ls |})
    ∧ Forall (λ b, b.1 = i) bs.
Proof.
  intros Hi. destruct (init_lookups i Hi) as (d & sp & gt & v & H).
  destruct H as (Hd & Hsp & _ & _ & Hg).
  exact (signal_effect_returns s0 i d sp _ Hd Hsp Hg).
Qed.

Lemma run_unfold :
  run ds ss vs gs es acs =
  match
    for_in (range (length ds)) (simulate_signal (optimize_signals s0))
      (blank {| self := s0; stdout := [] |})
  with
  | (Return _, w) =>
      (fl ← gets (λ w, flow (self w));
       let r := match fl with [] => 0 | _ :: _ => np_mean fl end in
       set_rating r ;; ret r) w
  | (Raise e, w) => (Raise e, w)
  end.
Proof. reflexivity. Qed.

Lemma run_effects :
  ∃ w,
    run ds ss vs gs es acs =
      (Return match flow (self w) with
              | [] => 0
              | _ :: _ => np_mean (flow (self w))
              end, w)
    ∧ flow (self w) = range (length ds) ≫= signal_flow s0
    ∧ bad_scenarios (self w) = range (length ds) ≫= signal_bad s0
    ∧ stdout w = range (length ds) ≫= signal_out s0
    ∧ rating (self w) =
        Some match flow (self w) with
             | [] => 0
             | _ :: _ => np_mean (flow (self w))
             end.
Proof.
  destruct (for_in_signal_effects s0 (range (length ds)))
    as (w & Hloop & _ & Heff).
  { intros i Hi. apply elem_of_seq in Hi.
    destruct (init_signal_effect i ltac:(lia)) as (x & bs & ls & -> & _).
    done. }
  rewrite run_unfold, Hloop.
  injection Heff as Hf Hb Ho.
  exists (set_rating
            match flow (self w) with
            | [] => 0
            | _ :: _ => np_mean (flow (self w))
            end w).2.
  unfold bind, gets, set_rating, modify, ret; cbn.
  by rewrite Hf, Hb, Ho.
Qed.

(** The outputs of a run, signal by signal. *)
Lemma run_signal (i : nat) :
  (i < length ds)%nat →
  ∃ x bs ls,
    signal_effect s0 i =
      (Return tt, {| eff_flow := [x]; eff_bad := bs; eff_out := ls |})
    ∧ run_flow ds ss vs gs es acs !! i = Some x
    ∧ bad_scenarios_at i (run_bad_scenarios ds ss vs gs es acs) = bs
    ∧ ls ⊆ run_stdout ds ss vs gs es acs.
Proof.
  intros Hi.
  destruct run_effects as (w & Hrun & Hf & Hb & Ho & _).
  unfold run_flow, run_bad_scenarios, run_stdout. rewrite Hrun; simpl.
  destruct (init_signal_effect i Hi) as (x & bs & ls & Heff & Hown).
  exists x, bs, ls. split; [exact Heff |].
  assert (Hin : i ∈ range (length ds)) by (apply elem_of_seq; lia).
  split; [| split].
  - rewrite Hf. apply (bind_singleton_lookup _ _ _ i).
    + intros j Hj. apply elem_of_seq in Hj.
      destruct (init_signal_effect j ltac:(lia)) as (? & ? & ? & Hj' & _).
      unfold signal_flow. by rewrite Hj'.
    + apply lookup_seq. lia.
    + unfold signal_flow. by rewrite Heff.
  - rewrite Hb, bad_scenarios_at_bind.
    + unfold signal_bad. by rewrite Heff.
    + intros j Hj. apply elem_of_seq in Hj.
      destruct (init_signal_effect j ltac:(lia)) as (? & ? & ? & Hj' & ?).
      unfold signal_bad. by rewrite Hj'.
    + apply NoDup_seq.
    + exact Hin.
  - rewrite Ho. intros l Hl. apply list_elem_of_bind.
    exists i. split; [| exact Hin]. unfold signal_out. by rewrite Heff.
Qed.

Lemma run_flow_length :
  length (run_flow ds ss vs gs es acs) = length ds.
Proof.
  destruct run_effects as (w & Hrun & Hf & _).
  unfold run_flow. rewrite Hrun; simpl. rewrite Hf.
  rewrite bind_singleton_length; [apply length_seq |].
  intros j Hj. apply elem_of_seq in Hj.
  destruct (init_signal_effect j ltac:(lia)) as (? & ? & ? & Hj' & _).
  unfold signal_flow. by rewrite Hj'.
Qed.

End Run.

Lemma run_signal_effect (ds ss vs gs : list Q) (es acs : list nat) (i : nat)
    (x : Q) (bs : list (nat * string)) (ls : list line) :
  length ss = length ds → length vs = length ds → length gs = length ds →
  (i < length ds)%nat →
  signal_effect (__init__ ds ss vs gs es acs) i =
    (Return tt, {| eff_flow := [x]; eff_bad := bs; eff_out := ls |}) →
  run_flow ds ss vs gs es acs !! i = Some x
  ∧ bad_scenarios_at i (run_bad_scenarios ds ss vs gs es acs) = bs
  ∧ ls ⊆ run_stdout ds ss vs gs es acs.
Proof.
  intros Hss Hvs Hgs Hi Heff.
  destruct (run_signal ds ss vs gs es acs Hss Hvs Hgs i Hi)
    as (x' & bs' & ls' & Heff' & H).
  rewrite Heff in Heff'. by injection Heff' as <- <- <-.
Qed.



(** * The claims *)








(** The spec's low-flow example: the label reads "1.00". *)
Example example_low_flow :
  run_flow [2000] [10] [0] [100] [] [] = [1]
  ∧ run_bad_scenarios [2000] [10] [0] [100] [] []
    = [(0%nat, "Low flow (Rating: 1.00)")].
Proof. by vm_compute. Qed.

(** ** Arithmetic of the penalty formula *)

Lemma Qdiv_nonneg (a g : Q) : 0 <= a → 0 < g → 0 <= a / g.
Proof. intros Ha Hg. apply Qle_shift_div_l; [exact Hg | lra]. Qed.



Lemma penalty_score_bounds (tt g : Q) :
  0 < g → g < tt →
  1 <= py_max 1 (10 - py_min 9 ((tt - g) / g * 9))
  ∧ py_max 1 (10 - py_min 9 ((tt - g) / g * 9)) <= 10.
Proof.
  intros Hg Htt. split; [apply py_max_lower_l |].
  assert (Hz : 0 <= (tt - g) / g) by (apply Qdiv_nonneg; lra).
  assert (Hp : 0 <= py_min 9 ((tt - g) / g * 9)).
  { unfold py_min. destruct (Qlt_bool _ 9); lra. }
  unfold py_max. destruct (Qlt_bool 1 _); lra.
Qed.



(** ** The score bounds as a loop invariant *)

Lemma optimize_signals_nonneg (s : TrafficSimulation) :
  Forall (λ gt, 0 <= gt) (green_times s) →
  Forall (λ g, 0 <= g) (optimize_signals s).
Proof.
  intros Hgs. unfold optimize_signals. apply Forall_lookup. intros i g Hg.
  apply lookup_zip_with_Some in Hg as (gt & v & -> & Hgt & _).
  rewrite Forall_lookup in Hgs. specialize (Hgs i gt Hgt).
  pose proof (py_max_lower_l gt (v * 2 / 3600 * 60)). lra.
Qed.

(** One iteration keeps every recorded score within [0, 10], whether it
    returns or raises. *)
Lemma simulate_signal_flow_bounded (opt : list Q) (i : nat) (w : World) :
  Forall (λ g, 0 <= g) opt →
  Forall (λ x, 0 <= x ∧ x <= 10) (flow (self w)) →
  Forall (λ x, 0 <= x ∧ x <= 10) (flow (self (simulate_signal opt i w).2)).
Proof.
  intros Hopt Hw. rewrite Forall_lookup in Hopt.
  destruct w as [[ds ss vs gs es acs fl bad rt] out]. simpl in Hw.
  assert (Hpush : ∀ x, 0 <= x ∧ x <= 10 →
            Forall (λ x, 0 <= x ∧ x <= 10) (fl ++ [x])).
  { intros x Hx. apply Forall_app. split; [done |]. by apply Forall_singleton. }
  unfold_signal.
  destruct (bool_decide (i ∈ acs)); cbn; [apply Hpush; lra |].
  destruct (bool_decide (i ∈ es)); cbn; [apply Hpush; lra |].
  destruct (ds !! i) as [d |]; cbn; [| by case_decide].
  destruct (ss !! i) as [sp |]; cbn; [| by case_decide].
  destruct (Qeq_bool sp 0); cbn; [case_decide; [apply Hpush; lra | done] |].
  destruct (opt !! i) as [g |] eqn:Hg; cbn; [| by case_decide].
  destruct (Qle_bool (d / sp) g) eqn:Hle; cbn; [apply Hpush; lra |].
  destruct (Qeq_bool g 0) eqn:Hz; cbn;
    [case_decide; [apply Hpush; lra | done] |].
  apply Qle_bool_false_iff in Hle. apply Qeq_bool_false_iff in Hz.
  assert (Hpos : 0 < g).
  { specialize (Hopt i g Hg). apply Qle_lteq in Hopt as [? | E]; [done |].
    by rewrite <- E in Hz. }
  destruct (penalty_score_bounds (d / sp) g Hpos Hle) as [Hlo Hhi].
  destruct (Qlt_bool _ 5); cbn; apply Hpush; lra.
Qed.

Lemma for_in_flow_bounded (opt : list Q) (l : list nat) (w : World) :
  Forall (λ g, 0 <= g) opt →
  Forall (λ x, 0 <= x ∧ x <= 10) (flow (self w)) →
  Forall (λ x, 0 <= x ∧ x <= 10)
    (flow (self (for_in l (simulate_signal opt) w).2)).
Proof.
  intros Hopt. revert w. induction l as [| i l IH]; intros w Hw; [done |].
  pose proof (simulate_signal_flow_bounded opt i w Hopt Hw) as Hstep.
  simpl. unfold bind.
  destruct (simulate_signal opt i w) as [[[] | e] w1]; simpl in Hstep.
  - by apply IH.
  - done.
Qed.

Lemma run_flow_loop (ds ss vs gs : list Q) (es acs : list nat) :
  run_flow ds ss vs gs es acs =
  flow (self (for_in (range (length ds))
                (simulate_signal
                   (optimize_signals (__init__ ds ss vs gs es acs)))
                {| self := __init__ ds ss vs gs es acs;
                   stdout := [] |}).2).
Proof.
  unfold run_flow, run, simulate, bind, gets; cbn.
  by destruct (for_in _ _ _) as [[[] | e] w].
Qed.

(** C3. With non-negative green times and volumes, every flow score that
    [simulate] records lies in [0, 10], whatever the distances, speeds and
    disruption sets, and even when the sequences differ in length.  (The
    proof only uses the green times: the optimized green time is at least
    the supplied one.) *)
Theorem score_bounds (ds ss vs gs : list Q) (es acs : list nat)
    (i : nat) (x : Q) :
  Forall (λ gt, 0 <= gt) gs → Forall (λ v, 0 <= v) vs →
  run_flow ds ss vs gs es acs !! i = Some x → 0 <= x ∧ x <= 10.
Proof.
  intros Hgs _ Hx. rewrite run_flow_loop in Hx.
  assert (Hall : Forall (λ x, 0 <= x ∧ x <= 10)
            (flow (self (for_in (range (length ds))
                           (simulate_signal
                              (optimize_signals
                                 (__init__ ds ss vs gs es acs)))
                           {| self := __init__ ds ss vs gs es acs;
                              stdout := [] |}).2))).
  { apply for_in_flow_bounded; [| by constructor].
    by apply optimize_signals_nonneg. }
  rewrite Forall_lookup in Hall. exact (Hall i x Hx).
Qed.

Lemma score_bounds_witness :
  run_flow [100; 2000; 7; 150] [10; 10; 0; 10] [30; 0; 3; 0]
    [10; 100; 0; 10] [3%nat] [] !! 1%nat = Some 1
  ∧ 0 <= 1 ∧ 1 <= 10.
Proof.
  split; [reflexivity |].
  apply (score_bounds [100; 2000; 7; 150] [10; 10; 0; 10] [30; 0; 3; 0]
           [10; 100; 0; 10] [3%nat] [] 1 1);
    try reflexivity; repeat (constructor; try by vm_compute).
Defined.






(** ** calculate_green_times *)

(** One iteration: the guard [speed <= 0] keeps the division from raising. *)
Lemma calculate_green_times_loop_cons (d sp v : Q)
    (rest : list (Q * Q * Q)) (green_times : list Q) (out : list line) :
  ∃ out1,
    calculate_green_times_loop ((d, sp, v) :: rest) green_times out =
    calculate_green_times_loop rest
      (green_times ++ [if Qle_bool sp 0 then 0
                       else py_max (d / sp) (v * 2 / 3600 * 60)]) out1.
Proof.
  simpl. destruct (Qle_bool sp 0) eqn:Hle.
  - unfold bind, print, modify. by eexists.
  - unfold bind, py_div. destruct (Qeq_bool sp 0) eqn:Hz.
    + apply Qeq_bool_iff in Hz. apply Qle_bool_false_iff in Hle.
      rewrite Hz in Hle. by apply Qlt_irrefl in Hle.
    + unfold ret. by eexists.
Qed.

Lemma calculate_green_times_loop_spec (zipped : list (Q * Q * Q))
    (green_times : list Q) (out : list line) :
  ∃ gts out',
    calculate_green_times_loop zipped green_times out = (Return gts, out')
    ∧ length gts = (length green_times + length zipped)%nat
    ∧ (∀ k x, green_times !! k = Some x → gts !! k = Some x)
    ∧ (∀ k d sp v, zipped !! k = Some (d, sp, v) →
         gts !! (length green_times + k)%nat =
         Some (if Qle_bool sp 0 then 0
               else py_max (d / sp) (v * 2 / 3600 * 60))).
Proof.
  revert green_times out.
  induction zipped as [| [[d sp] v] rest IH]; intros green_times out.
  - exists green_times, out. simpl. repeat split; [lia | done | done].
  - destruct (calculate_green_times_loop_cons d sp v rest green_times out)
      as [out1 ->].
    set (x := if Qle_bool sp 0 then 0
              else py_max (d / sp) (v * 2 / 3600 * 60)).
    destruct (IH (green_times ++ [x]) out1)
      as (gts & out' & Hrun & Hlen & Hold & Hnew).
    exists gts, out'. split; [exact Hrun |].
    rewrite length_app in Hlen, Hnew. simpl in Hlen, Hnew.
    split; [simpl; lia |]. split.
    + intros k y Hk. apply Hold. by apply lookup_app_l_Some.
    + intros [| k] d' sp' v' Hk; simpl in Hk.
      * injection Hk as <- <- <-. rewrite Nat.add_0_r. apply Hold.
        by rewrite lookup_app_r, Nat.sub_diag.
      * replace (length green_times + S k)%nat
          with (length green_times + 1 + k)%nat by lia.
        by apply Hnew.
Qed.

(** The spec's example: distance 100, speed 10, volume 30 give green
    time 10; a zero speed gives 0 and a warning. *)
Example example_green_times :
  calculate_green_times [100; 7] [10; 0] [30; 3] [] =
  (Return [py_max (100 / 10) (30 * 2 / 3600 * 60); 0],
   [[Text "Warning: Speed should be greater than zero for distance ";
     Num 7; Text "."]]).
Proof. reflexivity. Qed.

Lemma calculate_green_times_returns (ds ss vs : list Q) (out : list line) :
  ∃ gts out',
    calculate_green_times ds ss vs out = (Return gts, out')
    ∧ length gts = Nat.min (Nat.min (length ds) (length ss)) (length vs).
Proof.
  unfold calculate_green_times.
  destruct (calculate_green_times_loop_spec (zip (zip ds ss) vs) [] out)
    as (gts & out' & Hrun & Hlen & _).
  exists gts, out'. split; [exact Hrun |].
  by rewrite Hlen, !length_zip_with.
Qed.

(** On sequences of different lengths an uncaught [IndexError] escapes:
    only [ZeroDivisionError] is handled. *)
Example example_length_mismatch :
  (run [10; 3] [5] [0; 0] [1; 1] [] []).1 = Raise IndexError.
Proof. reflexivity. Qed.

(** C8. With no signals and no disruptions the flow and the bad-scenario
    list stay empty and the rating is exactly 0. *)
Theorem empty_input :
  run [] [] [] [] [] [] =
  (Return 0,
   {| self := {| distances := []; speeds := []; volumes := [];
                 green_times := []; emergencies := ∅; accidents := ∅;
                 flow := []; bad_scenarios := []; rating := Some 0 |};
      stdout := [] |}).
Proof. reflexivity. Qed.

(** [simulate] appends to the flow of the object it is called on: a
    second call on the same object sees the scores of the first. *)
Example example_simulate_again :
  flow (self (simulate (run [100] [10] [30] [10] [] []).2).2) = [10; 10].
Proof. reflexivity. Qed.

(** * Further properties of the simulator *)

(** ** What [simulate] leaves alone and what it adds *)

Lemma for_in_simulate_signal_blank (opt : list Q) (l : list nat)
    (w : World) :
  blank (for_in l (simulate_signal opt) w).2 = blank w.
Proof.
  rewrite for_in_simulate_signal_frame.
  by destruct (for_in l (simulate_signal opt) (blank w)).
Qed.

(** The state in which [simulate] leaves the loop, whether the loop
    returned or raised: only the rating is set afterwards. *)
Lemma simulate_loop_state (w : World) :
  let w1 :=
    (for_in (range (length (distances (self w))))
       (simulate_signal (optimize_signals (self w))) w).2 in
  (distances (self (simulate w).2) = distances (self w1)
   ∧ speeds (self (simulate w).2) = speeds (self w1)
   ∧ volumes (self (simulate w).2) = volumes (self w1)
   ∧ green_times (self (simulate w).2) = green_times (self w1)
   ∧ emergencies (self (simulate w).2) = emergencies (self w1)
   ∧ accidents (self (simulate w).2) = accidents (self w1))
  ∧ flow (self (simulate w).2) = flow (self w1)
  ∧ bad_scenarios (self (simulate w).2) = bad_scenarios (self w1)
  ∧ stdout (simulate w).2 = stdout w1.
Proof.
  unfold simulate, bind, gets, set_rating, modify, ret; cbn.
  by destruct (for_in _ _ w) as [[[] | e] w1].
Qed.

(** X1. [simulate] never changes the inputs stored in the object:
    distances, speeds, volumes, green times and both disruption sets are
    the same afterwards, whatever state the object was in and whether the
    call returned or raised. *)
Theorem simulate_preserves_inputs (w : World) :
  distances (self (simulate w).2) = distances (self w)
  ∧ speeds (self (simulate w).2) = speeds (self w)
  ∧ volumes (self (simulate w).2) = volumes (self w)
  ∧ green_times (self (simulate w).2) = green_times (self w)
  ∧ emergencies (self (simulate w).2) = emergencies (self w)
  ∧ accidents (self (simulate w).2) = accidents (self w).
Proof.
  destruct (simulate_loop_state w) as ((-> & -> & -> & -> & -> & ->) & _).
  pose proof (for_in_simulate_signal_blank (optimize_signals (self w))
                (range (length (distances (self w)))) w) as Hb.
  apply (f_equal self) in Hb. unfold blank in Hb; cbn in Hb.
  by injection Hb as -> -> -> -> -> ->.
Qed.

(** X2. [simulate] only appends.  Called on an object that already holds
    scores, it keeps them and adds behind them exactly what it would have
    produced from empty lists; likewise for the bad scenarios and the
    console.  So a second call on the same object does not start afresh. *)
Theorem simulate_appends (w : World) :
  flow (self (simulate w).2)
  = flow (self w) ++ flow (self (simulate (blank w)).2)
  ∧ bad_scenarios (self (simulate w).2)
    = bad_scenarios (self w) ++ bad_scenarios (self (simulate (blank w)).2)
  ∧ stdout (simulate w).2 = stdout w ++ stdout (simulate (blank w)).2.
Proof.
  destruct (simulate_loop_state w) as (_ & -> & -> & ->).
  destruct (simulate_loop_state (blank w)) as (_ & -> & -> & ->).
  change (distances (self (blank w))) with (distances (self w)).
  change (optimize_signals (self (blank w)))
    with (optimize_signals (self w)).
  rewrite (for_in_simulate_signal_frame _ _ w).
  by destruct (for_in _ _ (blank w)) as [r w1].
Qed.

(** ** The five outcomes of one iteration *)

(** With its three lookups in range, an iteration ends in one of five
    ways: accident, emergency, the [ZeroDivisionError] handler, smooth
    flow, or a penalised score (which [max(1, ...)] keeps at 1 or more). *)
Lemma signal_effect_cases (s : TrafficSimulation) (i : nat) (d sp g : Q) :
  distances s !! i = Some d →
  speeds s !! i = Some sp →
  optimize_signals s !! i = Some g →
  signal_effect s i =
    (Return tt,
     {| eff_flow := [0]; eff_bad := [(i, "Accident")]; eff_out := [] |})
  ∨ signal_effect s i =
    (Return tt,
     {| eff_flow := [5]; eff_bad := [(i, "Emergency")]; eff_out := [] |})
  ∨ signal_effect s i = (Return tt, zero_speed_effect i)
  ∨ signal_effect s i =
    (Return tt, {| eff_flow := [10]; eff_bad := []; eff_out := [] |})
  ∨ ∃ x, 1 <= x
      ∧ signal_effect s i =
        (Return tt,
         {| eff_flow := [x];
            eff_bad := if Qlt_bool x 5 then [(i, low_flow_label x)] else [];
            eff_out := [] |}).
Proof.
  intros Hd Hsp Hg.
  destruct (decide (i ∈ accidents s)) as [Ha | Ha].
  { left. by apply signal_effect_accident. }
  destruct (decide (i ∈ emergencies s)) as [He | He].
  { right; left. by apply signal_effect_emergency. }
  rewrite (signal_effect_normal s i d sp g Ha He Hd Hsp Hg).
  destruct (Qeq_bool sp 0); [by right; right; left |].
  destruct (Qle_bool (d / sp) g); [by right; right; right; left |].
  destruct (Qeq_bool g 0); [by right; right; left |].
  right; right; right; right. eexists. split; [| reflexivity].
  apply py_max_lower_l.
Qed.

Lemma run_signal_cases (ds ss vs gs : list Q) (es acs : list nat) (i : nat) :
  length ss = length ds → length vs = length ds → length gs = length ds →
  (i < length ds)%nat →
  let s := __init__ ds ss vs gs es acs in
  signal_effect s i =
    (Return tt,
     {| eff_flow := [0]; eff_bad := [(i, "Accident")]; eff_out := [] |})
  ∨ signal_effect s i =
    (Return tt,
     {| eff_flow := [5]; eff_bad := [(i, "Emergency")]; eff_out := [] |})
  ∨ signal_effect s i = (Return tt, zero_speed_effect i)
  ∨ signal_effect s i =
    (Return tt, {| eff_flow := [10]; eff_bad := []; eff_out := [] |})
  ∨ ∃ x, 1 <= x
      ∧ signal_effect s i =
        (Return tt,
         {| eff_flow := [x];
            eff_bad := if Qlt_bool x 5 then [(i, low_flow_label x)] else [];
            eff_out := [] |}).
Proof.
  intros Hss Hvs Hgs Hi.
  destruct (init_lookups ds ss vs gs es acs Hss Hvs Hgs i Hi)
    as (d & sp & gt & v & Hd & Hsp & _ & _ & Hg).
  exact (signal_effect_cases (__init__ ds ss vs gs es acs) i d sp _
           Hd Hsp Hg).
Qed.





(** ** Scores and diagnostics *)

Lemma simulate_signal_flow_floor (opt : list Q) (i : nat) (w : World) :
  Forall (λ x, x = 0 ∨ 1 <= x) (flow (self w)) →
  Forall (λ x, x = 0 ∨ 1 <= x) (flow (self (simulate_signal opt i w).2)).
Proof.
  intros Hw.
  destruct w as [[ds ss vs gs es acs fl bad rt] out]. simpl in Hw.
  assert (Hpush : ∀ x, x = 0 ∨ 1 <= x →
            Forall (λ x, x = 0 ∨ 1 <= x) (fl ++ [x])).
  { intros x Hx. apply Forall_app. split; [done |]. by apply Forall_singleton. }
  unfold_signal.
  destruct (bool_decide (i ∈ acs)); cbn; [apply Hpush; by left |].
  destruct (bool_decide (i ∈ es)); cbn; [apply Hpush; right; lra |].
  destruct (ds !! i) as [d |]; cbn; [| by case_decide].
  destruct (ss !! i) as [sp |]; cbn; [| by case_decide].
  destruct (Qeq_bool sp 0); cbn;
    [case_decide; [apply Hpush; by left | done] |].
  destruct (opt !! i) as [g |]; cbn; [| by case_decide].
  destruct (Qle_bool (d / sp) g); cbn; [apply Hpush; right; lra |].
  destruct (Qeq_bool g 0); cbn;
    [case_decide; [apply Hpush; by left | done] |].
  destruct (Qlt_bool _ 5); cbn; apply Hpush; right; apply py_max_lower_l.
Qed.

Lemma for_in_flow_floor (opt : list Q) (l : list nat) (w : World) :
  Forall (λ x, x = 0 ∨ 1 <= x) (flow (self w)) →
  Forall (λ x, x = 0 ∨ 1 <= x)
    (flow (self (for_in l (simulate_signal opt) w).2)).
Proof.
  revert w. induction l as [| i l IH]; intros w Hw; [done |].
  pose proof (simulate_signal_flow_floor opt i w Hw) as Hstep.
  simpl. unfold bind.
  destruct (simulate_signal opt i w) as [[[] | e] w1]; simpl in Hstep.
  - by apply IH.
  - done.
Qed.

(** X6. Whatever the inputs (negative numbers, sequences of different
    lengths), every flow score [simulate] records is either exactly 0 or at
    least 1: no score is negative and none lies strictly between 0 and 1.
    The lower half of the documented range needs no precondition. *)
Theorem score_zero_or_at_least_one (ds ss vs gs : list Q)
    (es acs : list nat) :
  Forall (λ x, x = 0 ∨ 1 <= x) (run_flow ds ss vs gs es acs).
Proof. rewrite run_flow_loop. by apply for_in_flow_floor. Qed.

(** X7. The diagnostics agree with the scores.  A signal scored below 5
    always has a bad scenario recorded for it, and a signal for which a bad
    scenario is recorded is scored at most 5 (exactly 5 only for an
    emergency). *)
Theorem low_scores_are_diagnosed (ds ss vs gs : list Q) (es acs : list nat)
    (i : nat) (x : Q) :
  length ss = length ds → length vs = length ds → length gs = length ds →
  run_flow ds ss vs gs es acs !! i = Some x →
  (x < 5 → bad_scenarios_at i (run_bad_scenarios ds ss vs gs es acs) ≠ [])
  ∧ (bad_scenarios_at i (run_bad_scenarios ds ss vs gs es acs) ≠ [] →
     x <= 5)
  ∧ (bad_scenarios_at i (run_bad_scenarios ds ss vs gs es acs) ≠ [] →
     x == 5 →
     bad_scenarios_at i (run_bad_scenarios ds ss vs gs es acs)
     = [(i, "Emergency")]).
Proof.
  intros Hss Hvs Hgs Hx.
  assert (Hi : (i < length ds)%nat).
  { rewrite <- (run_flow_length ds ss vs gs es acs Hss Hvs Hgs).
    by eapply lookup_lt_Some. }
  destruct (run_signal ds ss vs gs es acs Hss Hvs Hgs i Hi)
    as (x' & bs & ls & Heff & Hf & Hb & _).
  rewrite Hf in Hx. injection Hx as ->. rewrite Hb. clear Hf Hb.
  destruct (run_signal_cases ds ss vs gs es acs i Hss Hvs Hgs Hi)
    as [E | [E | [E | [E | (y & Hy & E)]]]];
    rewrite E in Heff; injection Heff as <- <- <-;
    try (repeat split; try done; intros; lra).
  destruct (Qlt_bool y 5) eqn:E5.
  - apply Qlt_bool_iff in E5. repeat split; try done; intros; lra.
  - apply Qlt_bool_false_iff in E5. repeat split; try done; intros; lra.
Qed.

Lemma low_scores_are_diagnosed_witness :
  (1 < 5 →
   bad_scenarios_at 0 (run_bad_scenarios [100] [1] [0] [10] [] []) ≠ [])
  ∧ (bad_scenarios_at 0 (run_bad_scenarios [100] [1] [0] [10] [] []) ≠ [] →
     1 <= 5)
  ∧ (bad_scenarios_at 0 (run_bad_scenarios [100] [1] [0] [10] [] []) ≠ [] →
     1 == 5 →
     bad_scenarios_at 0 (run_bad_scenarios [100] [1] [0] [10] [] [])
     = [(0%nat, "Emergency")]).
Proof.
  apply (low_scores_are_diagnosed [100] [1] [0] [10] [] [] 0 1);
    reflexivity.
Defined.

(** ** The order of the bad scenarios *)

Lemma bind_seq_sorted (f : nat → list (nat * string)) (k n : nat) :
  (∀ j, (k ≤ j < k + n)%nat →
     (length (f j) ≤ 1)%nat ∧ Forall (λ b, b.1 = j) (f j)) →
  StronglySorted lt ((seq k n ≫= f).*1)
  ∧ Forall (λ j, (k ≤ j < k + n)%nat) ((seq k n ≫= f).*1).
Proof.
  revert k. induction n as [| n IH]; intros k Hf.
  { split; constructor. }
  destruct (IH (S k)) as [Hsorted Hrange].
  { intros j Hj. apply Hf. lia. }
  destruct (Hf k ltac:(lia)) as [Hlen Hown].
  change (seq k (S n)) with (k :: seq (S k) n).
  rewrite bind_cons, fmap_app.
  assert (Hrange' : Forall (λ j, (k < j < k + S n)%nat)
                      ((seq (S k) n ≫= f).*1)).
  { eapply Forall_impl; [exact Hrange |]. simpl. intros j Hj. lia. }
  destruct (f k) as [| b [| b' bs]]; simpl in *.
  - split; [exact Hsorted |].
    eapply Forall_impl; [exact Hrange' |]. simpl. intros j Hj. lia.
  - assert (Hb : b.1 = k) by (by inversion Hown).
    rewrite Hb. split.
    + apply SSorted_cons; [exact Hsorted |].
      eapply Forall_impl; [exact Hrange' |]. simpl. intros j Hj. lia.
    + constructor; [lia |].
      eapply Forall_impl; [exact Hrange' |]. simpl. intros j Hj. lia.
  - lia.
Qed.

(** X8. The bad scenarios come out in increasing order of signal index,
    with at most one per signal: the indices of the recorded scenarios are
    strictly increasing and all below the number of signals. *)
Theorem bad_scenarios_sorted (ds ss vs gs : list Q) (es acs : list nat) :
  length ss = length ds → length vs = length ds → length gs = length ds →
  StronglySorted lt ((run_bad_scenarios ds ss vs gs es acs).*1)
  ∧ Forall (λ j, (j < length ds)%nat)
      ((run_bad_scenarios ds ss vs gs es acs).*1).
Proof.
  intros Hss Hvs Hgs.
  destruct (run_effects ds ss vs gs es acs Hss Hvs Hgs)
    as (w & Hrun & _ & Hb & _).
  unfold run_bad_scenarios. rewrite Hrun; simpl. rewrite Hb.
  destruct (bind_seq_sorted (signal_bad (__init__ ds ss vs gs es acs))
              0 (length ds)) as [Hsorted Hrange].
  - intros j Hj. unfold signal_bad.
    destruct (run_signal_cases ds ss vs gs es acs j Hss Hvs Hgs
                ltac:(lia)) as [E | [E | [E | [E | (y & _ & E)]]]];
      rewrite E; simpl; try (split; [lia | by repeat constructor]).
    destruct (Qlt_bool y 5); simpl; split; try lia; by repeat constructor.
  - split; [exact Hsorted |].
    eapply Forall_impl; [exact Hrange |]. simpl. intros j Hj. lia.
Qed.

Lemma bad_scenarios_sorted_witness :
  StronglySorted lt
    ((run_bad_scenarios [100; 50; 7] [10; 0; 1] [30; 0; 0] [10; 0; 1]
        [2%nat] [0%nat]).*1)
  ∧ Forall (λ j, (j < length [100; 50; 7])%nat)
      ((run_bad_scenarios [100; 50; 7] [10; 0; 1] [30; 0; 0] [10; 0; 1]
          [2%nat] [0%nat]).*1).
Proof. by apply bad_scenarios_sorted. Defined.

(** ** The console and the bad scenarios *)

Lemma bind_fmap_filter {A B C : Type} (P : B → Prop)
    `{∀ x, Decision (P x)} (g : B → C) (f : A → list B) (h : A → list C)
    (l : list A) :
  (∀ j, j ∈ l → h j = g <$> filter P (f j)) →
  l ≫= h = g <$> filter P (l ≫= f).
Proof.
  induction l as [| a l IH]; intros Hl; [done |].
  rewrite !bind_cons, filter_app, fmap_app, <- IH.
  - rewrite Hl; [done | by left].
  - intros j Hj. apply Hl. by right.
Qed.

(** X9. [simulate] prints nothing but zero-speed warnings, and exactly one
    for each "Zero Speed" bad scenario, in the same order: the console is
    the list of warnings for the signals recorded as "Zero Speed". *)
Theorem warnings_match_zero_speed (ds ss vs gs : list Q)
    (es acs : list nat) :
  length ss = length ds → length vs = length ds → length gs = length ds →
  run_stdout ds ss vs gs es acs =
  (λ b, zero_speed_warning b.1)
    <$> filter (λ b, b.2 = "Zero Speed")
          (run_bad_scenarios ds ss vs gs es acs).
Proof.
  intros Hss Hvs Hgs.
  destruct (run_effects ds ss vs gs es acs Hss Hvs Hgs)
    as (w & Hrun & _ & Hb & Ho & _).
  unfold run_stdout, run_bad_scenarios. rewrite Hrun; simpl.
  rewrite Ho, Hb. apply bind_fmap_filter.
  intros j Hj. apply elem_of_seq in Hj. unfold signal_out, signal_bad.
  destruct (run_signal_cases ds ss vs gs es acs j Hss Hvs Hgs
              ltac:(lia)) as [E | [E | [E | [E | (y & _ & E)]]]];
    rewrite E; simpl; try reflexivity.
  destruct (Qlt_bool y 5); [| reflexivity].
  by rewrite filter_cons_False.
Qed.

Lemma warnings_match_zero_speed_witness :
  run_stdout [100; 50; 7] [10; 0; 0] [30; 0; 0] [10; 0; 1] [] [0%nat] =
  (λ b, zero_speed_warning b.1)
    <$> filter (λ b, b.2 = "Zero Speed")
          (run_bad_scenarios [100; 50; 7] [10; 0; 0] [30; 0; 0] [10; 0; 1]
             [] [0%nat]).
Proof. by apply warnings_match_zero_speed. Defined.

(** ** The aggregate rating *)

Lemma length_Q_succ {A : Type} (x : A) (l : list A) :
  inject_Z (Z.of_nat (length (x :: l)))
  == inject_Z (Z.of_nat (length l)) + 1.
Proof.
  simpl length. rewrite Nat2Z.inj_succ. unfold Z.succ.
  by rewrite inject_Z_plus.
Qed.

Lemma length_Q_nonneg {A : Type} (l : list A) :
  0 <= inject_Z (Z.of_nat (length l)).
Proof. change 0 with (inject_Z 0). rewrite <- Zle_Qle. lia. Qed.

Lemma sum_bounds (a b : Q) (l : list Q) :
  Forall (λ x, a <= x ∧ x <= b) l →
  inject_Z (Z.of_nat (length l)) * a <= foldr Qplus 0 l
  ∧ foldr Qplus 0 l <= inject_Z (Z.of_nat (length l)) * b.
Proof.
  induction 1 as [| x l [Hlo Hhi] _ [IHlo IHhi]].
  - change (0 * a <= 0 ∧ 0 <= 0 * b). split; lra.
  - rewrite length_Q_succ. simpl foldr. split; lra.
Qed.

(** The mean of a non-empty list lies between any two bounds of its
    elements. *)
Lemma np_mean_bounds (a b : Q) (l : list Q) :
  l ≠ [] → Forall (λ x, a <= x ∧ x <= b) l →
  a <= np_mean l ∧ np_mean l <= b.
Proof.
  intros Hne Hl. destruct (sum_bounds a b l Hl) as [Hlo Hhi].
  assert (Hpos : 0 < inject_Z (Z.of_nat (length l))).
  { destruct l as [| x l]; [done |]. rewrite length_Q_succ.
    pose proof (length_Q_nonneg l). lra. }
  unfold np_mean. split.
  - apply Qle_shift_div_l; [exact Hpos | lra].
  - apply Qle_shift_div_r; [exact Hpos | lra].
Qed.



(** ** Disruption indices that name no signal *)

(** An iteration looks at the disruption sets only to ask whether its own
    index is in them. *)
Lemma simulate_signal_with_disruptions (opt : list Q) (i : nat)
    (es acs : gset nat) (w : World) :
  (i ∈ es ↔ i ∈ emergencies (self w)) →
  (i ∈ acs ↔ i ∈ accidents (self w)) →
  simulate_signal opt i (with_disruptions es acs w) =
  let '(r, w1) := simulate_signal opt i w in
  (r, with_disruptions es acs w1).
Proof.
  destruct w as [[ds ss vs gs es0 acs0 fl bad rt] out]. simpl.
  intros He Ha.
  unfold simulate_signal, with_disruptions, try_except, bind, gets, index,
    py_div, raise, ret, flow_append, bad_scenarios_append, modify, print;
    cbn.
  rewrite (bool_decide_ext _ _ Ha).
  destruct (bool_decide (i ∈ acs0)); cbn; [done |].
  rewrite (bool_decide_ext _ _ He).
  destruct (bool_decide (i ∈ es0)); cbn; [done |].
  destruct (ds !! i) as [d |]; cbn; [| by case_decide].
  destruct (ss !! i) as [sp |]; cbn; [| by case_decide].
  destruct (Qeq_bool sp 0); cbn; [by case_decide |].
  destruct (opt !! i) as [g |]; cbn; [| by case_decide].
  destruct (Qle_bool (d / sp) g); cbn; [done |].
  destruct (Qeq_bool g 0); cbn; [by case_decide |].
  by destruct (Qlt_bool _ 5).
Qed.

Lemma for_in_with_disruptions (opt : list Q) (l : list nat)
    (es acs : gset nat) (w : World) :
  (∀ i, i ∈ l → i ∈ es ↔ i ∈ emergencies (self w)) →
  (∀ i, i ∈ l → i ∈ acs ↔ i ∈ accidents (self w)) →
  for_in l (simulate_signal opt) (with_disruptions es acs w) =
  let '(r, w1) := for_in l (simulate_signal opt) w in
  (r, with_disruptions es acs w1).
Proof.
  revert w. induction l as [| i l IH]; intros w He Ha; [done |].
  simpl. unfold bind.
  rewrite simulate_signal_with_disruptions
    by (first [apply He | apply Ha]; by left).
  pose proof (simulate_signal_blank opt i w) as Hblank.
  destruct (simulate_signal opt i w) as [[[] | e] w1]; [| done].
  simpl in Hblank. apply (f_equal self) in Hblank.
  unfold blank in Hblank; cbn in Hblank.
  injection Hblank as _ _ _ _ Hes Hacs _.
  apply IH; intros j Hj.
  - rewrite Hes. apply He. by right.
  - rewrite Hacs. apply Ha. by right.
Qed.

Lemma simulate_with_disruptions (es acs : gset nat) (w : World) :
  (∀ i, (i < length (distances (self w)))%nat →
     i ∈ es ↔ i ∈ emergencies (self w)) →
  (∀ i, (i < length (distances (self w)))%nat →
     i ∈ acs ↔ i ∈ accidents (self w)) →
  simulate (with_disruptions es acs w) =
  let '(r, w1) := simulate w in (r, with_disruptions es acs w1).
Proof.
  intros He Ha. unfold simulate, bind, gets; cbn.
  change (optimize_signals (self (with_disruptions es acs w)))
    with (optimize_signals (self w)).
  rewrite for_in_with_disruptions.
  - by destruct (for_in _ _ w) as [[[] | e] w1].
  - intros i Hi. apply He. apply elem_of_seq in Hi. lia.
  - intros i Hi. apply Ha. apply elem_of_seq in Hi. lia.
Qed.

(** X11. A disruption index that names no signal (an index at or beyond
    the number of distances) is ignored: removing all such indices from the
    emergency and accident lists changes neither the value returned or
    exception raised, nor the flow scores, the bad scenarios or the
    console.  No bounds check is made on these lists, and none is needed
    for [simulate] to run. *)
Theorem out_of_range_disruptions_ignored (ds ss vs gs : list Q)
    (es acs : list nat) :
  let es' := filter (λ j, (j < length ds)%nat) es in
  let acs' := filter (λ j, (j < length ds)%nat) acs in
  (run ds ss vs gs es acs).1 = (run ds ss vs gs es' acs').1
  ∧ run_flow ds ss vs gs es acs = run_flow ds ss vs gs es' acs'
  ∧ run_bad_scenarios ds ss vs gs es acs
    = run_bad_scenarios ds ss vs gs es' acs'
  ∧ run_stdout ds ss vs gs es acs = run_stdout ds ss vs gs es' acs'.
Proof.
  intros es' acs'.
  unfold run_flow, run_bad_scenarios, run_stdout, run.
  pose proof (simulate_with_disruptions (list_to_set es) (list_to_set acs)
                {| self := __init__ ds ss vs gs es' acs';
                   stdout := [] |}) as H.
  change (with_disruptions _ _ _)
    with {| self := __init__ ds ss vs gs es acs; stdout := [] |} in H at 1.
  rewrite H.
  - clear H. by destruct (simulate _) as [r w1].
  - intros i Hi. simpl in *. rewrite !elem_of_list_to_set.
    unfold es'. rewrite list_elem_of_filter. tauto.
  - intros i Hi. simpl in *. rewrite !elem_of_list_to_set.
    unfold acs'. rewrite list_elem_of_filter. tauto.
Qed.

(** * Further properties of [calculate_green_times] *)

Lemma calculate_green_times_loop_eq (zipped : list (Q * Q * Q))
    (green_times : list Q) (out : list line) :
  calculate_green_times_loop zipped green_times out =
  (Return (green_times ++ (green_time <$> zipped)),
   out ++ ((λ t, speed_warning t.1.1)
             <$> filter (λ t, Qle_bool t.1.2 0) zipped)).
Proof.
  revert green_times out.
  induction zipped as [| [[d sp] v] rest IH]; intros green_times out.
  { simpl. unfold ret. by rewrite !app_nil_r. }
  simpl calculate_green_times_loop. rewrite fmap_cons.
  destruct (Qle_bool sp 0) eqn:Hle.
  - unfold bind, print, modify, console_write, stdout_console.
    rewrite IH, filter_cons_True by (by apply Is_true_true_2).
    rewrite fmap_cons, <- !app_assoc. simpl. by rewrite Hle.
  - unfold bind, py_div. destruct (Qeq_bool sp 0) eqn:Hz.
    { apply Qeq_bool_iff in Hz. apply Qle_bool_false_iff in Hle.
      rewrite Hz in Hle. by apply Qlt_irrefl in Hle. }
    unfold ret.
    rewrite IH, filter_cons_False by (by apply Is_true_false_2).
    rewrite <- !app_assoc. simpl. by rewrite Hle.
Qed.


Lemma calculate_green_times_value (ds ss vs : list Q) (out : list line)
    (gts : list Q) (out' : list line) :
  calculate_green_times ds ss vs out = (Return gts, out') →
  gts = green_time <$> zip (zip ds ss) vs.
Proof.
  unfold calculate_green_times. rewrite calculate_green_times_loop_eq.
  intros H. by injection H as <- _.
Qed.

Lemma calculate_green_times_lookup (ds ss vs : list Q) (out : list line)
    (gts : list Q) (out' : list line) (i : nat) (d sp v : Q) :
  calculate_green_times ds ss vs out = (Return gts, out') →
  ds !! i = Some d → ss !! i = Some sp → vs !! i = Some v →
  gts !! i = Some (green_time (d, sp, v)).
Proof.
  intros Hcalc Hd Hsp Hv.
  rewrite (calculate_green_times_value _ _ _ _ _ _ Hcalc).
  rewrite list_lookup_fmap, !lookup_zip_with, Hd; simpl.
  by rewrite Hsp, Hv.
Qed.



(** ** [optimize_signals] *)

Lemma py_max_idemp_r (a b : Q) : py_max (py_max a b) b = py_max a b.
Proof.
  unfold py_max. destruct (Qlt_bool a b) eqn:E.
  - destruct (Qlt_bool b b) eqn:E'; [| done].
    apply Qlt_bool_iff in E'. by apply Qlt_irrefl in E'.
  - by rewrite E.
Qed.

(** X15. Optimizing is idempotent: an object whose green times are the
    optimized green times of another object with the same volumes gets the
    same optimized green times again. *)
Theorem optimize_signals_idempotent (s s' : TrafficSimulation) :
  green_times s' = optimize_signals s →
  volumes s' = volumes s →
  optimize_signals s' = optimize_signals s.
Proof.
  intros Hg Hv. unfold optimize_signals at 1. rewrite Hg, Hv.
  unfold optimize_signals. apply list_eq. intros i.
  rewrite !lookup_zip_with.
  destruct (green_times s !! i) as [gt |]; simpl; [| done].
  destruct (volumes s !! i) as [v |]; simpl; [| done].
  by rewrite py_max_idemp_r.
Qed.

Lemma optimize_signals_idempotent_witness :
  optimize_signals
    (__init__ [100; 60] [10; 2] [30; 900]
       (optimize_signals (__init__ [100; 60] [10; 2] [30; 900] [10; 5] [] []))
       [] [])
  = optimize_signals (__init__ [100; 60] [10; 2] [30; 900] [10; 5] [] []).
Proof. by apply optimize_signals_idempotent. Defined.

(** * The pipeline of [main]: calculated green times, then [simulate] *)

(** A signal is scored within [0, 10] as soon as its optimized green time
    is non-negative or covers its travel time. *)
Lemma signal_effect_bounded (s : TrafficSimulation) (i : nat) (d sp g : Q) :
  distances s !! i = Some d →
  speeds s !! i = Some sp →
  optimize_signals s !! i = Some g →
  0 <= g ∨ d / sp <= g →
  ∃ x bs ls,
    signal_effect s i =
      (Return tt, {| eff_flow := [x]; eff_bad := bs; eff_out := ls |})
    ∧ 0 <= x ∧ x <= 10.
Proof.
  intros Hd Hsp Hg Hor.
  destruct (decide (i ∈ accidents s)) as [Ha | Ha].
  { rewrite signal_effect_accident by done. eexists _, _, _.
    split; [done |]. lra. }
  destruct (decide (i ∈ emergencies s)) as [He | He].
  { rewrite signal_effect_emergency by done. eexists _, _, _.
    split; [done |]. lra. }
  rewrite (signal_effect_normal s i d sp g Ha He Hd Hsp Hg).
  destruct (Qeq_bool sp 0).
  { eexists _, _, _. split; [done |]. lra. }
  destruct (Qle_bool (d / sp) g) eqn:Hle.
  { eexists _, _, _. split; [done |]. lra. }
  destruct (Qeq_bool g 0) eqn:Hz.
  { eexists _, _, _. split; [done |]. lra. }
  apply Qle_bool_false_iff in Hle. apply Qeq_bool_false_iff in Hz.
  assert (Hpos : 0 < g).
  { destruct Hor as [Hnn | Hcov]; [| lra].
    apply Qle_lteq in Hnn as [? | E]; [done |]. by rewrite <- E in Hz. }
  destruct (penalty_score_bounds (d / sp) g Hpos Hle) as [Hlo Hhi].
  eexists _, _, _. split; [done |]. lra.
Qed.

(** The optimized green time of a signal whose green time was calculated
    by [calculate_green_times] is non-negative or covers the travel time. *)
Lemma calculated_green_time_covers (d sp v : Q) :
  let g := py_max (green_time (d, sp, v)) (v * 2 / 3600 * 60) in
  (0 < sp → d / sp <= g) ∧ (sp <= 0 → 0 <= g).
Proof.
  simpl.
  pose proof (py_max_lower_l
                (if Qle_bool sp 0 then 0
                 else py_max (d / sp) (v * 2 / 3600 * 60))
                (v * 2 / 3600 * 60)) as Hl.
  split; intros Hsp.
  - apply Qle_bool_false_iff in Hsp. rewrite Hsp in *.
    pose proof (py_max_lower_l (d / sp) (v * 2 / 3600 * 60)). lra.
  - apply Qle_bool_iff in Hsp. by rewrite Hsp in *.
Qed.



Lemma calculated_run_bounds (ds ss vs : list Q) (es acs : list nat)
    (out : list line) (gts : list Q) (out' : list line) :
  calculate_green_times ds ss vs out = (Return gts, out') →
  length ss = length ds → length vs = length ds →
  Forall (λ x, 0 <= x ∧ x <= 10) (run_flow ds ss vs gts es acs)
  ∧ ∃ r w,
      run ds ss vs gts es acs = (Return r, w)
      ∧ rating (self w) = Some r ∧ 0 <= r ∧ r <= 10.
Proof.
  intros Hcalc Hss Hvs.
  assert (Hgs : length gts = length ds).
  { rewrite (calculate_green_times_value _ _ _ _ _ _ Hcalc).
    rewrite length_fmap, !length_zip_with. lia. }
  assert (Hflow : Forall (λ x, 0 <= x ∧ x <= 10)
                    (run_flow ds ss vs gts es acs)).
  { apply Forall_lookup. intros i x Hx.
    assert (Hi : (i < length ds)%nat).
    { rewrite <- (run_flow_length ds ss vs gts es acs Hss Hvs Hgs).
      by eapply lookup_lt_Some. }
    destruct (init_lookups ds ss vs gts es acs Hss Hvs Hgs i Hi)
      as (d & sp & gt & v & Hd & Hsp & Hgt & Hv & Hg).
    pose proof (calculate_green_times_lookup _ _ _ _ _ _ i d sp v
                  Hcalc Hd Hsp Hv) as Hgt'.
    assert (gt = green_time (d, sp, v)) as -> by congruence.
    destruct (calculated_green_time_covers d sp v) as [Hcov Hnn].
    destruct (signal_effect_bounded (__init__ ds ss vs gts es acs)
                i d sp _ Hd Hsp Hg) as (y & bs & ls & Heff & Hy).
    { destruct (Qlt_le_dec 0 sp); [right | left]; auto. }
    destruct (run_signal_effect ds ss vs gts es acs i y bs ls
                Hss Hvs Hgs Hi Heff) as (Hf & _).
    rewrite Hf in Hx. by injection Hx as <-. }
  split; [exact Hflow |].
  destruct (run_effects ds ss vs gts es acs Hss Hvs Hgs)
    as (w & Hrun & _ & _ & _ & Hr).
  eexists _, w. split; [exact Hrun |]. split; [exact Hr |].
  unfold run_flow in Hflow. rewrite Hrun in Hflow. simpl in Hflow.
  destruct (flow (self w)) as [| x fl]; [lra |].
  by apply np_mean_bounds.
Qed.



(** * Sequences of different lengths *)





(** * Properties of the interactive layer *)

Lemma io_print_eq (l : line) (p : Process) :
  io_print l p =
  (Done tt, {| stdin := stdin p; console := console p ++ [l] |}).
Proof. reflexivity. Qed.

(** ** The retry loop *)

Section Retry.
Context {A : Type}.
Variable body : IO A.

(** What holds of every value the body returns holds of the value the
    loop returns. *)
Lemma retry_post (P : A → Prop) :
  (∀ p a p', body p = (Done a, p') → P a) →
  ∀ fuel p a p', retry fuel body p = (Done (Some a), p') → P a.
Proof.
  intros Hbody. induction fuel as [| fuel IH]; intros p a p' H.
  { discriminate. }
  simpl in H. destruct (body p) as [[a0 | [msg | | e]] p0] eqn:Eb.
  - injection H as <- <-. by eapply Hbody.
  - unfold io_bind in H. rewrite io_print_eq in H. by eapply IH.
  - unfold io_bind in H. rewrite io_print_eq in H. by eapply IH.
  - discriminate.
Qed.

(** A loop whose body raises nothing but [ValueError] and [EOFError]
    raises nothing. *)
Lemma retry_returns :
  (∀ p e p', body p ≠ (Fail (Uncaught e), p')) →
  ∀ fuel p, ∃ r p', retry fuel body p = (Done r, p').
Proof.
  intros Hbody. induction fuel as [| fuel IH]; intros p.
  { by eexists _, _. }
  simpl. destruct (body p) as [[a0 | [msg | | e]] p0] eqn:Eb.
  - by eexists _, _.
  - unfold io_bind. rewrite io_print_eq. apply IH.
  - unfold io_bind. rewrite io_print_eq. apply IH.
  - by apply Hbody in Eb.
Qed.

(** The loop only adds to the console. *)
Lemma retry_console :
  (∀ p r p', body p = (r, p') → console p `prefix_of` console p') →
  ∀ fuel p r p',
    retry fuel body p = (r, p') → console p `prefix_of` console p'.
Proof.
  intros Hbody. induction fuel as [| fuel IH]; intros p r p' H.
  { injection H as _ <-. done. }
  simpl in H. destruct (body p) as [[a0 | [msg | | e]] p0] eqn:Eb;
    apply Hbody in Eb.
  - by injection H as _ <-.
  - unfold io_bind in H. rewrite io_print_eq in H. apply IH in H.
    simpl in H. etrans; [exact Eb |]. etrans; [| exact H].
    by apply prefix_app_r.
  - unfold io_bind in H. rewrite io_print_eq in H. apply IH in H.
    simpl in H. etrans; [exact Eb |]. etrans; [| exact H].
    by apply prefix_app_r.
  - by injection H as _ <-.
Qed.

(** At the end of input a body that fails with [EOFError] is retried
    without end: whatever the fuel, the loop does not return. *)
Lemma retry_eof (out : list line) :
  (∀ p, stdin p = [] →
     body p =
     (Fail EOFError, {| stdin := []; console := console p ++ out |})) →
  ∀ fuel p, stdin p = [] →
    retry fuel body p =
    (Done None,
     {| stdin := [];
        console :=
          console p ++ concat (replicate fuel (out ++ [eof_error])) |}).
Proof.
  intros Hbody. induction fuel as [| fuel IH]; intros p Hp.
  { destruct p as [i c]. simpl in *. subst. unfold io_ret.
    by rewrite app_nil_r. }
  simpl retry. rewrite (Hbody p Hp). unfold io_bind.
  rewrite io_print_eq. rewrite IH by done. simpl.
  by rewrite <- !app_assoc.
Qed.

End Retry.

(** ** Reading lists *)

Section Interactive.
Context {builtins : Builtins}.

(** [list(map(int, tokens))] touches neither the input nor the console;
    it yields one integer per token, or the [ValueError] of the first
    token that [int] rejects. *)
Lemma map_int_spec (tokens : list string) (p : Process) :
  (∃ zs, map_int tokens p = (Done zs, p)
         ∧ Forall2 (λ t z, py_int t = Some z) tokens zs)
  ∨ (∃ t, map_int tokens p = (Fail (ValueError (py_int_error t)), p)
          ∧ t ∈ tokens ∧ py_int t = None).
Proof.
  induction tokens as [| t ts IH].
  { left. exists []. split; [done | constructor]. }
  simpl. unfold io_bind, int.
  destruct (py_int t) as [z |] eqn:Ez.
  - unfold io_ret.
    destruct IH as [(zs & -> & Hzs) | (t' & -> & Ht' & En)].
    + left. exists (z :: zs). split; [done |]. by constructor.
    + right. exists t'. split; [done |]. split; [by right | done].
  - right. exists t. split; [done |]. split; [by left | done].
Qed.

Lemma get_input_list_cases (prompt : line) (expected_length : nat)
    (p : Process) :
  match get_input_list prompt expected_length p with
  | (Done values, p') =>
      length values = expected_length
      ∧ console p' = console p ++ [prompt]
      ∧ ∃ s, stdin p = s :: stdin p'
             ∧ Forall2 (λ t z, py_int t = Some z)
                 (py_split (py_strip s)) values
  | (Fail EOFError, p') =>
      stdin p = [] ∧ stdin p' = [] ∧ console p' = console p ++ [prompt]
  | (Fail (ValueError _), p') =>
      console p' = console p ++ [prompt] ∧ ∃ s, stdin p = s :: stdin p'
  | (Fail (Uncaught _), _) => False
  end.
Proof.
  unfold get_input_list, io_bind. rewrite io_print_eq.
  unfold input. simpl stdin.
  destruct (stdin p) as [| s rest] eqn:Ein; [done |].
  simpl console.
  destruct (map_int_spec (py_split (py_strip s))
              {| stdin := rest; console := console p ++ [prompt] |})
    as [(zs & -> & Hzs) | (t & -> & _)].
  - case_bool_decide as Hlen.
    + unfold io_raise. simpl. split; [done |]. by exists s.
    + unfold io_ret. simpl. split; [lia |].
      split; [done |]. by exists s.
  - simpl. split; [done |]. by exists s.
Qed.

Lemma existsb_false_Forall {A : Type} (f : A → bool) (l : list A) :
  existsb f l = false → Forall (λ x, f x = false) l.
Proof.
  induction l as [| x l IH]; simpl; intros H; [constructor |].
  apply orb_false_iff in H as [Hx Hl]. constructor; auto.
Qed.

Lemma get_index_list_body_cases (prompt : line) (num_signals : nat)
    (p : Process) :
  match get_index_list_body prompt num_signals p with
  | (Done indices, p') =>
      Forall (λ i, (i < Z.of_nat num_signals)%Z) indices
      ∧ console p' = console p ++ [prompt]
      ∧ ∃ s, stdin p = s :: stdin p'
             ∧ (py_strip s = "" ∧ indices = []
                ∨ py_strip s ≠ ""
                  ∧ Forall2 (λ t z, py_int t = Some z)
                      (py_split (py_strip s)) indices)
  | (Fail EOFError, p') =>
      stdin p = [] ∧ stdin p' = [] ∧ console p' = console p ++ [prompt]
  | (Fail (ValueError _), p') =>
      console p' = console p ++ [prompt] ∧ ∃ s, stdin p = s :: stdin p'
  | (Fail (Uncaught _), _) => False
  end.
Proof.
  unfold get_index_list_body, io_bind. rewrite io_print_eq.
  unfold input. simpl stdin.
  destruct (stdin p) as [| s rest] eqn:Ein; [done |].
  simpl console. case_bool_decide as Hblank.
  { unfold io_ret. simpl. split; [constructor |]. split; [done |].
    exists s. split; [done |]. by left. }
  destruct (map_int_spec (py_split (py_strip s))
              {| stdin := rest; console := console p ++ [prompt] |})
    as [(zs & -> & Hzs) | (t & -> & _)].
  - destruct (existsb _ zs) eqn:Hany.
    + unfold io_raise. simpl. split; [done |]. by exists s.
    + unfold io_ret. simpl. split.
      * apply existsb_false_Forall in Hany.
        eapply Forall_impl; [exact Hany |]. simpl. intros i Hi. lia.
      * split; [done |]. exists s. split; [done |]. by right.
  - simpl. split; [done |]. by exists s.
Qed.

Lemma get_user_input_body_cases (p : Process) :
  match get_user_input_body p with
  | (Done (num_signals, distances, speeds, volumes), p') =>
      (0 < num_signals)%nat
      ∧ length distances = num_signals
      ∧ length speeds = num_signals
      ∧ length volumes = num_signals
  | (Fail EOFError, p') => stdin p' = []
  | (Fail (ValueError _), _) => True
  | (Fail (Uncaught _), _) => False
  end.
Proof.
  unfold get_user_input_body, input_prompt, io_bind.
  rewrite io_print_eq. unfold input. simpl stdin.
  destruct (stdin p) as [| s rest]; [done |].
  unfold int. destruct (py_int (py_strip s)) as [z |]; [| done].
  unfold io_ret at 1. cbv beta iota.
  destruct (z <=? 0)%Z eqn:Hz; [done |]. apply Z.leb_gt in Hz.
  match goal with
  | |- context [get_input_list ?pr ?n ?q] =>
      pose proof (get_input_list_cases pr n q) as H1;
      destruct (get_input_list pr n q) as [[ds | [m | | e]] p1];
      try done; [| by destruct H1 as (_ & ? & _)]
  end.
  match goal with
  | |- context [get_input_list ?pr ?n ?q] =>
      pose proof (get_input_list_cases pr n q) as H2;
      destruct (get_input_list pr n q) as [[ss | [m | | e]] p2];
      try done; [| by destruct H2 as (_ & ? & _)]
  end.
  match goal with
  | |- context [get_input_list ?pr ?n ?q] =>
      pose proof (get_input_list_cases pr n q) as H3;
      destruct (get_input_list pr n q) as [[vs | [m | | e]] p3];
      try done; [| by destruct H3 as (_ & ? & _)]
  end.
  unfold io_ret.
  destruct H1 as (? & _). destruct H2 as (? & _). destruct H3 as (? & _).
  repeat split; try done. lia.
Qed.

(** X19. [get_input_list] prints its prompt exactly once and reads at
    most one line.  If it returns, the list has exactly
    [expected_length] integers, one for each token of the stripped line.
    Otherwise it raises [EOFError] (when there is no line left) or
    [ValueError] (a token is not an integer, or the count is wrong),
    having consumed the line. *)
Theorem get_input_list_spec (prompt : line) (expected_length : nat)
    (p : Process) :
  match get_input_list prompt expected_length p with
  | (Done values, p') =>
      length values = expected_length
      ∧ console p' = console p ++ [prompt]
      ∧ ∃ s, stdin p = s :: stdin p'
             ∧ Forall2 (λ t z, py_int t = Some z)
                 (py_split (py_strip s)) values
  | (Fail EOFError, p') =>
      stdin p = [] ∧ stdin p' = [] ∧ console p' = console p ++ [prompt]
  | (Fail (ValueError _), p') =>
      console p' = console p ++ [prompt] ∧ ∃ s, stdin p = s :: stdin p'
  | (Fail (Uncaught _), _) => False
  end.
Proof. apply get_input_list_cases. Qed.

Lemma get_user_input_lengths_aux (fuel : nat) (p : Process)
    (num_signals : nat) (distances speeds volumes : list Z)
    (p' : Process) :
  get_user_input fuel p
  = (Done (Some (num_signals, distances, speeds, volumes)), p') →
  (0 < num_signals)%nat
  ∧ length distances = num_signals
  ∧ length speeds = num_signals
  ∧ length volumes = num_signals.
Proof.
  intros Hret.
  apply (retry_post get_user_input_body
           (λ r, (0 < r.1.1.1)%nat ∧ length r.1.1.2 = r.1.1.1
                 ∧ length r.1.2 = r.1.1.1 ∧ length r.2 = r.1.1.1)
           ) in Hret; [exact Hret |].
  intros q [[[n ds] ss] vs] q' Hbody.
  pose proof (get_user_input_body_cases q) as Hcases.
  by rewrite Hbody in Hcases.
Qed.

(** X20. When [get_user_input] returns, the number of signals is positive
    and the three lists have exactly that many entries each: the lengths
    that [simulate] relies on are established here, however many attempts
    the user needed. *)
Theorem get_user_input_lengths (fuel : nat) (p : Process)
    (num_signals : nat) (distances speeds volumes : list Z)
    (p' : Process) :
  get_user_input fuel p
  = (Done (Some (num_signals, distances, speeds, volumes)), p') →
  (0 < num_signals)%nat
  ∧ length distances = num_signals
  ∧ length speeds = num_signals
  ∧ length volumes = num_signals.
Proof. apply get_user_input_lengths_aux. Qed.

(** X21. When [get_index_list] returns, every index is below the number of
    signals.  Only the upper bound is checked: negative integers are
    returned as they are.  The indices that can name a signal are therefore
    all valid. *)
Theorem get_index_list_bounds (fuel : nat) (prompt : line)
    (num_signals : nat) (p : Process) (indices : list Z) (p' : Process) :
  get_index_list fuel prompt num_signals p = (Done (Some indices), p') →
  Forall (λ i, (i < Z.of_nat num_signals)%Z) indices
  ∧ Forall (λ j, (j < num_signals)%nat) (nat_indices indices).
Proof.
  intros Hret.
  assert (Hupper : Forall (λ i, (i < Z.of_nat num_signals)%Z) indices).
  { apply (retry_post (get_index_list_body prompt num_signals)
             (Forall (λ i, (i < Z.of_nat num_signals)%Z))) in Hret;
      [exact Hret |].
    intros q l q' Hbody.
    pose proof (get_index_list_body_cases prompt num_signals q) as Hcases.
    rewrite Hbody in Hcases. by destruct Hcases. }
  split; [exact Hupper |].
  apply Forall_forall. intros j Hj. unfold nat_indices in Hj.
  apply list_elem_of_omap in Hj as (z & Hz & Hj).
  rewrite Forall_forall in Hupper. specialize (Hupper z Hz). simpl in Hupper.
  destruct (0 <=? z)%Z eqn:E; [| discriminate].
  injection Hj as <-. apply Z.leb_le in E. lia.
Qed.

(** ** The end of input *)

Lemma get_index_list_body_eof (prompt : line) (num_signals : nat)
    (p : Process) :
  stdin p = [] →
  get_index_list_body prompt num_signals p =
  (Fail EOFError, {| stdin := []; console := console p ++ [prompt] |}).
Proof.
  intros Hp. unfold get_index_list_body, io_bind. rewrite io_print_eq.
  unfold input. simpl. by rewrite Hp.
Qed.

Lemma get_user_input_body_eof (p : Process) :
  stdin p = [] →
  get_user_input_body p =
  (Fail EOFError,
   {| stdin := [];
      console := console p ++ [[Text "Enter the number of signals: "]] |}).
Proof.
  intros Hp. unfold get_user_input_body, input_prompt, io_bind.
  rewrite io_print_eq. unfold input. simpl. by rewrite Hp.
Qed.

(** X22. At the end of input the retry loops never return.  [input]
    raises [EOFError], the handler prints its message, and the loop asks
    again: after any number of rounds the function is still looping, the
    console holding one prompt and one error message per round.  [main]
    therefore never gets past [get_user_input] on an empty input. *)
Theorem end_of_input_never_returns (fuel : nat) (p : Process) :
  stdin p = [] →
  get_user_input fuel p =
    (Done None,
     {| stdin := [];
        console :=
          console p
          ++ concat (replicate fuel
                       ([[Text "Enter the number of signals: "]]
                        ++ [eof_error])) |})
  ∧ (∀ prompt num_signals,
       get_index_list fuel prompt num_signals p =
       (Done None,
        {| stdin := [];
           console :=
             console p
             ++ concat (replicate fuel ([prompt] ++ [eof_error])) |}))
  ∧ (main fuel p).1 = Done None.
Proof.
  intros Hp.
  assert (Hinput : get_user_input fuel p =
            (Done None,
             {| stdin := [];
                console :=
                  console p
                  ++ concat (replicate fuel
                               ([[Text "Enter the number of signals: "]]
                                ++ [eof_error])) |})).
  { apply (retry_eof get_user_input_body); [| exact Hp].
    apply get_user_input_body_eof. }
  split; [exact Hinput |]. split.
  - intros prompt num_signals.
    apply (retry_eof (get_index_list_body prompt num_signals));
      [| exact Hp].
    intros q. apply get_index_list_body_eof.
  - unfold main, io_bind. by rewrite Hinput.
Qed.

(** ** [main] *)

(** [simulate] on a fresh object and a console that already holds lines
    is a run on an empty console, with its lines added behind them. *)
Lemma simulate_on_console (ds ss vs gs : list Q) (es acs : list nat)
    (out : list line) :
  simulate {| self := __init__ ds ss vs gs es acs; stdout := out |} =
  let '(r, w) := run ds ss vs gs es acs in
  (r, {| self := self w; stdout := out ++ stdout w |}).
Proof.
  set (s0 := __init__ ds ss vs gs es acs).
  set (w0 := {| self := s0; stdout := out |}).
  unfold run. fold s0. change {| self := s0; stdout := [] |} with (blank w0).
  unfold simulate, bind, gets.
  change (optimize_signals (self (blank w0)))
    with (optimize_signals (self w0)).
  change (length (distances (self (blank w0))))
    with (length (distances (self w0))).
  rewrite (for_in_simulate_signal_frame _ _ w0).
  pose proof (for_in_simulate_signal_blank (optimize_signals (self w0))
                (range (length (distances (self w0)))) (blank w0)) as Hb.
  destruct (for_in _ _ (blank w0)) as [[[] | e] w1]; simpl in Hb.
  - destruct w1 as [[ds1 ss1 vs1 gs1 es1 acs1 fl1 bad1 rt1] out1].
    unfold blank in Hb; simpl in Hb.
    injection Hb as -> -> -> -> -> -> ->. reflexivity.
  - destruct w1 as [[ds1 ss1 vs1 gs1 es1 acs1 fl1 bad1 rt1] out1].
    unfold blank in Hb; simpl in Hb.
    injection Hb as -> -> -> -> -> -> ->. reflexivity.
Qed.

Lemma on_console_calculate (ds ss vs : list Q) (p : Process) :
  on_console (calculate_green_times ds ss vs) p =
  (Done (green_time <$> zip (zip ds ss) vs),
   {| stdin := stdin p;
      console :=
        console p
        ++ ((λ t, speed_warning t.1.1)
              <$> filter (λ t, Qle_bool t.1.2 0) (zip (zip ds ss) vs)) |}).
Proof.
  unfold on_console, calculate_green_times.
  by rewrite calculate_green_times_loop_eq.
Qed.

Lemma on_simulation_simulate (ds ss vs gs : list Q) (es acs : list nat)
    (p : Process) (r : Q) (w : World) :
  run ds ss vs gs es acs = (Return r, w) →
  on_simulation (__init__ ds ss vs gs es acs) simulate p =
  (Done (r, self w),
   {| stdin := stdin p; console := console p ++ stdout w |}).
Proof.
  intros Hrun. unfold on_simulation.
  by rewrite simulate_on_console, Hrun.
Qed.

Lemma print_bad_scenarios (bs : list (nat * string)) (p : Process) :
  io_for_in bs
    (λ '(index, reason),
       io_print [Text "Signal "; Int index; Text ": "; Text reason]) p =
  (Done tt,
   {| stdin := stdin p;
      console :=
        console p
        ++ ((λ b, [Text "Signal "; Int b.1; Text ": "; Text b.2])
              <$> bs) |}).
Proof.
  revert p. induction bs as [| [index reason] bs IH]; intros p.
  { destruct p. simpl. unfold io_ret. by rewrite app_nil_r. }
  simpl io_for_in. unfold io_bind. rewrite io_print_eq, IH. simpl.
  by rewrite <- app_assoc.
Qed.

Lemma get_input_list_console (prompt : line) (expected_length : nat)
    (p : Process) :
  console (get_input_list prompt expected_length p).2
  = console p ++ [prompt].
Proof.
  pose proof (get_input_list_cases prompt expected_length p) as H.
  destruct (get_input_list prompt expected_length p)
    as [[values | [m | | e]] p']; simpl; [| | | done].
  - by destruct H as (_ & ? & _).
  - by destruct H as (? & _).
  - by destruct H as (_ & _ & ?).
Qed.

Lemma get_index_list_body_console (prompt : line) (num_signals : nat)
    (p : Process) (r : io_outcome (list Z)) (p' : Process) :
  get_index_list_body prompt num_signals p = (r, p') →
  console p `prefix_of` console p'.
Proof.
  intros Hb.
  pose proof (get_index_list_body_cases prompt num_signals p) as H.
  rewrite Hb in H. exists [prompt].
  destruct r as [indices | [m | | e]]; [| | | done].
  - by destruct H as (_ & ? & _).
  - by destruct H as (? & _).
  - by destruct H as (_ & _ & ?).
Qed.

Lemma get_user_input_body_console (p : Process)
    (r : io_outcome (nat * list Z * list Z * list Z)) (p' : Process) :
  get_user_input_body p = (r, p') → console p `prefix_of` console p'.
Proof.
  unfold get_user_input_body, input_prompt, io_bind.
  rewrite io_print_eq. unfold input. simpl stdin.
  destruct (stdin p) as [| s rest].
  { intros H. injection H as _ <-. by apply prefix_app_r. }
  set (p0 := {| stdin := rest; console := _ |}).
  assert (H0 : console p `prefix_of` console p0) by by apply prefix_app_r.
  clearbody p0.
  unfold int. destruct (py_int (py_strip s)) as [z |];
    [| intros H; by injection H as _ <-].
  unfold io_ret at 1. cbv beta iota.
  destruct (z <=? 0)%Z; [intros H; by injection H as _ <- |].
  match goal with
  | |- context [get_input_list ?pr ?n ?q] =>
      pose proof (get_input_list_console pr n q) as H1;
      destruct (get_input_list pr n q) as [[ds | e1] p1]; simpl in H1
  end.
  2: { intros H. injection H as _ <-. rewrite H1. by apply prefix_app_r. }
  match goal with
  | |- context [get_input_list ?pr ?n ?q] =>
      pose proof (get_input_list_console pr n q) as H2;
      destruct (get_input_list pr n q) as [[ss | e2] p2]; simpl in H2
  end.
  2: { intros H. injection H as _ <-. rewrite H2, H1.
       by do 2 apply prefix_app_r. }
  match goal with
  | |- context [get_input_list ?pr ?n ?q] =>
      pose proof (get_input_list_console pr n q) as H3;
      destruct (get_input_list pr n q) as [[vs | e3] p3]; simpl in H3
  end.
  2: { intros H. injection H as _ <-. rewrite H3, H2, H1.
       by do 3 apply prefix_app_r. }
  intros H. injection H as _ <-. rewrite H3, H2, H1.
  by do 3 apply prefix_app_r.
Qed.

Lemma get_user_input_returns (fuel : nat) (p : Process) :
  ∃ r p', get_user_input fuel p = (Done r, p')
          ∧ console p `prefix_of` console p'.
Proof.
  destruct (retry_returns get_user_input_body) with (fuel := fuel) (p := p)
    as (r & p' & Hret).
  { intros q e q' Hb. pose proof (get_user_input_body_cases q) as Hc.
    by rewrite Hb in Hc. }
  exists r, p'. split; [exact Hret |].
  eapply (retry_console get_user_input_body); [| exact Hret].
  apply get_user_input_body_console.
Qed.

Lemma get_index_list_returns (fuel : nat) (prompt : line)
    (num_signals : nat) (p : Process) :
  ∃ r p', get_index_list fuel prompt num_signals p = (Done r, p')
          ∧ console p `prefix_of` console p'.
Proof.
  destruct (retry_returns (get_index_list_body prompt num_signals))
    with (fuel := fuel) (p := p) as (r & p' & Hret).
  { intros q e q' Hb.
    pose proof (get_index_list_body_cases prompt num_signals q) as Hc.
    by rewrite Hb in Hc. }
  exists r, p'. split; [exact Hret |].
  eapply (retry_console (get_index_list_body prompt num_signals));
    [| exact Hret].
  apply get_index_list_body_console.
Qed.

Lemma get_emergency_accident_input_returns (fuel : nat)
    (num_signals : nat) (p : Process) :
  ∃ r p', get_emergency_accident_input fuel num_signals p = (Done r, p')
          ∧ console p `prefix_of` console p'.
Proof.
  unfold get_emergency_accident_input, io_bind.
  match goal with
  | |- context [get_index_list fuel ?pr num_signals p] =>
      destruct (get_index_list_returns fuel pr num_signals p)
        as (r1 & p1 & -> & Hp1)
  end.
  destruct r1 as [emergencies |]; [| by exists None, p1].
  match goal with
  | |- context [get_index_list fuel ?pr num_signals p1] =>
      destruct (get_index_list_returns fuel pr num_signals p1)
        as (r2 & p2 & -> & Hp2)
  end.
  destruct r2 as [accidents |]; eexists _, p2;
    (split; [reflexivity | by etrans]).
Qed.

Lemma length_numbers (zs : list Z) : length (numbers zs) = length zs.
Proof. apply length_fmap. Qed.

Lemma main_outcome (fuel : nat) (p : Process) :
  ∃ r p',
    main fuel p = (Done r, p')
    ∧ console p `prefix_of` console p'
    ∧ (r = Some tt →
       ∃ rating,
         0 <= rating ∧ rating <= 10
         ∧ [Text "Simulation Rating (1-10): "; Text (format_2f rating)]
           ∈ console p').
Proof.
  unfold main, io_bind.
  destruct (get_user_input_returns fuel p) as (r1 & p1 & E1 & Hp1).
  rewrite E1.
  destruct r1 as [[[[n ds] ss] vs] |];
    [| exists None, p1; by repeat split].
  destruct (get_user_input_lengths_aux fuel p n ds ss vs p1 E1)
    as (_ & Hds & Hss & Hvs).
  destruct (get_emergency_accident_input_returns fuel n p1)
    as (r2 & p2 & -> & Hp2).
  destruct r2 as [[es acs] |];
    [| exists None, p2; repeat split; [by etrans | done]].
  rewrite on_console_calculate. rewrite io_print_eq. simpl console.
  simpl stdin.
  set (gts := green_time <$> _).
  destruct (calculated_run_bounds (numbers ds) (numbers ss) (numbers vs)
              (nat_indices es) (nat_indices acs) [] gts
              ((λ t, speed_warning t.1.1)
                 <$> filter (λ t, Qle_bool t.1.2 0)
                       (zip (zip (numbers ds) (numbers ss)) (numbers vs))))
    as (_ & rating & w & Hrun & _ & Hlo & Hhi).
  { unfold calculate_green_times.
    by rewrite calculate_green_times_loop_eq. }
  { rewrite !length_numbers. congruence. }
  { rewrite !length_numbers. congruence. }
  rewrite (on_simulation_simulate _ _ _ _ _ _ _ rating w Hrun).
  rewrite io_print_eq. simpl console. simpl stdin.
  match goal with
  | |- context [{| stdin := stdin p2; console := ?c0 |}] => set (c := c0)
  end.
  assert (Hc : console p `prefix_of` c).
  { unfold c. do 4 apply prefix_app_r. by etrans. }
  assert (Hin : [Text "Simulation Rating (1-10): ";
                 Text (format_2f rating)] ∈ c).
  { unfold c. apply elem_of_app. right. by left. }
  clearbody c.
  case_bool_decide.
  - rewrite io_print_eq. simpl. rewrite print_bad_scenarios. simpl.
    eexists _, _. split; [reflexivity |]. simpl. split.
    + by do 2 apply prefix_app_r.
    + intros _. exists rating. split; [done |]. split; [done |].
      apply elem_of_app. left. apply elem_of_app. by left.
  - unfold io_ret. eexists _, _. split; [reflexivity |]. simpl.
    split; [done |]. intros _. by exists rating.
Qed.

(** X23. No exception escapes [main]: whatever is typed, and however the
    input ends, [main] neither raises [ValueError] or [EOFError] (the
    retry loops handle them) nor [IndexError] or [ZeroDivisionError] (the
    lists it hands to [simulate] are equally long, and a zero speed is
    handled).  It only ever adds lines to the console.  (Numbers are exact
    here, so the overflow of a float is outside this statement.) *)
Theorem main_never_raises (fuel : nat) (p : Process) :
  ∃ r p',
    main fuel p = (Done r, p') ∧ console p `prefix_of` console p'.
Proof.
  destruct (main_outcome fuel p) as (r & p' & Hmain & Hprefix & _).
  by exists r, p'.
Qed.

(** X24. When [main] runs to its end it has printed the line
    "Simulation Rating (1-10): " with a rating between 0 and 10, whatever
    integers were entered: negative distances, speeds or volumes cannot
    push the reported rating out of that range. *)
Theorem main_reports_rating (fuel : nat) (p p' : Process) :
  main fuel p = (Done (Some tt), p') →
  ∃ rating,
    0 <= rating ∧ rating <= 10
    ∧ [Text "Simulation Rating (1-10): "; Text (format_2f rating)]
      ∈ console p'.
Proof.
  intros Hmain.
  destruct (main_outcome fuel p) as (r & p'' & Hmain' & _ & Hrating).
  rewrite Hmain in Hmain'. injection Hmain' as <- <-. by apply Hrating.
Qed.

End Interactive.

Lemma get_user_input_lengths_witness :
  (0 < 2)%nat
  ∧ length [100; 50]%Z = 2%nat
  ∧ length [10; 5]%Z = 2%nat
  ∧ length [30; 0]%Z = 2%nat.
Proof.
  eapply (get_user_input_lengths (builtins := ascii_builtins) 2
            {| stdin := ["two"; "2"; "100 50"; "10 5"; "30 0"];
               console := [] |}).
  reflexivity.
Defined.

Lemma get_index_list_bounds_witness :
  Forall (λ i, (i < Z.of_nat 3)%Z) [-1; 2]%Z
  ∧ Forall (λ j, (j < 3)%nat) (nat_indices [-1; 2]%Z).
Proof.
  eapply (get_index_list_bounds (builtins := ascii_builtins) 2
            [Text "indices:"] 3
            {| stdin := ["5"; "-1 2"]; console := [] |}).
  reflexivity.
Defined.

Lemma end_of_input_never_returns_witness :
  get_user_input (builtins := ascii_builtins) 2
    {| stdin := []; console := [] |} =
    (Done None,
     {| stdin := [];
        console :=
          [] ++ concat (replicate 2
                          ([[Text "Enter the number of signals: "]]
                           ++ [eof_error])) |})
  ∧ (∀ prompt num_signals,
       get_index_list (builtins := ascii_builtins) 2 prompt num_signals
         {| stdin := []; console := [] |} =
       (Done None,
        {| stdin := [];
           console :=
             [] ++ concat (replicate 2 ([prompt] ++ [eof_error])) |}))
  ∧ (main (builtins := ascii_builtins) 2
       {| stdin := []; console := [] |}).1 = Done None.
Proof.
  apply (end_of_input_never_returns (builtins := ascii_builtins) 2
           {| stdin := []; console := [] |}).
  reflexivity.
Defined.

Lemma main_reports_rating_witness :
  ∃ rating,
    0 <= rating ∧ rating <= 10
    ∧ [Text "Simulation Rating (1-10): "; Text (format_2f rating)]
      ∈ console
          (main (builtins := ascii_builtins) 1
             {| stdin := ["2"; "100 50"; "10 0"; "30 0"; ""; "1"];
                console := [] |}).2.
Proof.
  apply (main_reports_rating (builtins := ascii_builtins) 1
           {| stdin := ["2"; "100 50"; "10 0"; "30 0"; ""; "1"];
              console := [] |}).
  by vm_compute.
Defined.

(** ** Well-formed input is accepted *)

Section Accepted.
Context {builtins : Builtins}.

Lemma map_int_complete (tokens : list string) (zs : list Z) (p : Process) :
  Forall2 (λ t z, py_int t = Some z) tokens zs →
  map_int tokens p = (Done zs, p).
Proof.
  induction 1 as [| t z ts zs Hz _ IH]; [done |].
  simpl. unfold io_bind, int. rewrite Hz. unfold io_ret at 1.
  by rewrite IH.
Qed.

Lemma get_input_list_accepts (prompt : line) (expected_length : nat)
    (s : string) (rest : list string) (c : list line) (values : list Z) :
  Forall2 (λ t z, py_int t = Some z) (py_split (py_strip s)) values →
  length values = expected_length →
  get_input_list prompt expected_length {| stdin := s :: rest; console := c |}
  = (Done values, {| stdin := rest; console := c ++ [prompt] |}).
Proof.
  intros Hvalues Hlen. unfold get_input_list, io_bind.
  rewrite io_print_eq. unfold input. simpl.
  rewrite (map_int_complete _ values) by done.
  by rewrite bool_decide_eq_false_2 by (intros Hne; by apply Hne).
Qed.

(** X25. [get_user_input] accepts well-formed input at the first attempt:
    a line holding a positive integer [n], followed by three lines of [n]
    integers each, is returned as it was typed.  Exactly these four lines
    are consumed and exactly the four prompts are printed. *)
Theorem get_user_input_accepts (fuel : nat) (sn sd ss sv : string)
    (rest : list string) (c : list line) (n : Z)
    (distances speeds volumes : list Z) :
  py_int (py_strip sn) = Some n → (0 < n)%Z →
  Forall2 (λ t z, py_int t = Some z) (py_split (py_strip sd)) distances →
  Forall2 (λ t z, py_int t = Some z) (py_split (py_strip ss)) speeds →
  Forall2 (λ t z, py_int t = Some z) (py_split (py_strip sv)) volumes →
  length distances = Z.to_nat n →
  length speeds = Z.to_nat n →
  length volumes = Z.to_nat n →
  get_user_input (S fuel)
    {| stdin := sn :: sd :: ss :: sv :: rest; console := c |} =
  (Done (Some (Z.to_nat n, distances, speeds, volumes)),
   {| stdin := rest;
      console :=
        c ++ [[Text "Enter the number of signals: "];
              [Text "Enter distances between "; Int (Z.to_nat n);
               Text " signals (space-separated):"];
              [Text "Enter vehicle speeds for "; Int (Z.to_nat n);
               Text " signals (space-separated):"];
              [Text "Enter traffic volumes at "; Int (Z.to_nat n);
               Text " signals (space-separated):"]] |}).
Proof.
  intros Hn Hpos Hd Hs Hv Hld Hls Hlv.
  unfold get_user_input. simpl retry.
  unfold get_user_input_body, input_prompt, io_bind.
  rewrite io_print_eq. unfold input. simpl.
  unfold int. rewrite Hn. unfold io_ret at 1. cbv beta iota.
  rewrite (proj2 (Z.leb_gt n 0)) by done.
  rewrite (get_input_list_accepts _ _ sd _ _ distances) by done.
  rewrite (get_input_list_accepts _ _ ss _ _ speeds) by done.
  rewrite (get_input_list_accepts _ _ sv _ _ volumes) by done.
  unfold io_ret. by rewrite <- !app_assoc.
Qed.

(** X26. [get_index_list] accepts at the first attempt a line that is
    empty once stripped, returning the empty list ("press Enter to
    skip"), and a line of integers that are all below the number of
    signals, returning them as typed: a negative index is accepted.  One
    line is consumed and the prompt is printed once. *)
Theorem get_index_list_accepts (fuel : nat) (prompt : line)
    (num_signals : nat) (s : string) (rest : list string) (c : list line)
    (indices : list Z) :
  py_strip s = "" ∧ indices = []
  ∨ py_strip s ≠ ""
    ∧ Forall2 (λ t z, py_int t = Some z) (py_split (py_strip s)) indices
    ∧ Forall (λ i, (i < Z.of_nat num_signals)%Z) indices →
  get_index_list (S fuel) prompt num_signals
    {| stdin := s :: rest; console := c |} =
  (Done (Some indices), {| stdin := rest; console := c ++ [prompt] |}).
Proof.
  intros Hline. unfold get_index_list. simpl retry.
  unfold get_index_list_body, io_bind. rewrite io_print_eq.
  unfold input. simpl.
  destruct Hline as [[Hblank ->] | (Hne & Hparse & Hupper)].
  - by rewrite bool_decide_eq_true_2.
  - rewrite bool_decide_eq_false_2 by done.
    rewrite (map_int_complete _ indices) by done.
    assert (Hany : existsb (λ i, (Z.of_nat num_signals <=? i)%Z) indices
                   = false).
    { clear Hparse. induction Hupper as [| i l Hi _ IH]; [done |].
      simpl. rewrite IH, orb_false_r. apply Z.leb_gt. exact Hi. }
    by rewrite Hany.
Qed.

End Accepted.

Lemma get_user_input_accepts_witness :
  get_user_input (builtins := ascii_builtins) 1
    {| stdin := ["2"; "100 50"; " 10 -5 "; "30 0"; "rest"];
       console := [] |} =
  (Done (Some (Z.to_nat 2, [100; 50]%Z, [10; -5]%Z, [30; 0]%Z)),
   {| stdin := ["rest"];
      console :=
        [] ++ [[Text "Enter the number of signals: "];
               [Text "Enter distances between "; Int (Z.to_nat 2);
                Text " signals (space-separated):"];
               [Text "Enter vehicle speeds for "; Int (Z.to_nat 2);
                Text " signals (space-separated):"];
               [Text "Enter traffic volumes at "; Int (Z.to_nat 2);
                Text " signals (space-separated):"]] |}).
Proof.
  apply (get_user_input_accepts (builtins := ascii_builtins));
    try reflexivity; repeat constructor.
Defined.

Lemma get_index_list_accepts_witness :
  get_index_list (builtins := ascii_builtins) 1 [Text "indices:"] 3
    {| stdin := ["-1 2"; "rest"]; console := [] |} =
  (Done (Some [-1; 2]%Z),
   {| stdin := ["rest"]; console := [] ++ [[Text "indices:"]] |}).
Proof.
  apply (get_index_list_accepts (builtins := ascii_builtins)).
  right. split; [discriminate |]. split; repeat constructor.
Defined.

(** A session: a rejected count, a zero speed, an index list that is
    rejected and one with a negative index that is accepted.  The console
    is, line for line, what the program prints. *)
Example example_session :
  main (builtins := ascii_builtins) 3
    {| stdin := ["two"; "2"; "100 50"; "10 0"; "30 0"; ""; "5"; "-1 1"];
       console := [] |} =
  (Done (Some tt),
   {| stdin := [];
      console :=
        [[Text "Enter the number of signals: "];
         [Text "Input error: ";
          Text "invalid literal for int() with base 10: '";
          Text "two"; Text "'"; Text ". Please try again."];
         [Text "Enter the number of signals: "];
         [Text "Enter distances between "; Int 2;
          Text " signals (space-separated):"];
         [Text "Enter vehicle speeds for "; Int 2;
          Text " signals (space-separated):"];
         [Text "Enter traffic volumes at "; Int 2;
          Text " signals (space-separated):"];
         [Text "Enter indices of signals with emergencies (space-separated) or press Enter to skip:"];
         [Text "Enter indices of signals with accidents (space-separated) or press Enter to skip:"];
         [Text "Input error: ";
          Text "Indices must be within the range of signals.";
          Text ". Please try again."];
         [Text "Enter indices of signals with accidents (space-separated) or press Enter to skip:"];
         [Text "Warning: Speed should be greater than zero for distance ";
          Num (inject_Z 50); Text "."];
         [Text "Calculated Green Times for each signal: ";
          Text "[";
          Num (py_max (inject_Z 100 / inject_Z 10)
                 (inject_Z 30 * 2 / 3600 * 60));
          Text ", "; Num 0; Text "]"];
         [Text "Simulation Rating (1-10): "; Text "5.00"];
         [Text "Bad Scenarios:"];
         [Text "Signal "; Int 1; Text ": "; Text "Accident"]] |}).
Proof. vm_compute. reflexivity. Qed.

(** * Monotonicity of the score *)








(** * Calling [simulate] again *)




(** * Properties on ints and binary64 floats

    The properties that depend on the numbers the program computes, on
    [Module Binary64]: the penalty score and its label (C4), the green
    times of [calculate_green_times] (C5), the exceptions that escape
    (C6), determinism (C9), smooth flow and [optimize_signals] with the
    thresholds as computed (X4, X14). *)

(** ** Two decimals *)

(** Rounding half to even gives a nearest integer. *)
Lemma round_half_even_nearest (q : Q) :
  q - (1 # 2) <= inject_Z (round_half_even q) <= q + (1 # 2).
Proof.
  destruct q as [n d]. unfold round_half_even.
  change (Qnum (n # d)) with n. change (Z.pos (Qden (n # d))) with (Z.pos d).
  pose proof (Z.div_mod n (Z.pos d) ltac:(lia)) as Hdm.
  pose proof (Z.mod_pos_bound n (Z.pos d) ltac:(lia)) as Hm.
  assert (Hc : ∀ c : Z,
    (2 * Z.abs (c * Z.pos d - n) <= Z.pos d)%Z →
    (n # d) - (1 # 2) <= inject_Z c <= (n # d) + (1 # 2)).
  { intros c Hc. unfold Qle, Qminus, Qplus, Qopp, inject_Z. simpl.
    rewrite !Pos2Z.inj_mul. split; lia. }
  apply Hc.
  destruct (Z.ltb_spec (2 * (n mod Z.pos d)) (Z.pos d)); [lia |].
  destruct (Z.ltb_spec (Z.pos d) (2 * (n mod Z.pos d))); [lia |].
  destruct (Z.even (n / Z.pos d)); lia.
Qed.

(** The text [f"{q:.2f}"] of a non-negative [q]: the digits of a nearest
    hundredth. *)
Lemma format_2f_hundredths (q : Q) :
  0 <= q →
  ∃ c : Z,
    100 * q - (1 # 2) <= inject_Z c <= 100 * q + (1 # 2)
    ∧ format_2f q =
        pretty (c / 100)%Z +:+ "." +:+ pretty (c mod 100 / 10)%Z
          +:+ pretty (c mod 10)%Z.
Proof.
  intros Hq. exists (round_half_even (Qabs q * 100)). split.
  - pose proof (round_half_even_nearest (Qabs q * 100)) as Hr.
    assert (Ha : Qabs q == q) by (by apply Qabs_pos).
    set (a := Qabs q) in *. lra.
  - unfold format_2f.
    assert (Hs : Qlt_bool q 0 = false).
    { unfold Qlt_bool. by apply negb_false_iff, Qle_bool_iff. }
    by rewrite Hs.
Qed.

Module Binary64Facts.
Import Binary64.

(** ** Comparisons *)

Lemma SFcompare_antisym (x y : spec_float) :
  SFcompare y x = option_map CompOpp (SFcompare x y).
Proof.
  destruct x as [sx | sx | | sx mx ex], y as [sy | sy | | sy my ey];
    simpl; try reflexivity; try (by destruct sx); try (by destruct sy);
    try (by destruct sx, sy).
  change PosDef.Pos.compare_cont with Pos.compare_cont.
  rewrite (Z.compare_antisym ex ey).
  destruct sx, sy; simpl; try reflexivity;
    destruct (ex ?= ey)%Z; simpl; try reflexivity.
  - by rewrite (ZC4 mx my), CompOpp_involutive.
  - by rewrite (ZC4 my mx).
Qed.

Lemma SFltb_irrefl (x : spec_float) : SFltb x x = false.
Proof.
  unfold SFltb. pose proof (SFcompare_antisym x x) as H.
  destruct (SFcompare x x) as [[] |]; try reflexivity. discriminate.
Qed.

Lemma SFltb_SFleb (x y : spec_float) :
  SFltb x y = true → SFleb y x = false.
Proof.
  unfold SFltb, SFleb. rewrite (SFcompare_antisym x y).
  by destruct (SFcompare x y) as [[] |].
Qed.

Lemma Qlt_bool_irrefl (q : Q) : Qlt_bool q q = false.
Proof.
  unfold Qlt_bool. apply negb_false_iff, Qle_bool_iff. apply Qle_refl.
Qed.

Lemma Qlt_bool_Qle_bool (p q : Q) :
  Qlt_bool p q = true → Qle_bool q p = false.
Proof. unfold Qlt_bool. by intros H%negb_true_iff. Qed.

(** [a < a] is false for every number, [nan] included. *)
Lemma py_lt_irrefl (a : number) : py_lt a a = false.
Proof.
  destruct a as [z | f]; simpl.
  - apply Z.ltb_irrefl.
  - rewrite FloatAxioms.ltb_spec. apply SFltb_irrefl.
Qed.

(** If [a < b] then [b <= a] is false. *)
Lemma py_lt_not_le (a b : number) : py_lt a b = true → py_le b a = false.
Proof.
  destruct a as [x | f], b as [y | g]; simpl.
  - intros H%Z.ltb_lt. apply Z.leb_gt. lia.
  - unfold int_lt_float, float_le_int.
    destruct (Prim2SF g) as [s | s | | s m e]; try done.
    + intros H%Z.ltb_lt. apply Z.leb_gt. lia.
    + by destruct s.
    + apply Qlt_bool_Qle_bool.
  - unfold float_lt_int, int_le_float.
    destruct (Prim2SF f) as [s | s | | s m e]; try done.
    + intros H%Z.ltb_lt. apply Z.leb_gt. lia.
    + by destruct s.
    + apply Qlt_bool_Qle_bool.
  - rewrite FloatAxioms.ltb_spec, FloatAxioms.leb_spec. apply SFltb_SFleb.
Qed.

(** [max(a, b)] is never below [b]. *)
Lemma py_max_not_below (a b : number) : py_lt (py_max a b) b = false.
Proof.
  unfold py_max. destruct (py_lt a b) eqn:E; [apply py_lt_irrefl | exact E].
Qed.


(** ** Which exceptions the operations raise *)

Lemma int_to_float_raises (z : Z) (e : exception) :
  int_to_float z = Raise e → e = OverflowError.
Proof.
  unfold int_to_float. destruct (Z.abs z <? 2 ^ 53)%Z; [done |].
  destruct (binary_normalize prec emax z 0 false); congruence.
Qed.

Lemma as_float_raises (x : number) (e : exception) :
  as_float x = Raise e → e = OverflowError.
Proof. destruct x; simpl; [apply int_to_float_raises | done]. Qed.

Lemma float_op_raises (op : float → float → float) (a b : number)
    (e : exception) :
  float_op op a b = Raise e → e = OverflowError.
Proof.
  unfold float_op.
  destruct (as_float a) eqn:Ea; [| intros [= <-]; by eapply as_float_raises].
  destruct (as_float b) eqn:Eb; [done |].
  intros [= <-]. by eapply as_float_raises.
Qed.

Lemma float_op_returns_float (op : float → float → float) (a b q : number) :
  float_op op a b = Return q → ∃ f, q = PyFloat f.
Proof.
  unfold float_op. destruct (as_float a); [| done].
  destruct (as_float b); [| done]. intros [= <-]. by eexists.
Qed.

Lemma py_mul_raises (a b : number) (e : exception) :
  py_mul a b = Raise e → e = OverflowError.
Proof. destruct a, b; simpl; try done; apply float_op_raises. Qed.


Lemma int_truediv_raises (x y : Z) (e : exception) :
  int_truediv x y = Raise e →
  e = ZeroDivisionError ∧ y = 0%Z ∨ e = OverflowError.
Proof.
  unfold int_truediv. destruct (y =? 0)%Z eqn:Ey.
  { intros [= <-]. left. split; [done |]. by apply Z.eqb_eq. }
  destruct (_ && _).
  - destruct (int_to_float x) eqn:Ex.
    + destruct (int_to_float y) eqn:Ey'; [done |].
      intros [= <-]. right. by eapply int_to_float_raises.
    + intros [= <-]. right. by eapply int_to_float_raises.
  - match goal with
    | |- context [binary_normalize ?p ?q ?m ?k ?z] =>
        destruct (binary_normalize p q m k z)
    end; try done.
    intros [= <-]. by right.
Qed.

Lemma int_truediv_returns_float (x y : Z) (q : number) :
  int_truediv x y = Return q → ∃ f, q = PyFloat f.
Proof.
  unfold int_truediv. destruct (y =? 0)%Z; [done |].
  destruct (_ && _).
  - destruct (int_to_float x); [| done].
    destruct (int_to_float y); [| done]. intros [= <-]. by eexists.
  - match goal with
    | |- context [binary_normalize ?p ?q ?m ?k ?z] =>
        destruct (binary_normalize p q m k z)
    end; try done; intros [= <-]; by eexists.
Qed.

(** [a / b] raises [ZeroDivisionError] only for a zero divisor, and
    otherwise only [OverflowError]. *)
Lemma py_truediv_raises (a b : number) (e : exception) :
  py_truediv a b = Raise e →
  e = ZeroDivisionError ∧ is_zero b = true ∨ e = OverflowError.
Proof.
  assert (Hmixed :
    match float_op PrimFloat.div a b with
    | Raise e0 => Raise e0
    | Return q => if is_zero b then Raise ZeroDivisionError else Return q
    end = Raise e →
    e = ZeroDivisionError ∧ is_zero b = true ∨ e = OverflowError).
  { destruct (float_op PrimFloat.div a b) eqn:E.
    - destruct (is_zero b); [| done]. intros [= <-]. by left.
    - intros [= <-]. right. by eapply float_op_raises. }
  destruct a as [x | f], b as [y | g]; simpl; try exact Hmixed.
  intros H. apply int_truediv_raises in H as [[-> ->] | ->]; auto.
Qed.

Lemma py_truediv_returns_float (a b q : number) :
  py_truediv a b = Return q → ∃ f, q = PyFloat f.
Proof.
  assert (Hmixed :
    match float_op PrimFloat.div a b with
    | Raise e0 => Raise e0
    | Return q => if is_zero b then Raise ZeroDivisionError else Return q
    end = Return q → ∃ f, q = PyFloat f).
  { destruct (float_op PrimFloat.div a b) eqn:E; [| done].
    destruct (is_zero b); [done |]. intros [= <-].
    by eapply float_op_returns_float. }
  destruct a as [x | f], b as [y | g]; simpl; try exact Hmixed.
  apply int_truediv_returns_float.
Qed.

Lemma volume_green_time_raises (volume : number) (e : exception) :
  volume_green_time volume = Raise e → e = OverflowError.
Proof.
  unfold volume_green_time.
  destruct (py_mul volume (PyInt 2)) as [doubled | e0] eqn:E1.
  - destruct (py_truediv doubled (PyInt 3600)) as [q | e1] eqn:E2.
    + apply py_mul_raises.
    + intros [= <-].
      apply py_truediv_raises in E2 as [[_ Hz] | ->]; [| done].
      discriminate.
  - intros [= <-]. by eapply py_mul_raises.
Qed.

Lemma format_2f_raises (x : number) (e : exception) :
  format_2f x = Raise e → e = OverflowError.
Proof.
  unfold format_2f. destruct (as_float x) eqn:E; [done |].
  intros [= <-]. by eapply as_float_raises.
Qed.

(** ** Numbers of ordinary size *)

Lemma int_to_float_exact (z : Z) :
  (Z.abs z < 2 ^ 53)%Z → ∃ f, int_to_float z = Return f.
Proof.
  intros H. unfold int_to_float.
  rewrite (proj2 (Z.ltb_lt _ _) H). by eexists.
Qed.

Lemma as_float_ordinary (x : number) :
  ordinary x → ∃ f, as_float x = Return f.
Proof.
  destruct x as [z | f]; simpl; [| by eexists].
  intros H. apply int_to_float_exact. lia.
Qed.

Lemma float_op_ordinary (op : float → float → float) (a b : number) :
  ordinary a → ordinary b → ∃ f, float_op op a b = Return (PyFloat f).
Proof.
  intros [fa Ha]%as_float_ordinary [fb Hb]%as_float_ordinary.
  unfold float_op. rewrite Ha, Hb. by eexists.
Qed.

Lemma int_truediv_exact (x y : Z) :
  (Z.abs x < 2 ^ 53)%Z → (Z.abs y < 2 ^ 53)%Z → y ≠ 0%Z →
  ∃ f, int_truediv x y = Return (PyFloat f).
Proof.
  intros Hx Hy Hnz. unfold int_truediv.
  rewrite (proj2 (Z.eqb_neq _ _) Hnz).
  rewrite (proj2 (Z.ltb_lt _ _) Hx), (proj2 (Z.ltb_lt _ _) Hy). simpl andb.
  destruct (int_to_float_exact x Hx) as [fx ->].
  destruct (int_to_float_exact y Hy) as [fy ->]. by eexists.
Qed.

(** Between numbers of ordinary size a division returns a float unless
    the divisor is zero. *)
Lemma py_truediv_ordinary (a b : number) :
  ordinary a → ordinary b → is_zero b = false →
  ∃ f, py_truediv a b = Return (PyFloat f).
Proof.
  intros Ha Hb Hz.
  assert (Hmixed : ∃ f,
    match float_op PrimFloat.div a b with
    | Raise e0 => Raise e0
    | Return q => if is_zero b then Raise ZeroDivisionError else Return q
    end = Return (PyFloat f)).
  { destruct (float_op_ordinary PrimFloat.div a b Ha Hb) as [f ->].
    rewrite Hz. by eexists. }
  destruct a as [x | f], b as [y | g]; simpl; try exact Hmixed.
  simpl in *. apply int_truediv_exact; [lia | lia |].
  by apply Z.eqb_neq.
Qed.

Lemma py_truediv_ordinary_zero (a b : number) :
  ordinary a → ordinary b → is_zero b = true →
  py_truediv a b = Raise ZeroDivisionError.
Proof.
  intros Ha Hb Hz.
  destruct a as [x | f], b as [y | g]; simpl in *.
  - unfold int_truediv. by rewrite Hz.
  - destruct (float_op_ordinary PrimFloat.div (PyInt x) (PyFloat g))
      as [q Hq]; [done | done |].
    change (match float_op PrimFloat.div (PyInt x) (PyFloat g) with
            | Raise e0 => Raise e0
            | Return q => if PrimFloat.eqb g PrimFloat.zero
                          then Raise ZeroDivisionError else Return q
            end = Raise ZeroDivisionError).
    by rewrite Hq, Hz.
  - destruct (float_op_ordinary PrimFloat.div (PyFloat f) (PyInt y))
      as [q Hq]; [done | done |].
    change (match float_op PrimFloat.div (PyFloat f) (PyInt y) with
            | Raise e0 => Raise e0
            | Return q => if (y =? 0)%Z
                          then Raise ZeroDivisionError else Return q
            end = Raise ZeroDivisionError).
    by rewrite Hq, Hz.
  - by rewrite Hz.
Qed.

Lemma volume_green_time_ordinary (volume : number) :
  ordinary volume → ∃ f, volume_green_time volume = Return (PyFloat f).
Proof.
  intros Hv. unfold volume_green_time.
  destruct volume as [z | f]; simpl in Hv |- *.
  - destruct (int_truediv_exact (z * 2) 3600) as [q Hq]; [lia | done | done |].
    rewrite Hq. by eexists.
  - by eexists.
Qed.

Lemma py_max_ordinary (a b : number) :
  ordinary a → ordinary b → ordinary (py_max a b).
Proof. unfold py_max. by destruct (py_lt a b). Qed.

(** ** One iteration of the loop of [simulate] *)

Local Arguments py_truediv : simpl never.
Local Arguments py_sub : simpl never.
Local Arguments py_mul : simpl never.
Local Arguments py_le : simpl never.
Local Arguments py_lt : simpl never.
Local Arguments py_max : simpl never.
Local Arguments py_min : simpl never.
Local Arguments format_2f : simpl never.

Ltac unfold_iteration :=
  unfold simulate_signal, try_except, bind, gets, index, lift, raise, ret,
    flow_append, bad_scenarios_append, modify, print, console_write,
    world_console; cbn.

(** An iteration that returns has appended exactly one score, recorded
    bad scenarios for its own signal only, and left the inputs alone. *)
Lemma simulate_signal_returns (opt : list number) (i : nat) (w w1 : World) :
  simulate_signal opt i w = (Return tt, w1) →
  inputs (self w1) = inputs (self w)
  ∧ rating (self w1) = rating (self w)
  ∧ (∃ x, flow (self w1) = flow (self w) ++ [x])
  ∧ (∃ bs, bad_scenarios (self w1) = bad_scenarios (self w) ++ bs
           ∧ Forall (λ b, b.1 = i) bs)
  ∧ (∃ ls, stdout w1 = stdout w ++ ls).
Proof.
  destruct w as [[ds ss vs gs es acs fl bad rt] out].
  assert (Hnil : ∀ A (l : list A), ∃ l', l = l ++ l')
    by (intros A l; exists []; by rewrite app_nil_r).
  assert (Hbad0 : ∃ bs, bad = bad ++ bs ∧ Forall (λ b, b.1 = i) bs)
    by (exists []; by rewrite app_nil_r).
  unfold_iteration.
  repeat (case_match; simplify_eq/=; try done);
    intros; simplify_eq/=;
    try (exfalso;
         match goal with
         | F : format_2f _ = Raise _ |- _ =>
             apply format_2f_raises in F; discriminate
         end);
    (split; [reflexivity |]); (split; [reflexivity |]);
    (split; [by eexists |]);
    (split; [first [exact Hbad0
                   | eexists; split; [reflexivity |]; by repeat constructor]
            |]);
    first [apply Hnil | by eexists].
Qed.




(** The iteration of a signal whose travel time is within its green time. *)
Lemma simulate_signal_smooth (opt : list number) (i : nat) (w w1 : World)
    (d sp g t : number) :
  simulate_signal opt i w = (Return tt, w1) →
  i ∉ accidents (self w) → i ∉ emergencies (self w) →
  distances (self w) !! i = Some d → speeds (self w) !! i = Some sp →
  opt !! i = Some g →
  py_truediv d sp = Return t → py_le t g = true →
  flow (self w1) = flow (self w) ++ [PyInt 10]
  ∧ bad_scenarios (self w1) = bad_scenarios (self w).
Proof.
  intros Hrun Hacc Hem Hd Hs Hg Hdiv Hle.
  destruct w as [[ds ss vs gs es acs fl bad rt] out]; simpl in *.
  revert Hrun. unfold_iteration.
  rewrite (bool_decide_eq_false_2 _ Hacc), (bool_decide_eq_false_2 _ Hem).
  simpl. rewrite Hd. simpl. rewrite Hs. simpl. rewrite Hdiv. simpl.
  rewrite Hg. simpl. rewrite Hle.
  by intros [= <-].
Qed.

(** The iteration of a signal whose travel time exceeds its green time. *)
Lemma simulate_signal_penalty (opt : list number) (i : nat) (w w1 : World)
    (d sp g t x : number) :
  simulate_signal opt i w = (Return tt, w1) →
  i ∉ accidents (self w) → i ∉ emergencies (self w) →
  distances (self w) !! i = Some d → speeds (self w) !! i = Some sp →
  opt !! i = Some g →
  py_truediv d sp = Return t → py_le t g = false →
  penalty_formula t g = Return x →
  flow (self w1) = flow (self w) ++ [x]
  ∧ if py_lt x (PyInt 5)
    then ∃ text, format_2f x = Return text
           ∧ bad_scenarios (self w1) =
               bad_scenarios (self w)
                 ++ [(i, "Low flow (Rating: " +:+ text +:+ ")")]
    else bad_scenarios (self w1) = bad_scenarios (self w).
Proof.
  intros Hrun Hacc Hem Hd Hs Hg Hdiv Hle Hx.
  destruct w as [[ds ss vs gs es acs fl bad rt] out]; simpl in *.
  revert Hrun. unfold_iteration.
  rewrite (bool_decide_eq_false_2 _ Hacc), (bool_decide_eq_false_2 _ Hem).
  simpl. rewrite Hd. simpl. rewrite Hs. simpl. rewrite Hdiv. simpl.
  rewrite Hg. simpl. rewrite Hle.
  unfold penalty_formula in Hx.
  destruct (py_sub t g) as [excess_time |]; [| done].
  destruct (py_truediv excess_time g) as [ratio |]; [| done].
  destruct (py_mul ratio (PyInt 9)) as [scaled |]; [| done].
  destruct (py_sub (PyInt 10) (py_min (PyInt 9) scaled)) as [difference |];
    [| done].
  injection Hx as <-.
  destruct (py_lt (py_max (PyInt 1) difference) (PyInt 5)).
  - destruct (format_2f (py_max (PyInt 1) difference)) as [text | e] eqn:Ef.
    + intros [= <-]. split; [done |]. by exists text.
    + apply format_2f_raises in Ef as ->. by cbn.
  - by intros [= <-].
Qed.

(** ** Iterations on numbers of ordinary size *)

Lemma py_sub_float (f : float) (b : number) :
  ordinary b → ∃ f', py_sub (PyFloat f) b = Return (PyFloat f').
Proof.
  intros Hb. unfold py_sub.
  destruct (float_op_ordinary PrimFloat.sub (PyFloat f) b) as [f' Hf];
    [done | done |].
  exists f'. by destruct b.
Qed.

Lemma py_mul_float (f : float) (b : number) :
  ordinary b → ∃ f', py_mul (PyFloat f) b = Return (PyFloat f').
Proof.
  intros Hb. unfold py_mul.
  destruct (float_op_ordinary PrimFloat.mul (PyFloat f) b) as [f' Hf];
    [done | done |].
  exists f'. by destruct b.
Qed.

Lemma py_min_ordinary (a b : number) :
  ordinary a → ordinary b → ordinary (py_min a b).
Proof. unfold py_min. by destruct (py_lt b a). Qed.

(** [10 - min(9, scaled)] for a float [scaled]: the int 1 or a float. *)
Lemma difference_ordinary (scaled : float) :
  ∃ difference,
    py_sub (PyInt 10) (py_min (PyInt 9) (PyFloat scaled)) = Return difference
    ∧ ordinary difference.
Proof.
  unfold py_min. destruct (py_lt (PyFloat scaled) (PyInt 9)).
  - destruct (float_op_ordinary PrimFloat.sub (PyInt 10) (PyFloat scaled))
      as [f Hf]; [done | done |].
    exists (PyFloat f). by split.
  - exists (PyInt 1). by split.
Qed.

Lemma format_2f_ordinary (x : number) :
  ordinary x → ∃ text, format_2f x = Return text.
Proof.
  intros [f Hf]%as_float_ordinary. unfold format_2f. rewrite Hf. by eexists.
Qed.

(** On numbers of ordinary size an iteration returns. *)
Lemma simulate_signal_ordinary (opt : list number) (i : nat) (w : World)
    (d sp g : number) :
  distances (self w) !! i = Some d → speeds (self w) !! i = Some sp →
  opt !! i = Some g →
  ordinary d → ordinary sp → ordinary g →
  ∃ w1, simulate_signal opt i w = (Return tt, w1).
Proof.
  intros Hd Hs Hg Od Os Og.
  destruct w as [[ds ss vs gs es acs fl bad rt] out]; simpl in *.
  unfold_iteration. simpl.
  destruct (bool_decide _); [by eexists |].
  destruct (bool_decide _); [by eexists |].
  simpl. rewrite Hd. simpl. rewrite Hs. simpl.
  destruct (is_zero sp) eqn:Hz.
  { rewrite (py_truediv_ordinary_zero d sp Od Os Hz). simpl. by eexists. }
  destruct (py_truediv_ordinary d sp Od Os Hz) as [t Ht].
  rewrite Ht. simpl. rewrite Hg. simpl.
  destruct (py_le (PyFloat t) g); [by eexists |].
  destruct (py_sub_float t g Og) as [excess_time He].
  rewrite He. simpl.
  destruct (is_zero g) eqn:Hzg.
  { rewrite (py_truediv_ordinary_zero (PyFloat excess_time) g I Og Hzg).
    simpl. by eexists. }
  destruct (py_truediv_ordinary (PyFloat excess_time) g I Og Hzg)
    as [ratio Hr].
  rewrite Hr. simpl.
  destruct (py_mul_float ratio (PyInt 9)) as [scaled Hsc]; [done |].
  try rewrite Hsc. simpl.
  match goal with
  | |- context [py_min (PyInt 9) (PyFloat ?s)] =>
      destruct (difference_ordinary s) as (difference & Hdiff & Odiff)
  end.
  rewrite Hdiff. simpl.
  destruct (py_lt (py_max (PyInt 1) difference) (PyInt 5)); [| by eexists].
  destruct (format_2f_ordinary (py_max (PyInt 1) difference)) as [text Ht2].
  { by apply py_max_ordinary. }
  rewrite Ht2. by eexists.
Qed.

(** ** The loop of [simulate] *)

Lemma for_in_app_returns {St A} (xs ys : list A) (body : A → M St unit)
    (σ σ2 : St) :
  for_in (xs ++ ys) body σ = (Return tt, σ2) →
  ∃ σ1, for_in xs body σ = (Return tt, σ1)
        ∧ for_in ys body σ1 = (Return tt, σ2).
Proof.
  revert σ. induction xs as [| x xs IH]; intros σ; simpl.
  - intros H. by exists σ.
  - unfold bind. destruct (body x σ) as [[[] | e] σ']; [| done].
    apply IH.
Qed.

Lemma inputs_eq (s s' : TrafficSimulation) :
  inputs s' = inputs s →
  distances s' = distances s ∧ speeds s' = speeds s
  ∧ volumes s' = volumes s ∧ green_times s' = green_times s
  ∧ emergencies s' = emergencies s ∧ accidents s' = accidents s.
Proof. unfold inputs. by intros [= -> -> -> -> -> ->]. Qed.

(** A loop over the signals [k], ..., [k + n - 1] that returns has
    appended [n] scores, recorded bad scenarios for those signals only,
    and left the inputs alone. *)
Lemma simulate_loop_returns (opt : list number) (n k : nat) (w w1 : World) :
  for_in (seq k n) (simulate_signal opt) w = (Return tt, w1) →
  inputs (self w1) = inputs (self w)
  ∧ rating (self w1) = rating (self w)
  ∧ (∃ xs, flow (self w1) = flow (self w) ++ xs ∧ length xs = n)
  ∧ (∃ bs, bad_scenarios (self w1) = bad_scenarios (self w) ++ bs
           ∧ Forall (λ b, k ≤ b.1 < k + n) bs)
  ∧ (∃ ls, stdout w1 = stdout w ++ ls).
Proof.
  revert k w. induction n as [| n IH]; intros k w; simpl.
  - intros [= <-]. repeat split; try (exists []; by rewrite app_nil_r).
  - unfold bind at 1.
    destruct (simulate_signal opt k w) as [[[] | e] w'] eqn:Hstep; [| done].
    intros Hrest.
    apply simulate_signal_returns in Hstep
      as (Hin & Hrt & [x Hfl] & (bs & Hbad & Hbs) & [ls Hout]).
    apply IH in Hrest
      as (Hin' & Hrt' & (xs & Hfl' & Hlen) & (bs' & Hbad' & Hbs')
          & [ls' Hout']).
    split; [congruence |]. split; [congruence |].
    split; [| split].
    + exists (x :: xs). rewrite Hfl', Hfl, <- app_assoc. simpl.
      by rewrite Hlen.
    + exists (bs ++ bs'). rewrite Hbad', Hbad, <- app_assoc.
      split; [done |]. apply Forall_app. split.
      * eapply Forall_impl; [exact Hbs |]. simpl. intros b ->. lia.
      * eapply Forall_impl; [exact Hbs' |]. simpl. intros b ?. lia.
    + exists (ls ++ ls'). by rewrite Hout', Hout, <- app_assoc.
Qed.


(** On numbers of ordinary size the loop returns. *)
Lemma simulate_loop_ordinary (opt : list number) (n k : nat) (w : World) :
  (∀ i, k ≤ i < k + n →
     ∃ d sp g, distances (self w) !! i = Some d
               ∧ speeds (self w) !! i = Some sp ∧ opt !! i = Some g
               ∧ ordinary d ∧ ordinary sp ∧ ordinary g) →
  ∃ w1, for_in (seq k n) (simulate_signal opt) w = (Return tt, w1).
Proof.
  revert k w. induction n as [| n IH]; intros k w Hall; simpl.
  - by eexists.
  - destruct (Hall k) as (d & sp & g & Hd & Hs & Hg & Od & Os & Og); [lia |].
    destruct (simulate_signal_ordinary opt k w d sp g) as [w' Hstep];
      try done.
    unfold bind at 1. rewrite Hstep.
    apply simulate_signal_returns in Hstep as (Hin & _).
    apply inputs_eq in Hin as (Hds & Hss & _).
    apply IH. intros i Hi. rewrite Hds, Hss. apply Hall. lia.
Qed.

(** ** [optimize_signals] *)

(** [optimize_signals] leaves the object alone; it returns
    [max(gt, volume * 2 / 3600 * 60)] for each pair of the zip, and
    raises only [OverflowError]. *)
Lemma optimize_signals_cases (w : World) :
  match optimize_signals w with
  | (Return opt, w1) =>
      w1 = w
      ∧ Forall2
          (λ z g, ∃ vg, volume_green_time z.2 = Return vg
                        ∧ g = py_max z.1 vg)
          (zip (green_times (self w)) (volumes (self w))) opt
  | (Raise e, _) => e = OverflowError
  end.
Proof.
  unfold optimize_signals, bind, gets.
  generalize (zip (green_times (self w)) (volumes (self w))) as zs.
  induction zs as [| [gt v] zs IH]; simpl.
  - split; [done | constructor].
  - unfold bind at 1. unfold bind at 1. unfold lift, ret.
    destruct (volume_green_time v) as [vg | e] eqn:E.
    + unfold bind.
      destruct (comprehension _ zs w) as [[opt | e] w1]; [| done].
      destruct IH as [-> IH]. split; [done |].
      constructor; [by exists vg | done].
    + by eapply volume_green_time_raises.
Qed.

Lemma optimize_signals_returns (w w1 : World) (opt : list number) :
  optimize_signals w = (Return opt, w1) →
  w1 = w
  ∧ length opt = length (green_times (self w)) `min` length (volumes (self w))
  ∧ ∀ i gt v, green_times (self w) !! i = Some gt →
              volumes (self w) !! i = Some v →
              ∃ vg, volume_green_time v = Return vg
                    ∧ opt !! i = Some (py_max gt vg).
Proof.
  intros H. pose proof (optimize_signals_cases w) as Hc.
  rewrite H in Hc. destruct Hc as [-> Hall]. split; [done |].
  split.
  - by rewrite <- (Forall2_length _ _ _ Hall), length_zip.
  - intros i gt v Hgt Hv.
    destruct (Forall2_lookup_l _ _ _ i (gt, v) Hall)
      as (g & Hg & vg & Hvg & ->).
    { apply lookup_zip_with_Some. by exists gt, v. }
    by exists vg.
Qed.

Lemma optimize_signals_ordinary (w : World) :
  Forall ordinary (volumes (self w)) →
  Forall ordinary (green_times (self w)) →
  ∃ opt, optimize_signals w = (Return opt, w) ∧ Forall ordinary opt.
Proof.
  intros Hvs Hgs.
  assert (Hzs : Forall (λ z, ordinary z.1 ∧ ordinary z.2)
                  (zip (green_times (self w)) (volumes (self w)))).
  { revert Hvs. generalize (volumes (self w)) as vs.
    induction Hgs as [| gt gs Hgt _ IH]; intros vs Hvs; [constructor |].
    destruct Hvs as [| v vs Hv Hvs]; simpl; [constructor |].
    constructor; [done | by apply IH]. }
  unfold optimize_signals. unfold bind at 1. unfold gets at 1.
  cbv beta iota. unfold bind at 1. unfold gets. cbv beta iota.
  induction Hzs as [| [gt v] zs [Hgt Hv] _ IH]; simpl.
  - by exists [].
  - destruct (volume_green_time_ordinary v Hv) as [vg Hvg].
    destruct IH as (opt & Hopt & Ho).
    exists (py_max gt (PyFloat vg) :: opt). split.
    + unfold bind at 1. unfold bind at 1. unfold lift at 1. rewrite Hvg.
      unfold ret at 1. unfold bind at 1. by rewrite Hopt.
    + constructor; [by apply py_max_ordinary | done].
Qed.

(** ** Asymmetry of [<] *)

Lemma SFltb_asym (x y : spec_float) : SFltb x y = true → SFltb y x = false.
Proof.
  unfold SFltb. rewrite (SFcompare_antisym x y).
  by destruct (SFcompare x y) as [[] |].
Qed.

Lemma Qlt_bool_asym (p q : Q) : Qlt_bool p q = true → Qlt_bool q p = false.
Proof.
  unfold Qlt_bool. intros H%negb_true_iff. apply negb_false_iff.
  apply Qle_bool_iff, Qlt_le_weak, Qnot_le_lt.
  intros Hle%Qle_bool_iff. congruence.
Qed.

(** If [a < b] then [b < a] is false. *)
Lemma py_lt_asym (a b : number) : py_lt a b = true → py_lt b a = false.
Proof.
  unfold py_lt. destruct a as [x | f], b as [y | g].
  - intros H%Z.ltb_lt. apply Z.ltb_ge. lia.
  - unfold int_lt_float, float_lt_int.
    destruct (Prim2SF g) as [s | s | | s m e]; try done.
    + intros H%Z.ltb_lt. apply Z.ltb_ge. lia.
    + by destruct s.
    + apply Qlt_bool_asym.
  - unfold float_lt_int, int_lt_float.
    destruct (Prim2SF f) as [s | s | | s m e]; try done.
    + intros H%Z.ltb_lt. apply Z.ltb_ge. lia.
    + by destruct s.
    + apply Qlt_bool_asym.
  - rewrite !FloatAxioms.ltb_spec. apply SFltb_asym.
Qed.

(** [max(a, b)] is never below [a] either. *)
Lemma py_max_not_below_l (a b : number) : py_lt (py_max a b) a = false.
Proof.
  unfold py_max. destruct (py_lt a b) eqn:E;
    [by apply py_lt_asym | apply py_lt_irrefl].
Qed.

Lemma finite_value_pos (m : positive) (e : Z) : 0 < finite_value false m e.
Proof.
  unfold finite_value. destruct (0 <=? e)%Z eqn:E.
  - apply Z.leb_le in E. pose proof (Z.pow_pos_nonneg 2 e) as Hp.
    unfold Qlt. simpl. nia.
  - unfold Qlt. simpl. lia.
Qed.

Lemma finite_value_neg (m : positive) (e : Z) : finite_value true m e < 0.
Proof.
  pose proof (finite_value_pos m e) as H. unfold finite_value in *.
  destruct (0 <=? e)%Z; lra.
Qed.

(** The text [f"{x:.2f}"] of a number [1 <= x < 5]: the digits of a
    nearest hundredth. *)
Lemma format_2f_nearest (x : number) :
  py_lt x (PyInt 5) = true → py_lt x (PyInt 1) = false →
  ∃ (q : Q) (c : Z),
    number_value x = Some q
    ∧ 100 * q - (1 # 2) <= inject_Z c <= 100 * q + (1 # 2)
    ∧ format_2f x =
        Return (pretty (c / 100)%Z +:+ "." +:+ pretty (c mod 100 / 10)%Z
                  +:+ pretty (c mod 10)%Z).
Proof.
  destruct x as [z | f]; unfold py_lt.
  - intros H5%Z.ltb_lt H1%Z.ltb_ge.
    exists (inject_Z z), (100 * z)%Z. split; [done |]. split.
    { rewrite inject_Z_mult. change (inject_Z 100) with 100. lra. }
    assert (Hz : z = 1%Z ∨ z = 2%Z ∨ z = 3%Z ∨ z = 4%Z) by lia.
    destruct Hz as [-> | [-> | [-> | ->]]]; by vm_compute.
  - unfold float_lt_int, format_2f, format_2f_float, as_float, number_value,
      float_value.
    destruct (Prim2SF f) as [s | s | | s m e]; try done.
    { by destruct s. }
    intros H5 H1.
    assert (H1' : 1 <= finite_value s m e).
    { unfold Qlt_bool in H1. by apply negb_false_iff, Qle_bool_iff in H1. }
    destruct s.
    { pose proof (finite_value_neg m e). lra. }
    destruct (format_2f_hundredths (finite_value false m e))
      as (c & Hc & Hfmt); [lra |].
    exists (finite_value false m e), c. split; [done |]. split; [done |].
    by rewrite Hfmt.
Qed.

(** ** [simulate] *)

Lemma bad_scenarios_at_none (i : nat) (bs : list (nat * string)) :
  Forall (λ b, b.1 ≠ i) bs → bad_scenarios_at i bs = [].
Proof.
  unfold bad_scenarios_at. induction 1 as [| b bs Hb _ IH]; [done |].
  by rewrite filter_cons_False.
Qed.

Lemma penalty_formula_at_least_one (t g x : number) :
  penalty_formula t g = Return x → py_lt x (PyInt 1) = false.
Proof.
  unfold penalty_formula.
  destruct (py_sub t g) as [excess_time |]; [| done].
  destruct (py_truediv excess_time g) as [ratio |]; [| done].
  destruct (py_mul ratio (PyInt 9)) as [scaled |]; [| done].
  destruct (py_sub (PyInt 10) (py_min (PyInt 9) scaled)) as [difference |];
    [| done].
  intros [= <-]. apply py_max_not_below_l.
Qed.

Section Simulate.
Context {numpy : Numpy}.

(** A call of [simulate] that returns has run [optimize_signals] and the
    whole loop, and then only set the rating. *)
Lemma simulate_returns (w w' : World) (r : number) :
  simulate w = (Return r, w') →
  ∃ opt w1,
    optimize_signals w = (Return opt, w)
    ∧ for_in (range (length (distances (self w)))) (simulate_signal opt) w
      = (Return tt, w1)
    ∧ inputs (self w') = inputs (self w1)
    ∧ flow (self w') = flow (self w1)
    ∧ bad_scenarios (self w') = bad_scenarios (self w1)
    ∧ stdout w' = stdout w1
    ∧ rating (self w') = Some r
    ∧ r = match flow (self w1) with
          | [] => PyInt 0
          | _ :: _ => np_mean (flow (self w1))
          end.
Proof.
  unfold simulate. unfold bind at 1.
  pose proof (optimize_signals_cases w) as Hopt.
  destruct (optimize_signals w) as [[opt | e] w0]; [| done].
  destruct Hopt as [-> _].
  unfold bind at 1. unfold gets at 1. cbv beta iota.
  unfold bind at 1.
  destruct (for_in _ _ w) as [[[] | e] w1] eqn:Hloop; [| done].
  unfold bind, gets, set_rating, modify, ret. simpl.
  intros [= <- <-]. exists opt, w1. by repeat split.
Qed.


(** On sequences of equal length holding numbers of ordinary size
    [simulate] returns. *)
Lemma simulate_ordinary (w : World) :
  length (speeds (self w)) = length (distances (self w)) →
  length (volumes (self w)) = length (distances (self w)) →
  length (green_times (self w)) = length (distances (self w)) →
  Forall ordinary (distances (self w)) → Forall ordinary (speeds (self w)) →
  Forall ordinary (volumes (self w)) →
  Forall ordinary (green_times (self w)) →
  ∃ r w', simulate w = (Return r, w').
Proof.
  intros Hss Hvs Hgs Ods Oss Ovs Ogs.
  destruct (optimize_signals_ordinary w Ovs Ogs) as (opt & Hopt & Oopt).
  pose proof (optimize_signals_returns _ _ _ Hopt) as (_ & Hlen & _).
  destruct (simulate_loop_ordinary opt (length (distances (self w))) 0 w)
    as [w1 Hloop].
  { intros i Hi.
    destruct (lookup_lt_is_Some_2 (distances (self w)) i) as [d Hd]; [lia |].
    destruct (lookup_lt_is_Some_2 (speeds (self w)) i) as [sp Hs]; [lia |].
    destruct (lookup_lt_is_Some_2 opt i) as [g Hg]; [lia |].
    exists d, sp, g. repeat split; try done.
    - by eapply Forall_lookup_1 in Ods.
    - by eapply Forall_lookup_1 in Oss.
    - by eapply Forall_lookup_1 in Oopt. }
  unfold simulate. unfold bind at 1. rewrite Hopt.
  unfold bind at 1. unfold gets at 1. cbv beta iota.
  unfold bind at 1. unfold range. rewrite Hloop.
  unfold bind, gets, set_rating, modify, ret. simpl. by eexists _, _.
Qed.

(** What a call of [simulate] that returns did at signal [i]: the
    iteration started from an object with the same inputs, and what it
    appended is what the call leaves at [i]. *)
Lemma simulate_at (w w' : World) (r : number) (i : nat) :
  simulate w = (Return r, w') → (i < length (distances (self w)))%nat →
  ∃ opt wa wb,
    optimize_signals w = (Return opt, w)
    ∧ inputs (self wa) = inputs (self w)
    ∧ simulate_signal opt i wa = (Return tt, wb)
    ∧ ∀ x bs,
        flow (self wb) = flow (self wa) ++ [x] →
        bad_scenarios (self wb) = bad_scenarios (self wa) ++ bs →
        Forall (λ b, b.1 = i) bs →
        flow (self w') !! (length (flow (self w)) + i)%nat = Some x
        ∧ bad_scenarios_at i (bad_scenarios (self w')) =
            bad_scenarios_at i (bad_scenarios (self w)) ++ bs.
Proof.
  intros (opt & w1 & Hopt & Hloop & _ & Hfl & Hbad & _)%simulate_returns Hi.
  unfold range in Hloop.
  replace (length (distances (self w)))
    with (i + S (length (distances (self w)) - S i))%nat in Hloop by lia.
  rewrite seq_app in Hloop.
  apply for_in_app_returns in Hloop as (wa & Ha & Hrest).
  simpl in Hrest. unfold bind at 1 in Hrest.
  destruct (simulate_signal opt i wa) as [[[] | e] wb] eqn:Hstep; [| done].
  apply simulate_loop_returns in Ha
    as (Hin & _ & (xs & Hxs & Hlen) & (bsa & Hbsa & Hlow) & _).
  apply simulate_loop_returns in Hrest
    as (_ & _ & (ys & Hys & _) & (bsc & Hbsc & Hhigh) & _).
  exists opt, wa, wb. split; [done |]. split; [done |]. split; [done |].
  intros x bs Hx Hbs Hown. split.
  - rewrite Hfl, Hys, Hx, Hxs, <- !app_assoc.
    rewrite lookup_app_r by lia.
    replace (length (flow (self w)) + i - length (flow (self w)))%nat with i
      by lia.
    simpl. by apply list_lookup_middle.
  - rewrite Hbad, Hbsc, Hbs, Hbsa, !bad_scenarios_at_app.
    rewrite (bad_scenarios_at_none i bsa), (bad_scenarios_at_none i bsc).
    + by rewrite (bad_scenarios_at_own i bs), !app_nil_r.
    + eapply Forall_impl; [exact Hhigh |]. simpl. intros; lia.
    + eapply Forall_impl; [exact Hlow |]. simpl. intros; lia.
Qed.

(** The object a run starts from holds the inputs and nothing else. *)
Lemma run_at (ds ss vs gs : list number) (es acs : list nat) (r : number)
    (w : World) (i : nat) :
  run ds ss vs gs es acs = (Return r, w) → (i < length ds)%nat →
  ∃ opt wa wb,
    (∀ gt v, gs !! i = Some gt → vs !! i = Some v →
       ∃ vg, volume_green_time v = Return vg
             ∧ opt !! i = Some (py_max gt vg))
    ∧ inputs (self wa) = inputs (__init__ ds ss vs gs es acs)
    ∧ simulate_signal opt i wa = (Return tt, wb)
    ∧ ∀ x bs,
        flow (self wb) = flow (self wa) ++ [x] →
        bad_scenarios (self wb) = bad_scenarios (self wa) ++ bs →
        Forall (λ b, b.1 = i) bs →
        flow (self w) !! i = Some x
        ∧ bad_scenarios_at i (bad_scenarios (self w)) = bs.
Proof.
  unfold run. intros Hrun Hi.
  destruct (simulate_at _ _ _ i Hrun Hi)
    as (opt & wa & wb & Hopt & Hin & Hstep & Hres).
  apply optimize_signals_returns in Hopt as (_ & _ & Hlook).
  exists opt, wa, wb. split; [| split; [done |]; split; [done |]].
  - intros gt v Hgt Hv. by apply Hlook.
  - intros x bs Hx Hbs Hown. by apply Hres.
Qed.

Lemma run_ordinary (ds ss vs gs : list number) (es acs : list nat) :
  length ss = length ds → length vs = length ds → length gs = length ds →
  Forall ordinary ds → Forall ordinary ss → Forall ordinary vs →
  Forall ordinary gs →
  ∃ r w, run ds ss vs gs es acs = (Return r, w).
Proof. intros. by apply simulate_ordinary. Qed.

(** C4. In the normal branch, when the travel time [t] exceeds the
    optimized green time [g], a run scores the signal
    [max(1, 10 - min(9, (t - g) / g * 9))], every operation being Python's
    on ints and binary64 floats.  The bad scenario "Low flow (Rating:
    x.xx)" is recorded exactly when that score is below 5, and x.xx are
    the digits of a hundredth nearest to the score.  That the division
    and the formula return says that the speed and the optimized green
    time are not zero.  The run returns whenever the sequences have
    equal lengths and hold floats or ints of ordinary size. *)
Theorem low_flow_rating (ds ss vs gs : list number) (es acs : list nat)
    (i : nat) (d sp gt v vg t x : number) :
  i ∉ acs → i ∉ es →
  ds !! i = Some d → ss !! i = Some sp → gs !! i = Some gt →
  vs !! i = Some v →
  volume_green_time v = Return vg →
  let g := py_max gt vg in
  py_truediv d sp = Return t →
  py_lt g t = true →
  penalty_formula t g = Return x →
  (length ss = length ds → length vs = length ds → length gs = length ds →
   Forall ordinary ds → Forall ordinary ss → Forall ordinary vs →
   Forall ordinary gs →
   ∃ r w, run ds ss vs gs es acs = (Return r, w))
  ∧ ∀ r w, run ds ss vs gs es acs = (Return r, w) →
      flow (self w) !! i = Some x
      ∧ (py_lt x (PyInt 5) = true →
         ∃ (q : Q) (c : Z),
           number_value x = Some q
           ∧ 100 * q - (1 # 2) <= inject_Z c <= 100 * q + (1 # 2)
           ∧ bad_scenarios_at i (bad_scenarios (self w)) =
               [(i, "Low flow (Rating: "
                      +:+ (pretty (c / 100)%Z +:+ "."
                             +:+ pretty (c mod 100 / 10)%Z
                             +:+ pretty (c mod 10)%Z)
                      +:+ ")")])
      ∧ (py_lt x (PyInt 5) = false →
         bad_scenarios_at i (bad_scenarios (self w)) = []).
Proof.
  intros Ha He Hd Hsp Hgt Hv Hvg g Ht Hlt Hx.
  split; [apply run_ordinary |].
  intros r w Hrun.
  assert (Hi : (i < length ds)%nat) by by eapply lookup_lt_Some.
  destruct (run_at _ _ _ _ _ _ _ _ i Hrun Hi)
    as (opt & wa & wb & Hopt & Hin & Hstep & Hres).
  destruct (Hopt gt v Hgt Hv) as (vg' & Hvg' & Hg).
  assert (vg' = vg) as -> by congruence.
  apply inputs_eq in Hin as (Hds & Hss & _ & _ & Hes & Hacs).
  destruct (simulate_signal_penalty opt i wa wb d sp g t x) as [Hfl Hbad];
    try done.
  { rewrite Hacs. simpl. by rewrite elem_of_list_to_set. }
  { rewrite Hes. simpl. by rewrite elem_of_list_to_set. }
  { by rewrite Hds. }
  { by rewrite Hss. }
  { by apply py_lt_not_le. }
  destruct (py_lt x (PyInt 5)) eqn:E5.
  - destruct Hbad as (text & Htext & Hbad).
    destruct (Hres x _ Hfl Hbad) as [Hflow Hat].
    { by repeat constructor. }
    split; [done |]. split; [| done]. intros _.
    destruct (format_2f_nearest x E5) as (q & c & Hq & Hc & Hfmt).
    { by eapply penalty_formula_at_least_one. }
    exists q, c. split; [done |]. split; [done |].
    rewrite Hat. congruence.
  - destruct (Hres x [] Hfl) as [Hflow Hat].
    { by rewrite app_nil_r. }
    { constructor. }
    split; [done |]. by split.
Qed.

End Simulate.

(** Examples run with [sequential_mean] for [np.mean]. *)
Local Abbreviation example_run := (run (numpy := sequential_mean)).

Lemma low_flow_rating_witness :
  (∃ r w, example_run [PyInt 14] [PyInt 3] [PyInt 0] [PyInt 3] [] []
          = (Return r, w))
  ∧ ∀ r w, example_run [PyInt 14] [PyInt 3] [PyInt 0] [PyInt 3] [] []
           = (Return r, w) →
      flow (self w) !! 0%nat = Some (PyFloat 0x1.3ffffffffffffp+2)
      ∧ (py_lt (PyFloat 0x1.3ffffffffffffp+2) (PyInt 5) = true →
         ∃ (q : Q) (c : Z),
           number_value (PyFloat 0x1.3ffffffffffffp+2) = Some q
           ∧ 100 * q - (1 # 2) <= inject_Z c <= 100 * q + (1 # 2)
           ∧ bad_scenarios_at 0 (bad_scenarios (self w)) =
               [(0%nat, "Low flow (Rating: "
                      +:+ (pretty (c / 100)%Z +:+ "."
                             +:+ pretty (c mod 100 / 10)%Z
                             +:+ pretty (c mod 10)%Z)
                      +:+ ")")])
      ∧ (py_lt (PyFloat 0x1.3ffffffffffffp+2) (PyInt 5) = false →
         bad_scenarios_at 0 (bad_scenarios (self w)) = []).
Proof.
  destruct (low_flow_rating (numpy := sequential_mean)
              [PyInt 14] [PyInt 3] [PyInt 0] [PyInt 3] [] [] 0
              (PyInt 14) (PyInt 3) (PyInt 3) (PyInt 0) (PyFloat 0)
              (PyFloat 0x1.2aaaaaaaaaaabp+2) (PyFloat 0x1.3ffffffffffffp+2))
    as [Hret Hres];
    try apply not_elem_of_nil; try (by vm_compute).
  split; [| exact Hres].
  apply Hret; try reflexivity; repeat constructor; by vm_compute.
Defined.

(** With distance 14, speed 3 and green time 3 the score is
    4.999999999999999: below 5, so the signal is diagnosed, and the label
    reads 5.00. *)
Example example_rating_just_below_five :
  (example_run [PyInt 14] [PyInt 3] [PyInt 0] [PyInt 3] [] []).1
  = Return (PyFloat 0x1.3ffffffffffffp+2)
  ∧ flow (self (example_run [PyInt 14] [PyInt 3] [PyInt 0] [PyInt 3] [] []).2)
    = [PyFloat 0x1.3ffffffffffffp+2]
  ∧ bad_scenarios
      (self (example_run [PyInt 14] [PyInt 3] [PyInt 0] [PyInt 3] [] []).2)
    = [(0%nat, "Low flow (Rating: 5.00)")].
Proof. by vm_compute. Qed.

(** With distance 41, speed 24 and green time 1 the score is
    3.625000000000001, and the label reads 3.63. *)
Example example_rating_above_a_tie :
  flow (self (example_run [PyInt 41] [PyInt 24] [PyInt 0] [PyInt 1] [] []).2)
  = [PyFloat 0x1.d000000000002p+1]
  ∧ bad_scenarios
      (self (example_run [PyInt 41] [PyInt 24] [PyInt 0] [PyInt 1] [] []).2)
    = [(0%nat, "Low flow (Rating: 3.63)")].
Proof. by vm_compute. Qed.

(** ** [calculate_green_times] *)










(** The green times of the witness: 0.4333333333333333 for the first
    signal, and 0 with a warning for the second, whose speed is 0. *)
Example example_green_times_binary64 :
  calculate_green_times [PyInt 0; PyInt 5] [PyInt 1; PyInt 0]
    [PyInt 13; PyInt 7] []
  = (Return [PyFloat 0x1.bbbbbbbbbbbbbp-2; PyInt 0],
     [[Text "Warning: Speed should be greater than zero for distance ";
       Num (PyInt 5); Text "."]]).
Proof. by vm_compute. Qed.

(** ** Exceptions *)


Section Exceptions.
Context {numpy : Numpy}.




End Exceptions.



(** ** Determinism *)






Section Determinism.
Context {numpy : Numpy}.





End Determinism.



(** ** Further properties in floating point *)

(** X14. [optimize_signals] never lowers a green time: it leaves the
    object alone and returns, for each pair of the zip of the green times and
    the volumes, the given green time or the computed
    [volume * 2 / 3600 * 60], a value below neither of them.  It returns
    whenever the green times and the volumes are floats or ints of
    ordinary size. *)
Theorem optimize_signals_never_lowers (w : World) :
  (Forall ordinary (volumes (self w)) →
   Forall ordinary (green_times (self w)) →
   ∃ opt, optimize_signals w = (Return opt, w))
  ∧ ∀ opt w1, optimize_signals w = (Return opt, w1) →
      w1 = w
      ∧ length opt = Nat.min (length (green_times (self w)))
                       (length (volumes (self w)))
      ∧ ∀ i gt v,
          green_times (self w) !! i = Some gt →
          volumes (self w) !! i = Some v →
          ∃ vg g, volume_green_time v = Return vg
                  ∧ opt !! i = Some g
                  ∧ (g = gt ∨ g = vg)
                  ∧ py_lt g gt = false ∧ py_lt g vg = false.
Proof.
  split.
  { intros Ovs Ogs.
    destruct (optimize_signals_ordinary w Ovs Ogs) as (opt & Hopt & _).
    by exists opt. }
  intros opt w1 (-> & Hlen & Hlook)%optimize_signals_returns.
  split; [done |]. split; [done |].
  intros i gt v Hgt Hv. destruct (Hlook i gt v Hgt Hv) as (vg & Hvg & Hg).
  exists vg, (py_max gt vg). split; [done |]. split; [done |].
  split; [| split].
  - unfold py_max. destruct (py_lt gt vg); auto.
  - apply py_max_not_below_l.
  - apply py_max_not_below.
Qed.

Lemma optimize_signals_never_lowers_witness :
  ∃ opt,
    optimize_signals
      {| self := __init__ [] [] [PyInt 13; PyInt 0] [PyInt 0; PyInt 4] [] [];
         stdout := [] |}
    = (Return opt,
       {| self := __init__ [] [] [PyInt 13; PyInt 0] [PyInt 0; PyInt 4] [] [];
          stdout := [] |}).
Proof.
  apply (optimize_signals_never_lowers
           {| self := __init__ [] [] [PyInt 13; PyInt 0] [PyInt 0; PyInt 4]
                        [] [];
              stdout := [] |});
    repeat constructor; by vm_compute.
Defined.

Section Smooth.
Context {numpy : Numpy}.

(** X4. A signal outside both disruption sets whose computed travel time
    is [<=] its optimized green time (the larger of the given green time
    and the computed [volume * 2 / 3600 * 60]) gets flow 10 and no bad
    scenario; the comparison is non-strict. *)
Theorem smooth_flow_computed (ds ss vs gs : list number) (es acs : list nat)
    (i : nat) (d sp gt v vg t : number) :
  i ∉ acs → i ∉ es →
  ds !! i = Some d → ss !! i = Some sp → gs !! i = Some gt →
  vs !! i = Some v →
  volume_green_time v = Return vg →
  py_truediv d sp = Return t →
  py_le t (py_max gt vg) = true →
  (length ss = length ds → length vs = length ds → length gs = length ds →
   Forall ordinary ds → Forall ordinary ss → Forall ordinary vs →
   Forall ordinary gs →
   ∃ r w, run ds ss vs gs es acs = (Return r, w))
  ∧ ∀ r w, run ds ss vs gs es acs = (Return r, w) →
      flow (self w) !! i = Some (PyInt 10)
      ∧ bad_scenarios_at i (bad_scenarios (self w)) = [].
Proof.
  intros Ha He Hd Hsp Hgt Hv Hvg Ht Hle.
  split; [apply run_ordinary |].
  intros r w Hrun.
  assert (Hi : (i < length ds)%nat) by by eapply lookup_lt_Some.
  destruct (run_at _ _ _ _ _ _ _ _ i Hrun Hi)
    as (opt & wa & wb & Hopt & Hin & Hstep & Hres).
  destruct (Hopt gt v Hgt Hv) as (vg' & Hvg' & Hg).
  assert (vg' = vg) as -> by congruence.
  apply inputs_eq in Hin as (Hds & Hss & _ & _ & Hes & Hacs).
  destruct (simulate_signal_smooth opt i wa wb d sp (py_max gt vg) t)
    as [Hfl Hbad]; try done.
  { rewrite Hacs. simpl. by rewrite elem_of_list_to_set. }
  { rewrite Hes. simpl. by rewrite elem_of_list_to_set. }
  { by rewrite Hds. }
  { by rewrite Hss. }
  apply Hres; [done | by rewrite app_nil_r | constructor].
Qed.

End Smooth.

Lemma smooth_flow_computed_witness :
  (∃ r w, example_run [PyInt 13] [PyInt 30] [PyInt 0] [PyInt 1] [] []
          = (Return r, w))
  ∧ ∀ r w, example_run [PyInt 13] [PyInt 30] [PyInt 0] [PyInt 1] [] []
           = (Return r, w) →
      flow (self w) !! 0%nat = Some (PyInt 10)
      ∧ bad_scenarios_at 0 (bad_scenarios (self w)) = [].
Proof.
  destruct (smooth_flow_computed (numpy := sequential_mean)
              [PyInt 13] [PyInt 30] [PyInt 0] [PyInt 1] [] [] 0
              (PyInt 13) (PyInt 30) (PyInt 1) (PyInt 0) (PyFloat 0)
              (PyFloat 0x1.bbbbbbbbbbbbcp-2))
    as [Hret Hres];
    try apply not_elem_of_nil; try (by vm_compute).
  split; [| exact Hres].
  apply Hret; try reflexivity; repeat constructor; by vm_compute.
Defined.

(** With distance 13, speed 30, volume 13 and green time 0 the travel
    time 13/30 is 0.43333333333333335 while [13 * 2 / 3600 * 60] is
    0.4333333333333333: the penalty branch runs and the score is
    9.999999999999998. *)
Example example_penalty_by_rounding :
  flow (self (example_run [PyInt 13] [PyInt 30] [PyInt 13] [PyInt 0] [] []).2)
  = [PyFloat 0x1.3ffffffffffffp+3].
Proof. by vm_compute. Qed.

End Binary64Facts.
